(** * SAF life-cycle assessment model: a shallow embedding of
      [src/LCA_calculation.py] (class [SAF_LCA_Model]).

    The Python class keeps five parameter dictionaries, a nested result
    dictionary and prints narration.  Here the object is a record that is
    threaded through a small state-and-exception monad; every method of the
    class that the properties below talk about is a monadic function of the
    same name.

    Numbers.  Python evaluates the formulas in IEEE-754 binary64.  The
    methods are written once, over an interface [Arith] of the operations
    the source uses, and the interface is instantiated with [binary64]:
    Rocq's primitive floats, i.e. the arithmetic Python runs.  Structural
    properties are proved for every instance; numeric ones are stated for
    [binary64], from the specification of the primitive floats. *)

From Stdlib Require Import ZArith Lia List String Bool.
From Stdlib Require Import Floats Uint63.
Import ListNotations.

Set Implicit Arguments.
Local Open Scope string_scope.

(** ** Arithmetic interface *)

(** The operations of Python's [float] that the model uses.  [quot x y] is the
    value of [x / y] when [y] is not zero; [is_zero y] is the test [y == 0]
    that makes [x / y] raise [ZeroDivisionError]; [dec m k] is the decimal
    literal [m * 10^-k] (so [dec 62 3] is [0.062] and [dec 100 0] is [100]). *)
Class Arith (num : Type) : Type := {
  dec : Z -> nat -> num;
  add : num -> num -> num;
  sub : num -> num -> num;
  mul : num -> num -> num;
  quot : num -> num -> num;
  is_zero : num -> bool
}.

(** *** Python's arithmetic: IEEE-754 binary64 *)

Definition float_of_Z (z : Z) : float :=
  match z with
  | Zneg _ => PrimFloat.opp (PrimFloat.of_uint63 (Uint63.of_Z (Z.opp z)))
  | _ => PrimFloat.of_uint63 (Uint63.of_Z z)
  end.

(** A decimal literal denotes the double nearest to [m / 10^k]; a correctly
    rounded division of the two integers (both exact below [2^53]) gives it. *)
Definition float_dec (m : Z) (k : nat) : float :=
  PrimFloat.div (float_of_Z m) (float_of_Z (10 ^ Z.of_nat k)).

#[export] Instance binary64 : Arith float := {
  dec := float_dec;
  add := PrimFloat.add;
  sub := PrimFloat.sub;
  mul := PrimFloat.mul;
  quot := PrimFloat.div;
  is_zero := PrimFloat.is_zero
}.

(** ** Dictionaries, exceptions and the method monad *)

(** A Python [dict] with string keys, in insertion order. *)
Definition dict (V : Type) : Type := list (string * V).

Fixpoint dict_get {V : Type} (d : dict V) (k : string) : option V :=
  match d with
  | [] => None
  | (k', v) :: d' => if String.eqb k' k then Some v else dict_get d' k
  end.

Definition dict_keys {V : Type} (d : dict V) : list string := map fst d.

(** [k in d]. *)
Definition dict_mem {V : Type} (d : dict V) (k : string) : bool :=
  match dict_get d k with Some _ => true | None => false end.

(** Truth value of a dictionary: [{}] is false. *)
Definition dict_truthy {V : Type} (d : dict V) : bool :=
  match d with [] => false | _ :: _ => true end.

(** The exceptions the class can raise. *)
Inductive exception : Type :=
| ValueError (message : string)
| ZeroDivisionError
| KeyError (key : string).

(** What [print] writes.  The narration formats numbers with f-strings, which
    is not modelled: a block of narration is recorded by the method it comes
    from.  The one diagnostic, the warning of [set_electrolysis_data], is
    recorded with the source name it reports. *)
Inductive line : Type :=
| Narration (method : string)
| Warning (electricity_source : string).

Section Model.

Context {num : Type} {A : Arith num}.

(** *** Parameter groups

    Each group is the dictionary a setter stores; the fields are its keys
    (prefixed by the group, since several groups share key names).  A group
    that holds [None] is the empty dictionary [{}] of [__init__]. *)

Record conversion : Type := {
  cv_technology : string;
  cv_efficiency : num;
  cv_ghg_emissions : num;
  cv_energy_input : num;
  cv_water_usage : num;
  cv_syngas_requirement : option num;   (* key present only if given *)
  cv_co_h2_ratio : option num           (* key present only if given *)
}.

Record distribution : Type := {
  ds_transport_distance : num;
  ds_transport_mode : string;
  ds_fuel_density : num;
  ds_emission_factor : num;
  ds_energy_factor : num;
  ds_ghg_emissions : num;
  ds_energy_input : num
}.

Record use_phase : Type := {
  up_combustion_emissions : num;
  up_energy_density : num
}.

Record carbon_capture : Type := {
  cc_capture_efficiency : num;
  cc_energy_requirement : num;
  cc_ghg_emissions : num;
  cc_water_usage : num;
  cc_co2_capture_rate : num
}.

Record electrolysis : Type := {
  el_co2_electrolysis_efficiency : num;
  el_water_electrolysis_efficiency : num;
  el_electricity_source : string;
  el_electricity_carbon_intensity : num;
  el_energy_input_co : num;
  el_energy_input_h2 : num;
  el_water_usage : num
}.

(** [self.results]: created by [__init__] with these four keys, each an
    empty dictionary, and only ever assigned key by key. *)
Record lca_results : Type := {
  ghg_emissions : dict num;
  energy_consumption : dict num;
  water_usage : dict num;
  land_use : dict num
}.

(** The four top-level items of [self.results], in the order of [__init__]. *)
Definition results_items (r : lca_results) : dict (dict num) :=
  [("ghg_emissions", ghg_emissions r);
   ("energy_consumption", energy_consumption r);
   ("water_usage", water_usage r);
   ("land_use", land_use r)].

(** The object. [stdout] is what has been printed so far. *)
Record SAF_LCA_Model : Type := {
  conversion_data : option conversion;
  distribution_data : option distribution;
  use_phase_data : option use_phase;
  carbon_capture_data : option carbon_capture;
  electrolysis_data : option electrolysis;
  results : lca_results;
  stdout : list line
}.

(** *** The monad of methods: state and exceptions *)

Inductive outcome (T : Type) : Type :=
| Returned (value : T) (self : SAF_LCA_Model)
| Raised (e : exception) (self : SAF_LCA_Model).
Arguments Raised {T} e self.

Definition M (T : Type) : Type := SAF_LCA_Model -> outcome T.

Definition ret {T : Type} (x : T) : M T := fun s => Returned x s.

Definition bind {T U : Type} (m : M T) (f : T -> M U) : M U :=
  fun s => match m s with
           | Returned x s' => f x s'
           | Raised e s' => Raised e s'
           end.

Definition raise {T : Type} (e : exception) : M T := fun s => Raised e s.

Definition get : M SAF_LCA_Model := fun s => Returned s s.

Definition put (s : SAF_LCA_Model) : M unit := fun _ => Returned tt s.

Notation "x <- m ;; k" := (bind m (fun x => k))
  (at level 61, m at next level, right associativity).
Notation "m ;;; k" := (bind m (fun _ => k))
  (at level 61, right associativity).

(** [print(...)]. *)
Definition print (l : line) : M unit :=
  fun s => Returned tt
    {| conversion_data := conversion_data s;
       distribution_data := distribution_data s;
       use_phase_data := use_phase_data s;
       carbon_capture_data := carbon_capture_data s;
       electrolysis_data := electrolysis_data s;
       results := results s;
       stdout := stdout s ++ [l] |}.

(** [if not silent: print(...)]. *)
Definition narrate (silent : bool) (l : line) : M unit :=
  if silent then ret tt else print l.

(** [d[k]]: raises [KeyError] when the key is absent. *)
Definition getitem {V : Type} (d : dict V) (k : string) : M V :=
  match dict_get d k with
  | Some v => ret v
  | None => raise (KeyError k)
  end.

(** [d.get(k, default)] on an optional key. *)
Definition get_default {V : Type} (o : option V) (default : V) : V :=
  match o with Some v => v | None => default end.

(** [x / y]: raises [ZeroDivisionError] when [y == 0]. *)
Definition truediv (x y : num) : M num :=
  if is_zero y then raise ZeroDivisionError else ret (quot x y).

(** *** [__init__]

    The attributes [pathway], [functional_unit], [co2_source] and
    [ghg_factors] are set once and only ever printed; they are left out. *)

Definition empty_results : lca_results :=
  {| ghg_emissions := []; energy_consumption := [];
     water_usage := []; land_use := [] |}.

Definition init : SAF_LCA_Model :=
  {| conversion_data := None;
     distribution_data := None;
     use_phase_data := None;
     carbon_capture_data := None;
     electrolysis_data := None;
     results := empty_results;
     stdout := [Narration "__init__"] |}.

(** *** Assignments to the attributes of [self] *)

Definition assign_conversion_data (v : option conversion) : M unit :=
  fun s => Returned tt
    {| conversion_data := v;
       distribution_data := distribution_data s;
       use_phase_data := use_phase_data s;
       carbon_capture_data := carbon_capture_data s;
       electrolysis_data := electrolysis_data s;
       results := results s;
       stdout := stdout s |}.

Definition assign_distribution_data (v : option distribution) : M unit :=
  fun s => Returned tt
    {| conversion_data := conversion_data s;
       distribution_data := v;
       use_phase_data := use_phase_data s;
       carbon_capture_data := carbon_capture_data s;
       electrolysis_data := electrolysis_data s;
       results := results s;
       stdout := stdout s |}.

Definition assign_use_phase_data (v : option use_phase) : M unit :=
  fun s => Returned tt
    {| conversion_data := conversion_data s;
       distribution_data := distribution_data s;
       use_phase_data := v;
       carbon_capture_data := carbon_capture_data s;
       electrolysis_data := electrolysis_data s;
       results := results s;
       stdout := stdout s |}.

Definition assign_carbon_capture_data (v : option carbon_capture) : M unit :=
  fun s => Returned tt
    {| conversion_data := conversion_data s;
       distribution_data := distribution_data s;
       use_phase_data := use_phase_data s;
       carbon_capture_data := v;
       electrolysis_data := electrolysis_data s;
       results := results s;
       stdout := stdout s |}.

Definition assign_electrolysis_data (v : option electrolysis) : M unit :=
  fun s => Returned tt
    {| conversion_data := conversion_data s;
       distribution_data := distribution_data s;
       use_phase_data := use_phase_data s;
       carbon_capture_data := carbon_capture_data s;
       electrolysis_data := v;
       results := results s;
       stdout := stdout s |}.

Definition assign_results (v : lca_results) : M unit :=
  fun s => Returned tt
    {| conversion_data := conversion_data s;
       distribution_data := distribution_data s;
       use_phase_data := use_phase_data s;
       carbon_capture_data := carbon_capture_data s;
       electrolysis_data := electrolysis_data s;
       results := v;
       stdout := stdout s |}.

(** *** The setters *)

(** [set_conversion_data]: the two optional keys are stored only when given. *)
Definition set_conversion_data
    (technology : string) (efficiency ghg energy_input water : num)
    (syngas_requirement co_h2_ratio : option num) : M unit :=
  assign_conversion_data (Some
    {| cv_technology := technology;
       cv_efficiency := efficiency;
       cv_ghg_emissions := ghg;
       cv_energy_input := energy_input;
       cv_water_usage := water;
       cv_syngas_requirement := syngas_requirement;
       cv_co_h2_ratio := co_h2_ratio |}) ;;;
  print (Narration "set_conversion_data").

(** Emission factors by transport mode (kg CO2e per tonne-km). *)
Definition emission_factors : dict num :=
  [("truck", dec 62 3); ("rail", dec 22 3); ("ship", dec 15 3);
   ("barge", dec 31 3); ("pipeline", dec 2 3)].

(** Energy factors by transport mode (MJ per tonne-km). *)
Definition energy_factors : dict num :=
  [("truck", dec 21 1); ("rail", dec 6 1); ("ship", dec 4 1);
   ("barge", dec 8 1); ("pipeline", dec 1 1)].

(** The message of the [ValueError] for a mode outside the table. *)
Definition unsupported_mode (transport_mode : string) : string :=
  "不支持的运输方式: " ++ transport_mode
  ++ ". 可选方式: ['truck', 'rail', 'ship', 'barge', 'pipeline']".

(** [set_distribution_data]: the mode is checked first; nothing is stored when
    it is rejected.  (The Python defaults are [transport_mode="truck"],
    [fuel_density=0.8], [silent=False].) *)
Definition set_distribution_data
    (transport_distance : num) (transport_mode : string)
    (fuel_density : num) (silent : bool) : M unit :=
  if negb (dict_mem emission_factors transport_mode) then
    raise (ValueError (unsupported_mode transport_mode))
  else
    emission_factor <- getitem emission_factors transport_mode ;;
    energy_factor <- getitem energy_factors transport_mode ;;
    let fuel_weight_tonne := dec 1 3 in
    let transport_emissions :=
      mul (mul emission_factor fuel_weight_tonne) transport_distance in
    let transport_energy :=
      mul (mul energy_factor fuel_weight_tonne) transport_distance in
    assign_distribution_data (Some
      {| ds_transport_distance := transport_distance;
         ds_transport_mode := transport_mode;
         ds_fuel_density := fuel_density;
         ds_emission_factor := emission_factor;
         ds_energy_factor := energy_factor;
         ds_ghg_emissions := transport_emissions;
         ds_energy_input := transport_energy |}) ;;;
    narrate silent (Narration "set_distribution_data").

Definition set_use_phase_data (combustion_emissions energy_density : num)
    : M unit :=
  assign_use_phase_data (Some
    {| up_combustion_emissions := combustion_emissions;
       up_energy_density := energy_density |}) ;;;
  print (Narration "set_use_phase_data").

Definition set_carbon_capture_data
    (capture_efficiency energy_requirement ghg water co2_capture_rate : num)
    : M unit :=
  assign_carbon_capture_data (Some
    {| cc_capture_efficiency := capture_efficiency;
       cc_energy_requirement := energy_requirement;
       cc_ghg_emissions := ghg;
       cc_water_usage := water;
       cc_co2_capture_rate := co2_capture_rate |}) ;;;
  print (Narration "set_carbon_capture_data").

(** Carbon intensity by electricity source (kg CO2e per kWh). *)
Definition electricity_carbon_intensities : dict num :=
  [("grid_global", dec 475 3); ("grid_eu", dec 253 3);
   ("grid_china", dec 638 3); ("grid_us", dec 389 3);
   ("natural_gas", dec 410 3); ("coal", dec 820 3);
   ("solar", dec 48 3); ("wind", dec 11 3);
   ("hydro", dec 24 3); ("nuclear", dec 12 3);
   ("biomass", dec 230 3); ("renewable_mix", dec 30 3);
   ("low_carbon_mix", dec 100 3); ("renewable", dec 20 3)].

(** [set_electrolysis_data]: [electricity_carbon_intensity = None] asks for
    the table value of the source; a source outside the table gets the value
    of ["renewable"], with a warning unless [silent]. *)
Definition set_electrolysis_data
    (co2_electrolysis_efficiency water_electrolysis_efficiency : num)
    (electricity_source : string)
    (energy_input_co energy_input_h2 water : num)
    (electricity_carbon_intensity : option num) (silent : bool) : M unit :=
  intensity <-
    match electricity_carbon_intensity with
    | Some given => ret given
    | None =>
        if dict_mem electricity_carbon_intensities electricity_source then
          getitem electricity_carbon_intensities electricity_source
        else
          fallback <- getitem electricity_carbon_intensities "renewable" ;;
          narrate silent (Warning electricity_source) ;;;
          ret fallback
    end ;;
  assign_electrolysis_data (Some
    {| el_co2_electrolysis_efficiency := co2_electrolysis_efficiency;
       el_water_electrolysis_efficiency := water_electrolysis_efficiency;
       el_electricity_source := electricity_source;
       el_electricity_carbon_intensity := intensity;
       el_energy_input_co := energy_input_co;
       el_energy_input_h2 := energy_input_h2;
       el_water_usage := water |}) ;;;
  narrate silent (Narration "set_electrolysis_data").

(** *** The calculation engine *)

(** The message of the [ValueError] that [calculate_lca] raises. *)
Definition missing_data : string :=
  "Missing required data for LCA calculation for DAC → Electrolysis → FT pathway".

(** [calculate_lca].  Every division comes before the first assignment to
    [self.results]; the four assignments that follow cannot raise, so they
    are one update here.  Divisions by the literals [100] and [3.6] are
    written with [quot]: a literal that is not zero cannot raise.  Python
    returns the object [self.results] itself; the value returned here is its
    content when the method returns. *)
Definition calculate_lca (silent : bool) : M lca_results :=
  self <- get ;;
  match carbon_capture_data self, electrolysis_data self,
        conversion_data self, distribution_data self,
        use_phase_data self with
  | Some cc, Some el, Some cv, Some ds, Some up =>
    narrate silent (Narration "calculate_lca") ;;;
    (* GHG emissions per functional unit *)
    let energy_density := up_energy_density up in
    normalization_factor <- truediv (dec 1 0) energy_density ;;
    actual_co2_needed <-
      truediv (cc_co2_capture_rate cc)
              (quot (cc_capture_efficiency cc) (dec 100 0)) ;;
    let carbon_capture_ghg :=
      mul (mul (cc_ghg_emissions cc) actual_co2_needed) normalization_factor in
    let elec_intensity_mj :=
      quot (el_electricity_carbon_intensity el) (dec 36 1) in
    let co_h2_ratio := get_default (cv_co_h2_ratio cv) (dec 5 1) in
    let total_syngas_needed :=
      mul (get_default (cv_syngas_requirement cv) (dec 25 1))
          normalization_factor in
    co_fraction <- truediv co_h2_ratio (add (dec 1 0) co_h2_ratio) ;;
    let co_needed := mul total_syngas_needed co_fraction in
    h2_fraction <- truediv (dec 1 0) (add (dec 1 0) co_h2_ratio) ;;
    let h2_needed := mul total_syngas_needed h2_fraction in
    actual_co_needed <-
      truediv co_needed (quot (el_co2_electrolysis_efficiency el) (dec 100 0)) ;;
    actual_h2_needed <-
      truediv h2_needed
              (quot (el_water_electrolysis_efficiency el) (dec 100 0)) ;;
    let co_emissions :=
      mul (mul actual_co_needed (el_energy_input_co el)) elec_intensity_mj in
    let h2_emissions :=
      mul (mul actual_h2_needed (el_energy_input_h2 el)) elec_intensity_mj in
    let electrolysis_ghg := add co_emissions h2_emissions in
    let conversion_ghg := mul (cv_ghg_emissions cv) normalization_factor in
    let distribution_ghg := mul (ds_ghg_emissions ds) normalization_factor in
    let use_phase_ghg :=
      mul (up_combustion_emissions up) normalization_factor in
    let total_ghg :=
      add (add (add (add carbon_capture_ghg electrolysis_ghg) conversion_ghg)
               distribution_ghg) use_phase_ghg in
    (* energy consumption *)
    let carbon_capture_energy :=
      mul (mul (cc_energy_requirement cc) actual_co2_needed)
          normalization_factor in
    let co_energy := mul actual_co_needed (el_energy_input_co el) in
    let h2_energy := mul actual_h2_needed (el_energy_input_h2 el) in
    let electrolysis_energy := add co_energy h2_energy in
    let conversion_energy := mul (cv_energy_input cv) normalization_factor in
    let distribution_energy := mul (ds_energy_input ds) normalization_factor in
    let total_energy :=
      add (add (add carbon_capture_energy electrolysis_energy)
               conversion_energy) distribution_energy in
    (* water usage *)
    let carbon_capture_water :=
      mul (mul (cc_water_usage cc) actual_co2_needed) normalization_factor in
    let electrolysis_water := mul (el_water_usage el) total_syngas_needed in
    let conversion_water := mul (cv_water_usage cv) normalization_factor in
    assign_results
      {| ghg_emissions :=
           [("carbon_capture", carbon_capture_ghg);
            ("electrolysis", electrolysis_ghg);
            ("conversion", conversion_ghg);
            ("distribution", distribution_ghg);
            ("use_phase", use_phase_ghg);
            ("total", total_ghg)];
         energy_consumption :=
           [("carbon_capture", carbon_capture_energy);
            ("electrolysis", electrolysis_energy);
            ("conversion", conversion_energy);
            ("distribution", distribution_energy);
            ("total", total_energy)];
         water_usage :=
           [("carbon_capture", carbon_capture_water);
            ("electrolysis", electrolysis_water);
            ("conversion", conversion_water);
            ("total",
             add (add carbon_capture_water electrolysis_water)
                 conversion_water)];
         land_use := [("total", dec 0 0)] |} ;;;
    self' <- get ;;
    ret (results self')
  | _, _, _, _, _ => raise (ValueError missing_data)
  end.

(** *** Emission reduction against fossil jet fuel *)

(** [calculate_emission_reduction] (Python default
    [fossil_jet_emissions=89.0]).  The recomputation it triggers is not
    silent. *)
Definition calculate_emission_reduction
    (fossil_jet_emissions : num) (silent : bool) : M num :=
  self <- get ;;
  (if dict_truthy (ghg_emissions (results self)) then ret tt
   else calculate_lca false ;;; ret tt) ;;;
  self' <- get ;;
  total <- getitem (ghg_emissions (results self')) "total" ;;
  let saf_emissions := mul total (dec 1000 0) in
  ratio <- truediv (sub fossil_jet_emissions saf_emissions)
                   fossil_jet_emissions ;;
  let reduction := mul ratio (dec 100 0) in
  narrate silent (Narration "calculate_emission_reduction") ;;;
  ret reduction.

(** *** Sensitivity sweeps *)

(** [for x in xs: ...], collecting what each round appends. *)
Fixpoint for_each {T U : Type} (xs : list T) (body : T -> M U) : M (list U) :=
  match xs with
  | [] => ret []
  | x :: xs' =>
      y <- body x ;;
      ys <- for_each xs' body ;;
      ret (y :: ys)
  end.

(** [self.electrolysis_data[key]] and [self.distribution_data[key]]: the
    group must hold the key. *)
Definition electrolysis_item (key : string) : M electrolysis :=
  self <- get ;;
  match electrolysis_data self with
  | Some el => ret el
  | None => raise (KeyError key)
  end.

Definition distribution_item (key : string) : M distribution :=
  self <- get ;;
  match distribution_data self with
  | Some ds => ret ds
  | None => raise (KeyError key)
  end.

(** A row of the electricity sweep, and the row with the derived column. *)
Record electricity_row : Type := {
  er_electricity_source : string;
  er_carbon_intensity : num;
  er_saf_emissions_mjbasis : num;
  er_emission_reduction : num;
  er_electrolysis_emissions : num;
  er_total_emissions : num
}.

Record electricity_frame_row : Type := {
  ef_row : electricity_row;
  ef_electrolysis_contribution : num
}.

Definition default_electricity_sources : list string :=
  ["renewable_mix"; "grid_global"; "grid_eu"; "grid_us"; "grid_china";
   "natural_gas"; "coal"; "solar"; "wind"; "hydro"; "renewable"].

(** [analyze_electricity_sources].  [pd.DataFrame(results)] of an empty list
    has no columns, so selecting one raises [KeyError]; column arithmetic
    never raises. *)
Definition analyze_electricity_sources
    (electricity_sources : option (list string))
    : M (list electricity_frame_row) :=
  print (Narration "analyze_electricity_sources") ;;;
  let electricity_sources :=
    get_default electricity_sources default_electricity_sources in
  self <- get ;;
  let original_source :=
    match electrolysis_data self with
    | Some el => el_electricity_source el | None => "renewable" end in
  let original_intensity :=
    match electrolysis_data self with
    | Some el => el_electricity_carbon_intensity el | None => dec 20 3 end in
  let original_co :=
    match electrolysis_data self with
    | Some el => el_energy_input_co el | None => dec 280 1 end in
  let original_h2 :=
    match electrolysis_data self with
    | Some el => el_energy_input_h2 el | None => dec 550 1 end in
  print (Narration "analyze_electricity_sources") ;;;
  rows <- for_each electricity_sources (fun source =>
    el <- electrolysis_item "co2_electrolysis_efficiency" ;;
    set_electrolysis_data
      (el_co2_electrolysis_efficiency el)
      (el_water_electrolysis_efficiency el)
      source original_co original_h2 (el_water_usage el) None true ;;;
    calculate_lca true ;;;
    self <- get ;;
    total <- getitem (ghg_emissions (results self)) "total" ;;
    let saf_emissions := mul total (dec 1000 0) in
    let emission_reduction :=
      mul (quot (sub (dec 890 1) saf_emissions) (dec 890 1)) (dec 100 0) in
    el' <- electrolysis_item "electricity_carbon_intensity" ;;
    electrolysis_ghg <-
      getitem (ghg_emissions (results self)) "electrolysis" ;;
    ret {| er_electricity_source := source;
           er_carbon_intensity := el_electricity_carbon_intensity el';
           er_saf_emissions_mjbasis := saf_emissions;
           er_emission_reduction := emission_reduction;
           er_electrolysis_emissions := mul electrolysis_ghg (dec 1000 0);
           er_total_emissions := saf_emissions |}) ;;
  (* restore the original parameters, then recompute *)
  el <- electrolysis_item "co2_electrolysis_efficiency" ;;
  set_electrolysis_data
    (el_co2_electrolysis_efficiency el)
    (el_water_electrolysis_efficiency el)
    original_source original_co original_h2 (el_water_usage el)
    (Some original_intensity) true ;;;
  calculate_lca true ;;;
  match rows with
  | [] => raise (KeyError "electrolysis_emissions")
  | _ :: _ =>
      let df := map (fun r =>
        {| ef_row := r;
           ef_electrolysis_contribution :=
             mul (quot (er_electrolysis_emissions r) (er_total_emissions r))
                 (dec 100 0) |}) rows in
      print (Narration "analyze_electricity_sources") ;;;
      ret df
  end.

(** A row of the transport sweep, and the row with the derived column. *)
Record transport_row : Type := {
  tr_transport_mode : string;
  tr_emission_factor : num;
  tr_energy_factor : num;
  tr_transport_emissions : num;
  tr_saf_emissions_mjbasis : num;
  tr_emission_reduction : num;
  tr_total_emissions : num
}.

Record transport_frame_row : Type := {
  tf_row : transport_row;
  tf_transport_contribution : num
}.

Definition default_transport_modes : list string :=
  ["truck"; "rail"; "ship"; "barge"; "pipeline"].

(** [analyze_transport_modes] (Python default [base_distance=500]). *)
Definition analyze_transport_modes
    (transport_modes : option (list string)) (base_distance : num)
    : M (list transport_frame_row) :=
  print (Narration "analyze_transport_modes") ;;;
  let transport_modes :=
    get_default transport_modes default_transport_modes in
  self <- get ;;
  let original_distance :=
    match distribution_data self with
    | Some ds => ds_transport_distance ds | None => dec 500 0 end in
  let original_mode :=
    match distribution_data self with
    | Some ds => ds_transport_mode ds | None => "truck" end in
  let original_density :=
    match distribution_data self with
    | Some ds => ds_fuel_density ds | None => dec 8 1 end in
  print (Narration "analyze_transport_modes") ;;;
  rows <- for_each transport_modes (fun mode =>
    set_distribution_data base_distance mode original_density true ;;;
    calculate_lca true ;;;
    self <- get ;;
    total <- getitem (ghg_emissions (results self)) "total" ;;
    let saf_emissions := mul total (dec 1000 0) in
    let emission_reduction :=
      mul (quot (sub (dec 890 1) saf_emissions) (dec 890 1)) (dec 100 0) in
    ds <- distribution_item "emission_factor" ;;
    distribution_ghg <-
      getitem (ghg_emissions (results self)) "distribution" ;;
    ret {| tr_transport_mode := mode;
           tr_emission_factor := ds_emission_factor ds;
           tr_energy_factor := ds_energy_factor ds;
           tr_transport_emissions := mul distribution_ghg (dec 1000 0);
           tr_saf_emissions_mjbasis := saf_emissions;
           tr_emission_reduction := emission_reduction;
           tr_total_emissions := saf_emissions |}) ;;
  (* restore the original parameters, then recompute *)
  set_distribution_data original_distance original_mode original_density
    true ;;;
  calculate_lca true ;;;
  match rows with
  | [] => raise (KeyError "transport_emissions")
  | _ :: _ =>
      let df := map (fun r =>
        {| tf_row := r;
           tf_transport_contribution :=
             mul (quot (tr_transport_emissions r) (tr_total_emissions r))
                 (dec 100 0) |}) rows in
      print (Narration "analyze_transport_modes") ;;;
      ret df
  end.

End Model.

Arguments conversion num : clear implicits.
Arguments distribution num : clear implicits.
Arguments use_phase num : clear implicits.
Arguments carbon_capture num : clear implicits.
Arguments electrolysis num : clear implicits.
Arguments lca_results num : clear implicits.
Arguments SAF_LCA_Model num : clear implicits.
Arguments outcome num T : clear implicits.
Arguments M num T : clear implicits.
Arguments electricity_row num : clear implicits.
Arguments electricity_frame_row num : clear implicits.
Arguments transport_row num : clear implicits.
Arguments transport_frame_row num : clear implicits.
Arguments Returned {num T} value self.
Arguments Raised {num T} e self.

Notation "x <- m ;; k" := (bind m (fun x => k))
  (at level 61, m at next level, right associativity).
Notation "m ;;; k" := (bind m (fun _ => k))
  (at level 61, right associativity).

(** ** Vocabulary of the properties *)

Section Vocabulary.

Context {num : Type} {A : Arith num}.

(** [all([...])] over the five parameter groups, as [calculate_lca] tests it. *)
Definition all_populated (s : SAF_LCA_Model num) : bool :=
  match carbon_capture_data s, electrolysis_data s, conversion_data s,
        distribution_data s, use_phase_data s with
  | Some _, Some _, Some _, Some _, Some _ => true
  | _, _, _, _, _ => false
  end.

(** The values [calculate_lca] divides by that are not literals, in the order
    it meets them. *)
Definition divisors (s : SAF_LCA_Model num) : list num :=
  match carbon_capture_data s, electrolysis_data s, conversion_data s,
        use_phase_data s with
  | Some cc, Some el, Some cv, Some up =>
      [up_energy_density up;
       quot (cc_capture_efficiency cc) (dec 100 0);
       add (dec 1 0) (get_default (cv_co_h2_ratio cv) (dec 5 1));
       quot (el_co2_electrolysis_efficiency el) (dec 100 0);
       quot (el_water_electrolysis_efficiency el) (dec 100 0)]
  | _, _, _, _ => []
  end.

Definition divisors_nonzero (s : SAF_LCA_Model num) : bool :=
  forallb (fun d => negb (is_zero d)) (divisors s).

(** Two objects hold the same five parameter groups. *)
Definition same_parameters (s s' : SAF_LCA_Model num) : Prop :=
  conversion_data s = conversion_data s' /\
  distribution_data s = distribution_data s' /\
  use_phase_data s = use_phase_data s' /\
  carbon_capture_data s = carbon_capture_data s' /\
  electrolysis_data s = electrolysis_data s'.

(** What a non-silent method appends to the output. *)
Definition said (silent : bool) (l : line) : list line :=
  if silent then [] else [l].

(** The sum of the values of a dictionary, left to right, as Python's
    [a + b + c] associates; the empty sum is [0]. *)
Definition sum_values (d : dict num) : num :=
  match d with
  | [] => dec 0 0
  | (_, v) :: d' => fold_left (fun acc kv => add acc (snd kv)) d' v
  end.

(** The entries of a result category other than ["total"]. *)
Definition stages (d : dict num) : dict num :=
  filter (fun kv => negb (String.eqb (fst kv) "total")) d.

(** The five life-cycle stage names. *)
Definition stage_names : list string :=
  ["carbon_capture"; "electrolysis"; "conversion"; "distribution"; "use_phase"].

(** What [set_distribution_data] stores for a distance, a mode and a density
    ([None] when it rejects the mode). *)
Definition stored_distribution (transport_distance : num)
    (transport_mode : string) (fuel_density : num)
    : option (distribution num) :=
  match set_distribution_data transport_distance transport_mode fuel_density
          true init with
  | Returned _ s' => distribution_data s'
  | Raised _ _ => None
  end.

(** A distribution group is coherent when it is what the setter stores for
    its own distance, mode and density: every group written by
    [set_distribution_data] is. *)
Definition distribution_coherent (s : SAF_LCA_Model num) : Prop :=
  match distribution_data s with
  | Some ds =>
      stored_distribution (ds_transport_distance ds) (ds_transport_mode ds)
        (ds_fuel_density ds) = Some ds
  | None => True
  end.

(** The object a method leaves behind, whether it returns or raises. *)
Definition final_state {T : Type} (o : outcome num T) : SAF_LCA_Model num :=
  match o with
  | Returned _ s => s
  | Raised _ s => s
  end.

(** The electrolysis group with another source and intensity. *)
Definition with_source (el : electrolysis num) (source : string)
    (intensity : num) : electrolysis num :=
  {| el_co2_electrolysis_efficiency := el_co2_electrolysis_efficiency el;
     el_water_electrolysis_efficiency := el_water_electrolysis_efficiency el;
     el_electricity_source := source;
     el_electricity_carbon_intensity := intensity;
     el_energy_input_co := el_energy_input_co el;
     el_energy_input_h2 := el_energy_input_h2 el;
     el_water_usage := el_water_usage el |}.

(** The intensity the table gives a source, with the fallback of the setter. *)
Definition table_intensity (source : string) : num :=
  match dict_get electricity_carbon_intensities source with
  | Some v => v
  | None => dec 20 3
  end.

(** The invariant of the electricity sweep over an object [s0]: only the
    source and the intensity of the electrolysis group may differ. *)
Definition electricity_sweep_invariant (s0 : SAF_LCA_Model num)
    (el0 : electrolysis num) (s : SAF_LCA_Model num) : Prop :=
  conversion_data s = conversion_data s0 /\
  distribution_data s = distribution_data s0 /\
  use_phase_data s = use_phase_data s0 /\
  carbon_capture_data s = carbon_capture_data s0 /\
  exists source intensity,
    electrolysis_data s = Some (with_source el0 source intensity).

(** The invariant of the transport sweep over an object [s0]: only the
    distribution group may differ, and it is set. *)
Definition transport_sweep_invariant (s0 s : SAF_LCA_Model num) : Prop :=
  conversion_data s = conversion_data s0 /\
  use_phase_data s = use_phase_data s0 /\
  carbon_capture_data s = carbon_capture_data s0 /\
  electrolysis_data s = electrolysis_data s0 /\
  exists ds, distribution_data s = Some ds.

(** A computation keeps the coherence of the distribution group, whether it
    returns or raises. *)
Definition keeps_coherence {T : Type} (m : M num T) : Prop :=
  forall s, distribution_coherent s -> distribution_coherent (final_state (m s)).

(** The calls a client can make on the object. *)
Inductive call : Type :=
| Call_set_conversion_data
    (technology : string) (efficiency ghg energy_input water : num)
    (syngas_requirement co_h2_ratio : option num)
| Call_set_distribution_data
    (transport_distance : num) (transport_mode : string)
    (fuel_density : num) (silent : bool)
| Call_set_use_phase_data (combustion_emissions energy_density : num)
| Call_set_carbon_capture_data
    (capture_efficiency energy_requirement ghg water co2_capture_rate : num)
| Call_set_electrolysis_data
    (co2_electrolysis_efficiency water_electrolysis_efficiency : num)
    (electricity_source : string)
    (energy_input_co energy_input_h2 water : num)
    (electricity_carbon_intensity : option num) (silent : bool)
| Call_calculate_lca (silent : bool)
| Call_calculate_emission_reduction (fossil_jet_emissions : num)
    (silent : bool)
| Call_analyze_electricity_sources (electricity_sources : option (list string))
| Call_analyze_transport_modes (transport_modes : option (list string))
    (base_distance : num).

(** The object after a call, whether the call returned or raised. *)
Definition after (c : call) (s : SAF_LCA_Model num) : SAF_LCA_Model num :=
  match c with
  | Call_set_conversion_data t e g i w sr r =>
      final_state (set_conversion_data t e g i w sr r s)
  | Call_set_distribution_data d m f q =>
      final_state (set_distribution_data d m f q s)
  | Call_set_use_phase_data c e => final_state (set_use_phase_data c e s)
  | Call_set_carbon_capture_data c e g w r =>
      final_state (set_carbon_capture_data c e g w r s)
  | Call_set_electrolysis_data c w e ic ih wu i q =>
      final_state (set_electrolysis_data c w e ic ih wu i q s)
  | Call_calculate_lca q => final_state (calculate_lca q s)
  | Call_calculate_emission_reduction f q =>
      final_state (calculate_emission_reduction f q s)
  | Call_analyze_electricity_sources l =>
      final_state (analyze_electricity_sources l s)
  | Call_analyze_transport_modes l d =>
      final_state (analyze_transport_modes l d s)
  end.

(** The objects a client can obtain: a new object, then any calls. *)
Inductive reachable : SAF_LCA_Model num -> Prop :=
| reachable_init : reachable init
| reachable_after (c : call) (s : SAF_LCA_Model num) :
    reachable s -> reachable (after c s).

(** The setup of the example at the end of the source file, with the
    parameters that do not enter the GHG balance left open. *)
Definition documented_setup
    (energy_requirement capture_water electrolysis_water : num)
    (technology : string) (efficiency conversion_water fuel_density : num)
    : M num unit :=
  set_use_phase_data (dec 0 1) (dec 430 1) ;;;
  set_carbon_capture_data (dec 800 1) energy_requirement (dec 8 2)
    capture_water (dec 31 1) ;;;
  set_electrolysis_data (dec 650 1) (dec 750 1) "wind" (dec 280 1)
    (dec 550 1) electrolysis_water None false ;;;
  set_conversion_data technology efficiency (dec 2 1) (dec 250 1)
    conversion_water (Some (dec 213 2)) (Some (dec 923 3)) ;;;
  set_distribution_data (dec 5000 1) "truck" fuel_density false.

(** The example itself. *)
Definition example_setup : M num unit :=
  documented_setup (dec 200 1) (dec 50 1) (dec 200 1) "Fischer-Tropsch"
    (dec 65 2) (dec 50 1) (dec 8 1).

(** The object after the example setup, and after [calculate_lca] on it. *)
Definition example_model : SAF_LCA_Model num :=
  final_state (example_setup init).

Definition example_computed : SAF_LCA_Model num :=
  final_state (calculate_lca true example_model).

Definition example_results : lca_results num := results example_computed.

End Vocabulary.

(** ** Reporting: [print_results] and the policy benchmarks *)

(** The comparisons of Python's [float] that the reports use:
    [geb x y] is [x >= y] and [gtb x y] is [x > y]. *)
Class Compare (num : Type) : Type := {
  geb : num -> num -> bool;
  gtb : num -> num -> bool
}.

#[export] Instance binary64_compare : Compare float := {
  geb := fun x y => PrimFloat.leb y x;
  gtb := fun x y => PrimFloat.ltb y x
}.

Section Reporting.

Context {num : Type} {A : Arith num} {O : Compare num}.

(** The three benchmark tests of [print_results]. *)
Definition corsia_pass (reduction : num) : bool := geb reduction (dec 10 0).
Definition red_pass (reduction : num) : bool := geb reduction (dec 65 0).
Definition lcfs_pass (reduction : num) : bool := geb reduction (dec 20 0).

(** The order in which [print_results] lists the stages. *)
Definition stages_order : list string :=
  ["carbon_capture"; "electrolysis"; "conversion"; "distribution";
   "use_phase"].

(** The reduction against the fixed baseline [89.0] that [print_results] and
    the sweeps compute in line. *)
Definition reduction_against_89 (saf_emissions : num) : num :=
  mul (quot (sub (dec 890 1) saf_emissions) (dec 890 1)) (dec 100 0).

(** One line of the detailed breakdown of a category: the share is the value
    over the total, both in the unit [scale] gives; the line is skipped when
    the stage is not in the category. *)
Definition print_stage_share (category : dict num) (scale : num -> num)
    (stage : string) : M num unit :=
  if dict_mem category stage then
    v <- getitem category stage ;;
    let value := scale v in
    total <- getitem category "total" ;;
    ratio <- truediv value (scale total) ;;
    let percentage := mul ratio (dec 100 0) in
    print (Narration "print_results")
  else ret tt.

(** The line of the water breakdown: the share is guarded by
    [water["total"] > 0], so this division cannot raise. *)
Definition print_water_share (water : dict num) (stage : string)
    : M num unit :=
  if dict_mem water stage then
    value <- getitem water stage ;;
    total <- getitem water "total" ;;
    let percentage :=
      if gtb total (dec 0 0) then mul (quot value total) (dec 100 0)
      else dec 0 0 in
    print (Narration "print_results")
  else ret tt.

(** [print_results] (Python defaults: the three flags are [True]).  Each run
    of [print] statements with nothing fallible in between is one block of
    narration; the exceptions are those of the look-ups and divisions made
    on the way, in the order of the source. *)
Definition print_results (show_detailed show_summary show_benchmarks : bool)
    : M num unit :=
  self <- get ;;
  if negb (dict_truthy (ghg_emissions (results self))) then
    (* "No LCA results available. Please run calculate_lca() first." *)
    print (Narration "print_results")
  else
    (* header *)
    print (Narration "print_results") ;;;
    (if show_summary then
       total <- getitem (ghg_emissions (results self)) "total" ;;
       let saf_emissions := mul total (dec 1000 0) in
       let reduction := reduction_against_89 saf_emissions in
       print (Narration "print_results") ;;;
       energy_total <- getitem (energy_consumption (results self)) "total" ;;
       print (Narration "print_results") ;;;
       water_total <- getitem (water_usage (results self)) "total" ;;
       print (Narration "print_results")
     else ret tt) ;;;
    (if show_detailed then
       print (Narration "print_results") ;;;
       let emissions := ghg_emissions (results self) in
       for_each stages_order
         (print_stage_share emissions (fun v => mul v (dec 1000 0))) ;;;
       total <- getitem emissions "total" ;;
       print (Narration "print_results") ;;;
       let energy := energy_consumption (results self) in
       for_each stages_order (print_stage_share energy (fun v => v)) ;;;
       energy_total <- getitem energy "total" ;;
       print (Narration "print_results") ;;;
       let water := water_usage (results self) in
       for_each ["carbon_capture"; "electrolysis"; "conversion"]
         (print_water_share water) ;;;
       water_total <- getitem water "total" ;;
       print (Narration "print_results")
     else ret tt) ;;;
    (if show_benchmarks then
       print (Narration "print_results") ;;;
       total <- getitem (ghg_emissions (results self)) "total" ;;
       let saf_emissions := mul total (dec 1000 0) in
       let reduction := reduction_against_89 saf_emissions in
       let corsia_status := corsia_pass reduction in
       let red_status := red_pass reduction in
       let lcfs_status := lcfs_pass reduction in
       print (Narration "print_results")
     else ret tt) ;;;
    print (Narration "print_results").

End Reporting.

(** ** The dashboard helpers of [src/app.py] *)

Section Dashboard.

Context {num : Type} {A : Arith num} {O : Compare num}.

(** [check_compliance]: the strictest policy a reduction satisfies. *)
Definition check_compliance (reduction : num) : string :=
  if geb reduction (dec 65 0) then "✅ EU RED II"
  else if geb reduction (dec 20 0) then "⚠️ CA LCFS"
  else if geb reduction (dec 10 0) then "⚠️ CORSIA"
  else "❌ 不合规".

(** [source in names]. *)
Definition list_mem (source : string) (names : list string) : bool :=
  existsb (String.eqb source) names.

(** [categorize_source]: the kind of an electricity source. *)
Definition categorize_source (source : string) : string :=
  let renewables := ["wind"; "solar"; "hydro"; "renewable_mix"; "renewable"] in
  let nuclear := ["nuclear"] in
  let fossil := ["coal"; "natural_gas"] in
  let grid := ["grid_global"; "grid_eu"; "grid_us"; "grid_china"] in
  if list_mem source renewables then "🌱 可再生"
  else if list_mem source nuclear then "⚛️ 核能"
  else if list_mem source fossil then "🔥 化石"
  else if list_mem source grid then "🏭 电网"
  else "❓ 其他".

End Dashboard.

(** ** Further vocabulary *)

Section MoreVocabulary.

Context {num : Type} {A : Arith num}.

(** What a call gives its caller: the value returned or the exception. *)
Definition result_of {T : Type} (o : outcome num T) : exception + T :=
  match o with
  | Returned x _ => inr x
  | Raised e _ => inl e
  end.

(** The result [calculate_lca] stores, from its twelve stage values. *)
Definition inventory (g1 g2 g3 g4 g5 e1 e2 e3 e4 w1 w2 w3 : num)
    : lca_results num :=
  {| ghg_emissions :=
       [("carbon_capture", g1); ("electrolysis", g2); ("conversion", g3);
        ("distribution", g4); ("use_phase", g5);
        ("total", add (add (add (add g1 g2) g3) g4) g5)];
     energy_consumption :=
       [("carbon_capture", e1); ("electrolysis", e2); ("conversion", e3);
        ("distribution", e4); ("total", add (add (add e1 e2) e3) e4)];
     water_usage :=
       [("carbon_capture", w1); ("electrolysis", w2); ("conversion", w3);
        ("total", add (add w1 w2) w3)];
     land_use := [("total", dec 0 0)] |}.

(** The stored results are those of [__init__] or a whole inventory. *)
Definition results_whole (s : SAF_LCA_Model num) : Prop :=
  results s = empty_results \/
  exists g1 g2 g3 g4 g5 e1 e2 e3 e4 w1 w2 w3,
    results s = inventory g1 g2 g3 g4 g5 e1 e2 e3 e4 w1 w2 w3.

(** A computation keeps the stored results whole, whether it returns or
    raises. *)
Definition keeps_whole {T : Type} (m : M num T) : Prop :=
  forall s, results_whole s -> results_whole (final_state (m s)).

(** A computation leaves the stored results and the parameter groups other
    than its own as they are. *)
Definition keeps_results {T : Type} (m : M num T) : Prop :=
  forall s, results (final_state (m s)) = results s.

(** The calls that set a parameter group. *)
Definition is_setter (c : call (num:=num)) : bool :=
  match c with
  | Call_set_conversion_data _ _ _ _ _ _ _
  | Call_set_distribution_data _ _ _ _
  | Call_set_use_phase_data _ _
  | Call_set_carbon_capture_data _ _ _ _ _
  | Call_set_electrolysis_data _ _ _ _ _ _ _ _ => true
  | _ => false
  end.





(** The four groups other than the distribution group are set. *)
Definition others_populated (s : SAF_LCA_Model num) : bool :=
  match carbon_capture_data s, electrolysis_data s, conversion_data s,
        use_phase_data s with
  | Some _, Some _, Some _, Some _ => true
  | _, _, _, _ => false
  end.

(** Two objects hold the same four groups other than the distribution
    group. *)
Definition same_others (s s' : SAF_LCA_Model num) : Prop :=
  conversion_data s' = conversion_data s /\
  use_phase_data s' = use_phase_data s /\
  carbon_capture_data s' = carbon_capture_data s /\
  electrolysis_data s' = electrolysis_data s.

(** Whether the detailed breakdown of [print_results] meets a zero divisor:
    the GHG shares divide by the total in grams, the energy shares by the
    energy total. *)
Definition breakdown_divides_by_zero (r : lca_results num) : bool :=
  match dict_get (ghg_emissions r) "total",
        dict_get (energy_consumption r) "total" with
  | Some ghg_total, Some energy_total =>
      is_zero (mul ghg_total (dec 1000 0)) || is_zero energy_total
  | _, _ => false
  end.

(** The example with no emission anywhere: carbon-free electricity given
    explicitly, and no process, transport or combustion emissions; before and
    after [calculate_lca]. *)
Definition emission_free_setup : SAF_LCA_Model num :=
  final_state
    ((set_use_phase_data (dec 0 1) (dec 430 1) ;;;
      set_carbon_capture_data (dec 800 1) (dec 200 1) (dec 0 1) (dec 50 1)
        (dec 31 1) ;;;
      set_electrolysis_data (dec 650 1) (dec 750 1) "wind" (dec 280 1)
        (dec 550 1) (dec 200 1) (Some (dec 0 1)) false ;;;
      set_conversion_data "Fischer-Tropsch" (dec 65 2) (dec 0 1) (dec 250 1)
        (dec 50 1) (Some (dec 213 2)) (Some (dec 923 3)) ;;;
      set_distribution_data (dec 0 1) "truck" (dec 8 1) false) init).

Definition emission_free_model : SAF_LCA_Model num :=
  final_state (calculate_lca true emission_free_setup).


End MoreVocabulary.

(** ** Vocabulary of binary64 rounding

    [SpecFloat] specifies the operations of the primitive floats by integer
    programs on a mantissa and an exponent.  The definitions below name what
    these programs compute. *)

Section Binary64Vocabulary.

Local Open Scope Z_scope.

(** Round to nearest, ties to even, of [m / 2^k]; nothing to round for
    [k <= 0]. *)
Definition rne (m k : Z) : Z :=
  if k <=? 0 then m
  else
    let q := m / 2 ^ k in
    match Z.testbit m (k - 1), negb (m mod 2 ^ (k - 1) =? 0) with
    | false, _ => q
    | true, false => if Z.even q then q else q + 1
    | true, true => q + 1
    end.

(** What the shift register of [SpecFloat] holds after [j] shifts of [M]. *)
Definition shr_inv (M j : Z) (mrs : shr_record) : Prop :=
  shr_m mrs = M / 2 ^ j /\
  (j <= 0 -> shr_r mrs = false /\ shr_s mrs = false) /\
  (0 < j ->
   shr_r mrs = Z.testbit M (j - 1) /\
   shr_s mrs = negb (M mod 2 ^ (j - 1) =? 0)).

(** The binary64 number of sign [s] for a rounded mantissa [M] at the
    exponent [t]: a carry into the 54th bit moves to the next exponent, and
    an exponent above 971 overflows. *)
Definition round_result (s : bool) (M t : Z) : spec_float :=
  if M =? 0 then S754_zero s
  else if M =? 2 ^ 53 then
    if t + 1 <=? 971 then S754_finite s (2 ^ 52)%positive (t + 1)
    else S754_infinity s
  else if t <=? 971 then S754_finite s (Z.to_pos M) t
  else S754_infinity s.

(** The exponent binary64 gives the value [p * 2^e]. *)
Definition target (p : positive) (e : Z) : Z :=
  Z.max (Zpos (digits2_pos p) + e - 53) (-1074).

(** [m1 * 2^e1 <= m2 * 2^e2], on integers. *)
Definition vle (m1 e1 m2 e2 : Z) : Prop :=
  m1 * 2 ^ (e1 - Z.min e1 e2) <= m2 * 2 ^ (e2 - Z.min e1 e2).

(** [0 <= x]: a zero of either sign, a positive number or [+inf]. *)
Definition SFnonneg (x : spec_float) : Prop :=
  SFleb (S754_zero false) x = true.

(** The mantissa and the exponent of a zero or a finite number, as a signed
    integer; a zero takes the exponent [e0]. *)
Definition sval (x : spec_float) (e0 : Z) : Z * Z :=
  match x with
  | S754_finite s m e => (cond_Zopp s (Zpos m), e)
  | _ => (0, e0)
  end.

(** Zeros and finite numbers. *)
Definition SFreal (x : spec_float) : Prop :=
  match x with
  | S754_zero _ | S754_finite _ _ _ => True
  | _ => False
  end.

End Binary64Vocabulary.

(** ** The energy of the electrolysers *)

Section ElectrolysisEnergy.

Context {num : Type} {A : Arith num}.

(** The energy the CO2 electrolyser and the water electrolyser take per MJ
    of fuel, as [calculate_lca] computes them on its way to the electrolysis
    stage. *)
Definition co_electrolysis_energy (cv : conversion num)
    (el : electrolysis num) (up : use_phase num) : num :=
  let normalization_factor := quot (dec 1 0) (up_energy_density up) in
  let co_h2_ratio := get_default (cv_co_h2_ratio cv) (dec 5 1) in
  let total_syngas_needed :=
    mul (get_default (cv_syngas_requirement cv) (dec 25 1))
        normalization_factor in
  let co_needed :=
    mul total_syngas_needed (quot co_h2_ratio (add (dec 1 0) co_h2_ratio)) in
  let actual_co_needed :=
    quot co_needed (quot (el_co2_electrolysis_efficiency el) (dec 100 0)) in
  mul actual_co_needed (el_energy_input_co el).

Definition h2_electrolysis_energy (cv : conversion num)
    (el : electrolysis num) (up : use_phase num) : num :=
  let normalization_factor := quot (dec 1 0) (up_energy_density up) in
  let co_h2_ratio := get_default (cv_co_h2_ratio cv) (dec 5 1) in
  let total_syngas_needed :=
    mul (get_default (cv_syngas_requirement cv) (dec 25 1))
        normalization_factor in
  let h2_needed :=
    mul total_syngas_needed (quot (dec 1 0) (add (dec 1 0) co_h2_ratio)) in
  let actual_h2_needed :=
    quot h2_needed
         (quot (el_water_electrolysis_efficiency el) (dec 100 0)) in
  mul actual_h2_needed (el_energy_input_h2 el).

End ElectrolysisEnergy.

(** ** The dashboard's distances *)

(** The distances the slider of [src/app.py] offers: 100 to 2000 km in steps
    of 50. *)
Definition slider_distances : list float :=
  map (fun i => float_dec (100 + 50 * Z.of_nat i) 0) (seq 0 39).

(** Whether, on the documented example with the given mode, both the
    distribution stage and the total of the GHG category are strictly higher
    at [d2] than at [d1]. *)
Definition strictly_higher (mode : string) (d1 d2 : float) : bool :=
  match (set_distribution_data d1 mode (float_dec 8 1) true ;;;
         calculate_lca true) (example_model (num:=float)),
        (set_distribution_data d2 mode (float_dec 8 1) true ;;;
         calculate_lca true) (example_model (num:=float)) with
  | Returned r1 _, Returned r2 _ =>
      match dict_get (ghg_emissions r1) "distribution",
            dict_get (ghg_emissions r2) "distribution",
            dict_get (ghg_emissions r1) "total",
            dict_get (ghg_emissions r2) "total" with
      | Some dist1, Some dist2, Some total1, Some total2 =>
          PrimFloat.ltb dist1 dist2 && PrimFloat.ltb total1 total2
      | _, _, _, _ => false
      end
  | _, _ => false
  end.

(** ** Facts about the methods *)

Ltac unfold_methods :=
  unfold calculate_emission_reduction, calculate_lca,
    set_distribution_data, set_electrolysis_data, set_conversion_data,
    set_use_phase_data, set_carbon_capture_data,
    electrolysis_item, distribution_item,
    assign_conversion_data, assign_distribution_data, assign_use_phase_data,
    assign_carbon_capture_data, assign_electrolysis_data, assign_results,
    truediv, narrate, print, getitem, bind, get, put, ret, raise in *.

Ltac split_zero_tests :=
  repeat match goal with
         | |- context [if is_zero ?x then _ else _] =>
             let Z := fresh "Z" in destruct (is_zero x) eqn:Z
         end.

Ltac split_groups s :=
  destruct (carbon_capture_data s) as [?cc|] eqn:?Hcc,
           (electrolysis_data s) as [?el|] eqn:?Hel,
           (conversion_data s) as [?cv|] eqn:?Hcv,
           (distribution_data s) as [?ds|] eqn:?Hds,
           (use_phase_data s) as [?up|] eqn:?Hup.

Section Facts.

Context {num : Type} {A : Arith num}.

Lemma same_parameters_refl (s : SAF_LCA_Model num) : same_parameters s s.
Proof. repeat split. Qed.

Lemma same_parameters_sym (s s' : SAF_LCA_Model num) :
  same_parameters s s' -> same_parameters s' s.
Proof. unfold same_parameters. intuition congruence. Qed.

Lemma same_parameters_trans (s1 s2 s3 : SAF_LCA_Model num) :
  same_parameters s1 s2 -> same_parameters s2 s3 -> same_parameters s1 s3.
Proof. unfold same_parameters. intuition congruence. Qed.

Lemma all_populated_same (s s' : SAF_LCA_Model num) :
  same_parameters s s' -> all_populated s' = all_populated s.
Proof.
  unfold same_parameters, all_populated.
  intros (-> & -> & -> & -> & ->). reflexivity.
Qed.

Lemma divisors_same (s s' : SAF_LCA_Model num) :
  same_parameters s s' -> divisors_nonzero s' = divisors_nonzero s.
Proof.
  unfold same_parameters, divisors_nonzero, divisors.
  intros (-> & _ & -> & -> & ->). reflexivity.
Qed.

Lemma dict_mem_getitem {V : Type} (d : dict V) (k : string)
    (s : SAF_LCA_Model num) :
  dict_mem d k = true -> exists v, dict_get d k = Some v /\ getitem d k s = Returned v s.
Proof.
  unfold dict_mem, getitem. destruct (dict_get d k) as [v|]; [|discriminate].
  intros _. exists v. split; reflexivity.
Qed.

(** A missing group: [ValueError], and the object is untouched. *)
Lemma calculate_lca_missing (silent : bool) (s : SAF_LCA_Model num) :
  all_populated s = false ->
  calculate_lca silent s = Raised (ValueError missing_data) s.
Proof.
  unfold all_populated. unfold_methods.
  split_groups s; try discriminate; reflexivity.
Qed.

(** A zero divisor: [ZeroDivisionError], before the results are assigned. *)
Lemma calculate_lca_zero_divisor (silent : bool) (s : SAF_LCA_Model num) :
  all_populated s = true -> divisors_nonzero s = false ->
  exists s', calculate_lca silent s = Raised ZeroDivisionError s' /\
             same_parameters s s' /\ results s' = results s /\
             stdout s' = (stdout s ++ said silent (Narration "calculate_lca"))%list.
Proof.
  unfold all_populated, divisors_nonzero, divisors. unfold_methods.
  split_groups s; try discriminate. intros _. simpl forallb.
  destruct silent; simpl; split_zero_tests; simpl; try discriminate; intros _;
    (eexists; split; [reflexivity|]; simpl;
     rewrite ?app_nil_r; repeat split; congruence).
Qed.

(** No zero divisor: the method returns, and it returns [self.results]. *)
Lemma calculate_lca_returns (silent : bool) (s : SAF_LCA_Model num) :
  all_populated s = true -> divisors_nonzero s = true ->
  exists r s', calculate_lca silent s = Returned r s' /\
               same_parameters s s' /\ results s' = r /\
               stdout s' = (stdout s ++ said silent (Narration "calculate_lca"))%list.
Proof.
  unfold all_populated, divisors_nonzero, divisors. unfold_methods.
  split_groups s; try discriminate. intros _. simpl forallb.
  destruct silent; simpl; split_zero_tests; simpl; try discriminate; intros _;
    (do 2 eexists; split; [reflexivity|]; simpl;
     rewrite ?app_nil_r; repeat split; congruence).
Qed.

(** The two outcomes above are the only ones besides the missing-data error. *)
Lemma calculate_lca_cases (silent : bool) (s : SAF_LCA_Model num) :
  (all_populated s = false /\
   calculate_lca silent s = Raised (ValueError missing_data) s) \/
  (all_populated s = true /\ divisors_nonzero s = false /\
   exists s', calculate_lca silent s = Raised ZeroDivisionError s') \/
  (all_populated s = true /\ divisors_nonzero s = true /\
   exists r s', calculate_lca silent s = Returned r s').
Proof.
  destruct (all_populated s) eqn:P.
  - right. destruct (divisors_nonzero s) eqn:D.
    + right. destruct (calculate_lca_returns silent s P D) as (r & s' & H & _).
      eauto.
    + left. destruct (calculate_lca_zero_divisor silent s P D) as (s' & H & _).
      eauto.
  - left. split; [reflexivity|]. now apply calculate_lca_missing.
Qed.

(** The shape of what [calculate_lca] stores and returns. *)
Lemma calculate_lca_shape (silent : bool) (s s' : SAF_LCA_Model num)
    (r : lca_results num) :
  calculate_lca silent s = Returned r s' ->
  exists g1 g2 g3 g4 g5 e1 e2 e3 e4 w1 w2 w3,
    r = {| ghg_emissions :=
             [("carbon_capture", g1); ("electrolysis", g2);
              ("conversion", g3); ("distribution", g4); ("use_phase", g5);
              ("total", add (add (add (add g1 g2) g3) g4) g5)];
           energy_consumption :=
             [("carbon_capture", e1); ("electrolysis", e2);
              ("conversion", e3); ("distribution", e4);
              ("total", add (add (add e1 e2) e3) e4)];
           water_usage :=
             [("carbon_capture", w1); ("electrolysis", w2);
              ("conversion", w3); ("total", add (add w1 w2) w3)];
           land_use := [("total", dec 0 0)] |}.
Proof.
  unfold_methods. split_groups s; try discriminate.
  destruct silent; simpl; split_zero_tests; try discriminate;
    intros H; injection H as <- _; do 12 eexists; reflexivity.
Qed.

(** What [calculate_lca] returns depends on the five parameter groups only. *)
Lemma calculate_lca_parameters_only (b1 b2 : bool)
    (s1 s2 s1' : SAF_LCA_Model num) (r : lca_results num) :
  same_parameters s1 s2 ->
  calculate_lca b1 s1 = Returned r s1' ->
  exists s2', calculate_lca b2 s2 = Returned r s2' /\
              same_parameters s2 s2' /\ results s2' = r /\
              stdout s2' = (stdout s2 ++ said b2 (Narration "calculate_lca"))%list.
Proof.
  intros (E1 & E2 & E3 & E4 & E5). unfold_methods.
  rewrite <- E1, <- E2, <- E3, <- E4, <- E5.
  split_groups s1; try discriminate.
  destruct b1, b2; simpl; split_zero_tests; try discriminate;
    intros H; injection H as <- _;
    (eexists; split; [reflexivity|]; simpl; rewrite ?app_nil_r;
     repeat split; congruence).
Qed.

(** The pieces of a returned outcome. *)
Lemma calculate_lca_returned (silent : bool) (s s' : SAF_LCA_Model num)
    (r : lca_results num) :
  calculate_lca silent s = Returned r s' ->
  all_populated s = true /\ divisors_nonzero s = true /\
  same_parameters s s' /\ results s' = r /\
  stdout s' = (stdout s ++ said silent (Narration "calculate_lca"))%list.
Proof.
  intros H.
  destruct (calculate_lca_cases silent s)
    as [(_ & E) | [(_ & _ & s0 & E) | (P & D & _)]];
    try (rewrite E in H; discriminate).
  destruct (calculate_lca_returns silent s P D) as (r0 & s0 & E & F).
  rewrite E in H. injection H as <- <-. tauto.
Qed.

End Facts.

Section SetterFacts.

Context {num : Type} {A : Arith num}.

Lemma renewable_intensity :
  dict_get electricity_carbon_intensities "renewable" = Some (dec 20 3).
Proof. reflexivity. Qed.

(** [set_electrolysis_data] always returns; it writes the electrolysis group
    and nothing else. *)
Lemma set_electrolysis_data_returns
    (e1 e2 : num) (source : string) (co h2 w : num) (given : option num)
    (silent : bool) (s : SAF_LCA_Model num) :
  exists s',
    set_electrolysis_data e1 e2 source co h2 w given silent s = Returned tt s' /\
    electrolysis_data s' = Some
      {| el_co2_electrolysis_efficiency := e1;
         el_water_electrolysis_efficiency := e2;
         el_electricity_source := source;
         el_electricity_carbon_intensity :=
           match given with Some g => g | None => table_intensity source end;
         el_energy_input_co := co;
         el_energy_input_h2 := h2;
         el_water_usage := w |} /\
    conversion_data s' = conversion_data s /\
    distribution_data s' = distribution_data s /\
    use_phase_data s' = use_phase_data s /\
    carbon_capture_data s' = carbon_capture_data s /\
    results s' = results s /\
    stdout s' =
      (stdout s
       ++ match given with
          | Some _ => []
          | None =>
              if dict_mem electricity_carbon_intensities source then []
              else said silent (Warning source)
          end
       ++ said silent (Narration "set_electrolysis_data"))%list.
Proof.
  unfold_methods. unfold table_intensity, dict_mem.
  rewrite renewable_intensity.
  destruct given as [g|];
    [| destruct (dict_get electricity_carbon_intensities source) as [v|]];
    destruct silent; simpl; eexists; (split; [reflexivity|]); simpl;
    rewrite <- ?app_assoc, ?app_nil_r; repeat split; reflexivity.
Qed.

Lemma dict_get_cons {V : Type} (k : string) (v : V) (d : dict V)
    (key : string) :
  dict_get ((k, v) :: d) key
  = if String.eqb k key then Some v else dict_get d key.
Proof. reflexivity. Qed.

(** The two factor tables hold the five modes. *)
Lemma known_mode_factors (mode : string) :
  In mode default_transport_modes ->
  exists ef enf,
    dict_get (emission_factors (num:=num)) mode = Some ef /\
    dict_get (energy_factors (num:=num)) mode = Some enf.
Proof.
  simpl. intros [<- | [<- | [<- | [<- | [<- | []]]]]];
    do 2 eexists; split; reflexivity.
Qed.

Lemma unknown_mode_factors (mode : string) :
  ~ In mode default_transport_modes ->
  dict_get (emission_factors (num:=num)) mode = None.
Proof.
  intros H. unfold emission_factors.
  repeat (rewrite dict_get_cons;
          match goal with
          | |- context [String.eqb ?a mode] =>
              let E := fresh "E" in
              destruct (String.eqb_spec a mode) as [E|E];
              [exfalso; apply H; rewrite <- E; simpl; tauto|]
          end).
  reflexivity.
Qed.

Lemma emission_factor_known (mode : string) (ef : num) :
  dict_get emission_factors mode = Some ef ->
  In mode default_transport_modes.
Proof.
  intros H.
  destruct (in_dec string_dec mode default_transport_modes) as [I|N];
    [assumption|].
  rewrite (unknown_mode_factors N) in H. discriminate.
Qed.

(** [set_distribution_data] on a known mode returns and stores
    [stored_distribution]; on any other mode it raises and stores nothing. *)
Lemma set_distribution_data_outcome
    (distance : num) (mode : string) (density : num) (silent : bool)
    (s : SAF_LCA_Model num) :
  match stored_distribution distance mode density with
  | Some ds =>
      In mode default_transport_modes /\
      exists s',
        set_distribution_data distance mode density silent s = Returned tt s' /\
        distribution_data s' = Some ds /\
        conversion_data s' = conversion_data s /\
        use_phase_data s' = use_phase_data s /\
        carbon_capture_data s' = carbon_capture_data s /\
        electrolysis_data s' = electrolysis_data s /\
        results s' = results s /\
        stdout s' =
          (stdout s ++ said silent (Narration "set_distribution_data"))%list
  | None =>
      ~ In mode default_transport_modes /\
      set_distribution_data distance mode density silent s
      = Raised (ValueError (unsupported_mode mode)) s
  end.
Proof.
  unfold stored_distribution.
  destruct (in_dec string_dec mode default_transport_modes) as [I|N].
  - destruct (known_mode_factors I) as (ef & enf & E1 & E2).
    unfold_methods. unfold dict_mem. rewrite E1, E2. simpl.
    split; [assumption|].
    destruct silent; simpl; eexists; (split; [reflexivity|]); simpl;
      rewrite ?app_nil_r; repeat split; reflexivity.
  - pose proof (unknown_mode_factors N) as E.
    unfold_methods. unfold dict_mem. rewrite E. simpl.
    split; [assumption | reflexivity].
Qed.

End SetterFacts.

Section SweepFacts.

Context {num : Type} {A : Arith num}.

(** A loop whose body keeps an invariant returns and keeps it. *)
Lemma for_each_invariant {T U : Type} (I : SAF_LCA_Model num -> Prop)
    (body : T -> M num U) (xs : list T) :
  (forall x s, In x xs -> I s ->
     exists y s', body x s = Returned y s' /\ I s') ->
  forall s, I s ->
    exists ys s', for_each xs body s = Returned ys s' /\ I s' /\
                  List.length ys = List.length xs.
Proof.
  induction xs as [|x xs IH]; intros Hbody s Hs.
  - exists [], s. repeat split; assumption.
  - destruct (Hbody x s (or_introl eq_refl) Hs) as (y & s1 & E1 & I1).
    destruct (IH (fun x' s' H => Hbody x' s' (or_intror H)) s1 I1)
      as (ys & s2 & E2 & I2 & L).
    exists (y :: ys), s2. simpl. unfold bind at 1. rewrite E1.
    unfold bind at 1. rewrite E2. unfold ret. repeat split; [assumption|].
    simpl. now rewrite L.
Qed.

Lemma bind_returned {T U : Type} (m : M num T) (f : T -> M num U)
    (s s' : SAF_LCA_Model num) (x : T) :
  m s = Returned x s' -> bind m f s = f x s'.
Proof. unfold bind. now intros ->. Qed.

Lemma bind_raised {T U : Type} (m : M num T) (f : T -> M num U)
    (s s' : SAF_LCA_Model num) (e : exception) :
  m s = Raised e s' -> bind m f s = Raised e s'.
Proof. unfold bind. now intros ->. Qed.

Lemma getitem_found {V : Type} (d : dict V) (k : string) (v : V)
    (s : SAF_LCA_Model num) :
  dict_get d k = Some v -> getitem d k s = Returned v s.
Proof. unfold getitem. now intros ->. Qed.

Lemma electrolysis_item_found (key : string) (s : SAF_LCA_Model num)
    (el : electrolysis num) :
  electrolysis_data s = Some el -> electrolysis_item key s = Returned el s.
Proof. unfold electrolysis_item, bind, get. now intros ->. Qed.

Lemma distribution_item_found (key : string) (s : SAF_LCA_Model num)
    (ds : distribution num) :
  distribution_data s = Some ds -> distribution_item key s = Returned ds s.
Proof. unfold distribution_item, bind, get. now intros ->. Qed.

Lemma with_source_same (el : electrolysis num) :
  with_source el (el_electricity_source el)
    (el_electricity_carbon_intensity el) = el.
Proof. destruct el. reflexivity. Qed.

Lemma electricity_sweep_invariant_divisors (s0 s : SAF_LCA_Model num)
    (el0 : electrolysis num) :
  electrolysis_data s0 = Some el0 ->
  electricity_sweep_invariant s0 el0 s ->
  all_populated s = all_populated s0 /\
  divisors_nonzero s = divisors_nonzero s0.
Proof.
  intros H0 (E1 & E2 & E3 & E4 & src & i & E5).
  unfold all_populated, divisors_nonzero, divisors.
  rewrite E1, E2, E3, E4, E5, H0. split; reflexivity.
Qed.

(** One round of the electricity sweep. *)
Lemma electricity_round (s0 s : SAF_LCA_Model num) (el0 : electrolysis num)
    (source : string) :
  electrolysis_data s0 = Some el0 ->
  all_populated s0 = true -> divisors_nonzero s0 = true ->
  electricity_sweep_invariant s0 el0 s ->
  exists row s',
    (el <- electrolysis_item "co2_electrolysis_efficiency" ;;
     set_electrolysis_data
       (el_co2_electrolysis_efficiency el)
       (el_water_electrolysis_efficiency el)
       source (el_energy_input_co el0) (el_energy_input_h2 el0)
       (el_water_usage el) None true ;;;
     calculate_lca true ;;;
     self <- get ;;
     total <- getitem (ghg_emissions (results self)) "total" ;;
     let saf_emissions := mul total (dec 1000 0) in
     let emission_reduction :=
       mul (quot (sub (dec 890 1) saf_emissions) (dec 890 1)) (dec 100 0) in
     el' <- electrolysis_item "electricity_carbon_intensity" ;;
     electrolysis_ghg <-
       getitem (ghg_emissions (results self)) "electrolysis" ;;
     ret {| er_electricity_source := source;
            er_carbon_intensity := el_electricity_carbon_intensity el';
            er_saf_emissions_mjbasis := saf_emissions;
            er_emission_reduction := emission_reduction;
            er_electrolysis_emissions := mul electrolysis_ghg (dec 1000 0);
            er_total_emissions := saf_emissions |}) s
    = Returned row s' /\
    electricity_sweep_invariant s0 el0 s'.
Proof.
  intros H0 P D Inv.
  pose proof Inv as (E1 & E2 & E3 & E4 & src & i & E5).
  destruct (set_electrolysis_data_returns
              (el_co2_electrolysis_efficiency (with_source el0 src i))
              (el_water_electrolysis_efficiency (with_source el0 src i))
              source (el_energy_input_co el0) (el_energy_input_h2 el0)
              (el_water_usage (with_source el0 src i)) None true s)
    as (s1 & S1 & F5 & F1 & F2 & F3 & F4 & _).
  assert (Inv1 : electricity_sweep_invariant s0 el0 s1).
  { repeat split; try congruence.
    exists source, (table_intensity source). exact F5. }
  destruct (electricity_sweep_invariant_divisors H0 Inv1) as (P1 & D1).
  rewrite P in P1. rewrite D in D1.
  destruct (calculate_lca_returns true s1 P1 D1) as (r & s2 & C & SP & R & _).
  destruct (calculate_lca_shape true s1 C)
    as (g1 & g2 & g3 & g4 & g5 & e1 & e2 & e3 & e4 & w1 & w2 & w3 & Sh).
  destruct SP as (G1 & G2 & G3 & G4 & G5).
  do 2 eexists. split.
  - erewrite bind_returned by (apply electrolysis_item_found; exact E5).
    erewrite bind_returned by exact S1.
    erewrite bind_returned by exact C.
    erewrite bind_returned by reflexivity.
    rewrite R, Sh.
    erewrite bind_returned by (apply getitem_found; reflexivity).
    cbv zeta.
    erewrite bind_returned
      by (apply electrolysis_item_found; rewrite <- G5; exact F5).
    erewrite bind_returned by (apply getitem_found; reflexivity).
    reflexivity.
  - destruct Inv1 as (I1 & I2 & I3 & I4 & I5).
    repeat split; try congruence.
    rewrite <- G5. exact I5.
Qed.

Lemma print_returns (l : line) (s : SAF_LCA_Model num) :
  exists s', print l s = Returned tt s' /\ same_parameters s s' /\
             results s' = results s /\ stdout s' = (stdout s ++ [l])%list.
Proof. eexists. split; [reflexivity|]. repeat split. Qed.

(** The electricity sweep puts the electrolysis group back and recomputes:
    the parameters are those before the sweep and the results are those of
    [calculate_lca] on them.  On a list that is not empty it returns. *)
Lemma analyze_electricity_sources_restores
    (sources : option (list string)) (b : bool)
    (s s' s0 : SAF_LCA_Model num) (r : lca_results num) :
  calculate_lca b s = Returned r s' ->
  same_parameters s s0 ->
  let o := analyze_electricity_sources sources s0 in
  same_parameters s0 (final_state o) /\
  results (final_state o) = r /\
  (sources <> Some [] -> exists df, o = Returned df (final_state o)).
Proof.
  intros C SP o.
  destruct (calculate_lca_returned _ _ C) as (P & D & _).
  rewrite <- (all_populated_same SP) in P.
  rewrite <- (divisors_same SP) in D.
  assert (exists el0, electrolysis_data s0 = Some el0) as (el0 & H0).
  { unfold all_populated in P. destruct (electrolysis_data s0); [eauto|].
    destruct (carbon_capture_data s0); discriminate. }
  destruct (print_returns (Narration "analyze_electricity_sources") s0)
    as (s1 & P1 & SP1 & _).
  destruct (print_returns (Narration "analyze_electricity_sources") s1)
    as (s2 & P2 & SP2 & _).
  pose proof (same_parameters_trans SP1 SP2) as SP02.
  assert (H1 : electrolysis_data s1 = Some el0).
  { destruct SP1 as (_ & _ & _ & _ & <-). exact H0. }
  assert (Inv2 : electricity_sweep_invariant s0 el0 s2).
  { destruct SP02 as (G1 & G2 & G3 & G4 & G5).
    repeat split; try congruence.
    exists (el_electricity_source el0), (el_electricity_carbon_intensity el0).
    rewrite with_source_same. congruence. }
  set (xs := get_default sources default_electricity_sources).
  destruct (for_each_invariant (electricity_sweep_invariant s0 el0)
              (fun source => _) xs
              (fun source st _ => electricity_round source H0 P D (s:=st))
              s2 Inv2)
    as (rows & s3 & L & Inv3 & Len).
  pose proof Inv3 as (E1 & E2 & E3 & E4 & src & i & E5).
  destruct (set_electrolysis_data_returns
              (el_co2_electrolysis_efficiency (with_source el0 src i))
              (el_water_electrolysis_efficiency (with_source el0 src i))
              (el_electricity_source el0)
              (el_energy_input_co el0) (el_energy_input_h2 el0)
              (el_water_usage (with_source el0 src i))
              (Some (el_electricity_carbon_intensity el0)) true s3)
    as (s4 & S4 & F5 & F1 & F2 & F3 & F4 & _).
  assert (SP4 : same_parameters s s4).
  { destruct SP as (G1 & G2 & G3 & G4 & G5).
    unfold same_parameters. rewrite F1, F2, F3, F4, F5.
    repeat split; try congruence.
    rewrite G5, H0. destruct el0; reflexivity. }
  destruct (calculate_lca_parameters_only b true SP4 C)
    as (s5 & C5 & SP5 & R5 & _).
  assert (SP05 : same_parameters s0 s5).
  { eapply same_parameters_trans; [|exact SP5].
    eapply same_parameters_trans; [|exact SP4].
    now apply same_parameters_sym. }
  assert (O : o = match rows with
                  | [] => Raised (KeyError "electrolysis_emissions") s5
                  | _ :: _ =>
                      (print (Narration "analyze_electricity_sources") ;;;
                       ret (map (fun row =>
                         {| ef_row := row;
                            ef_electrolysis_contribution :=
                              mul (quot (er_electrolysis_emissions row)
                                        (er_total_emissions row))
                                  (dec 100 0) |}) rows)) s5
                  end).
  { subst o. unfold analyze_electricity_sources.
    erewrite bind_returned by exact P1.
    erewrite bind_returned by reflexivity.
    rewrite H1.
    erewrite bind_returned by exact P2.
    erewrite bind_returned by exact L.
    erewrite bind_returned
      by (apply electrolysis_item_found; exact E5).
    erewrite bind_returned by exact S4.
    erewrite bind_returned by exact C5.
    destruct rows; reflexivity. }
  destruct rows as [|row rows].
  - rewrite O. simpl. repeat split; try apply SP05; [exact R5|].
    intros N. exfalso. destruct sources as [[|x xs']|]; try discriminate Len.
    now apply N.
  - destruct (print_returns (Narration "analyze_electricity_sources") s5)
      as (s6 & P6 & SP6 & R6 & _).
    erewrite bind_returned in O by exact P6. unfold ret in O.
    rewrite O. simpl.
    split; [exact (same_parameters_trans SP05 SP6)|].
    split; [congruence|]. intros _. eexists. reflexivity.
Qed.

Lemma transport_sweep_invariant_divisors (s0 s : SAF_LCA_Model num) :
  all_populated s0 = true ->
  transport_sweep_invariant s0 s ->
  all_populated s = true /\ divisors_nonzero s = divisors_nonzero s0.
Proof.
  intros P (E1 & E2 & E3 & E4 & ds & E5).
  unfold all_populated, divisors_nonzero, divisors in *.
  rewrite E1, E2, E3, E4, E5.
  destruct (carbon_capture_data s0), (electrolysis_data s0),
    (conversion_data s0), (distribution_data s0), (use_phase_data s0);
    try discriminate.
  split; reflexivity.
Qed.

Lemma set_distribution_data_known
    (distance : num) (mode : string) (density : num) (silent : bool)
    (s : SAF_LCA_Model num) :
  In mode default_transport_modes ->
  exists ds s',
    stored_distribution distance mode density = Some ds /\
    set_distribution_data distance mode density silent s = Returned tt s' /\
    distribution_data s' = Some ds /\
    conversion_data s' = conversion_data s /\
    use_phase_data s' = use_phase_data s /\
    carbon_capture_data s' = carbon_capture_data s /\
    electrolysis_data s' = electrolysis_data s /\
    results s' = results s /\
    stdout s' =
      (stdout s ++ said silent (Narration "set_distribution_data"))%list.
Proof.
  intros I.
  pose proof (set_distribution_data_outcome distance mode density silent s)
    as O.
  destruct (stored_distribution distance mode density) as [ds|].
  - destruct O as (_ & s' & O). exists ds, s'. split; [reflexivity|exact O].
  - destruct O as (N & _). contradiction.
Qed.

(** One round of the transport sweep. *)
Lemma transport_round (s0 s : SAF_LCA_Model num)
    (base_distance density : num) (mode : string) :
  all_populated s0 = true -> divisors_nonzero s0 = true ->
  In mode default_transport_modes ->
  transport_sweep_invariant s0 s ->
  exists row s',
    (set_distribution_data base_distance mode density true ;;;
     calculate_lca true ;;;
     self <- get ;;
     total <- getitem (ghg_emissions (results self)) "total" ;;
     let saf_emissions := mul total (dec 1000 0) in
     let emission_reduction :=
       mul (quot (sub (dec 890 1) saf_emissions) (dec 890 1)) (dec 100 0) in
     ds <- distribution_item "emission_factor" ;;
     distribution_ghg <-
       getitem (ghg_emissions (results self)) "distribution" ;;
     ret {| tr_transport_mode := mode;
            tr_emission_factor := ds_emission_factor ds;
            tr_energy_factor := ds_energy_factor ds;
            tr_transport_emissions := mul distribution_ghg (dec 1000 0);
            tr_saf_emissions_mjbasis := saf_emissions;
            tr_emission_reduction := emission_reduction;
            tr_total_emissions := saf_emissions |}) s
    = Returned row s' /\
    transport_sweep_invariant s0 s'.
Proof.
  intros P D K Inv.
  pose proof Inv as (E1 & E2 & E3 & E4 & ds0 & E5).
  destruct (set_distribution_data_known base_distance density true s K)
    as (ds1 & s1 & _ & S1 & F5 & F1 & F2 & F3 & F4 & _).
  assert (Inv1 : transport_sweep_invariant s0 s1).
  { repeat split; try congruence. exists ds1. exact F5. }
  destruct (transport_sweep_invariant_divisors P Inv1) as (P1 & D1).
  rewrite D in D1.
  destruct (calculate_lca_returns true s1 P1 D1) as (r & s2 & C & SP & R & _).
  destruct (calculate_lca_shape true s1 C)
    as (g1 & g2 & g3 & g4 & g5 & e1 & e2 & e3 & e4 & w1 & w2 & w3 & Sh).
  destruct SP as (G1 & G2 & G3 & G4 & G5).
  do 2 eexists. split.
  - erewrite bind_returned by exact S1.
    erewrite bind_returned by exact C.
    erewrite bind_returned by reflexivity.
    rewrite R, Sh.
    erewrite bind_returned by (apply getitem_found; reflexivity).
    cbv zeta.
    erewrite bind_returned
      by (apply distribution_item_found; rewrite <- G2; exact F5).
    erewrite bind_returned by (apply getitem_found; reflexivity).
    reflexivity.
  - destruct Inv1 as (I1 & I2 & I3 & I4 & I5).
    repeat split; try congruence.
    exists ds1. congruence.
Qed.

(** The transport sweep over known modes puts a coherent distribution group
    back and recomputes. *)
Lemma analyze_transport_modes_restores
    (modes : option (list string)) (base_distance : num) (b : bool)
    (s s' s0 : SAF_LCA_Model num) (r : lca_results num) :
  calculate_lca b s = Returned r s' ->
  same_parameters s s0 ->
  distribution_coherent s0 ->
  Forall (fun mode => In mode default_transport_modes)
    (get_default modes default_transport_modes) ->
  let o := analyze_transport_modes modes base_distance s0 in
  same_parameters s0 (final_state o) /\
  results (final_state o) = r /\
  (modes <> Some [] -> exists df, o = Returned df (final_state o)).
Proof.
  intros C SP Coh Known o.
  destruct (calculate_lca_returned _ _ C) as (P & D & _).
  rewrite <- (all_populated_same SP) in P.
  rewrite <- (divisors_same SP) in D.
  assert (exists ds0, distribution_data s0 = Some ds0) as (ds0 & H0).
  { unfold all_populated in P. destruct (distribution_data s0); [eauto|].
    destruct (carbon_capture_data s0), (electrolysis_data s0),
      (conversion_data s0); discriminate. }
  unfold distribution_coherent in Coh. rewrite H0 in Coh.
  destruct (print_returns (Narration "analyze_transport_modes") s0)
    as (s1 & P1 & SP1 & _).
  destruct (print_returns (Narration "analyze_transport_modes") s1)
    as (s2 & P2 & SP2 & _).
  pose proof (same_parameters_trans SP1 SP2) as SP02.
  assert (H1 : distribution_data s1 = Some ds0).
  { destruct SP1 as (_ & <- & _). exact H0. }
  assert (Inv2 : transport_sweep_invariant s0 s2).
  { destruct SP02 as (G1 & G2 & G3 & G4 & G5).
    repeat split; try congruence. exists ds0. congruence. }
  set (xs := get_default modes default_transport_modes) in *.
  destruct (for_each_invariant (transport_sweep_invariant s0)
              (fun mode => _) xs
              (fun mode st I =>
                 transport_round base_distance (ds_fuel_density ds0) P D
                   (proj1 (Forall_forall _ _) Known mode I) (s:=st))
              s2 Inv2)
    as (rows & s3 & L & Inv3 & Len).
  pose proof Inv3 as (E1 & E2 & E3 & E4 & ds3 & E5).
  assert (K0 : In (ds_transport_mode ds0) default_transport_modes).
  { pose proof (set_distribution_data_outcome (ds_transport_distance ds0)
                  (ds_transport_mode ds0) (ds_fuel_density ds0) true s3) as O.
    rewrite Coh in O. apply O. }
  destruct (set_distribution_data_known (ds_transport_distance ds0)
              (ds_fuel_density ds0) true s3 K0)
    as (ds4 & s4 & St & S4 & F5 & F1 & F2 & F3 & F4 & _).
  rewrite Coh in St. injection St as <-.
  assert (SP4 : same_parameters s s4).
  { destruct SP as (G1 & G2 & G3 & G4 & G5).
    unfold same_parameters. rewrite F1, F2, F3, F4, F5.
    repeat split; congruence. }
  destruct (calculate_lca_parameters_only b true SP4 C)
    as (s5 & C5 & SP5 & R5 & _).
  assert (SP05 : same_parameters s0 s5).
  { eapply same_parameters_trans; [|exact SP5].
    eapply same_parameters_trans; [|exact SP4].
    now apply same_parameters_sym. }
  assert (O : o = match rows with
                  | [] => Raised (KeyError "transport_emissions") s5
                  | _ :: _ =>
                      (print (Narration "analyze_transport_modes") ;;;
                       ret (map (fun row =>
                         {| tf_row := row;
                            tf_transport_contribution :=
                              mul (quot (tr_transport_emissions row)
                                        (tr_total_emissions row))
                                  (dec 100 0) |}) rows)) s5
                  end).
  { subst o. unfold analyze_transport_modes.
    erewrite bind_returned by exact P1.
    erewrite bind_returned by reflexivity.
    rewrite H1.
    erewrite bind_returned by exact P2.
    erewrite bind_returned by exact L.
    erewrite bind_returned by exact S4.
    erewrite bind_returned by exact C5.
    destruct rows; reflexivity. }
  destruct rows as [|row rows].
  - rewrite O. simpl. repeat split; try apply SP05; [exact R5|].
    intros N. exfalso. subst xs.
    destruct modes as [[|x xs']|]; try discriminate Len.
    now apply N.
  - destruct (print_returns (Narration "analyze_transport_modes") s5)
      as (s6 & P6 & SP6 & R6 & _).
    erewrite bind_returned in O by exact P6. unfold ret in O.
    rewrite O. simpl.
    split; [exact (same_parameters_trans SP05 SP6)|].
    split; [congruence|]. intros _. eexists. reflexivity.
Qed.

End SweepFacts.

(** ** Facts about binary64 *)

Unset Implicit Arguments.

(** ** Objects built through the methods hold a coherent distribution group *)

Section Coherence.

Context {num : Type} {A : Arith num}.

Lemma keeps_ret {T : Type} (x : T) : keeps_coherence (ret (num:=num) x).
Proof. intros s H. exact H. Qed.

Lemma keeps_raise {T : Type} (e : exception) :
  keeps_coherence (raise (num:=num) (T:=T) e).
Proof. intros s H. exact H. Qed.

Lemma keeps_get : keeps_coherence (get (num:=num)).
Proof. intros s H. exact H. Qed.

Lemma keeps_print (l : line) : keeps_coherence (print (num:=num) l).
Proof. intros s H. exact H. Qed.

Lemma keeps_bind {T U : Type} (m : M num T) (f : T -> M num U) :
  keeps_coherence m -> (forall x, keeps_coherence (f x)) ->
  keeps_coherence (bind m f).
Proof.
  intros Hm Hf s H. specialize (Hm s H). unfold bind.
  destruct (m s) as [x s'|e s']; simpl in *; [now apply Hf | exact Hm].
Qed.

Lemma keeps_for_each {T U : Type} (xs : list T) (body : T -> M num U) :
  (forall x, keeps_coherence (body x)) -> keeps_coherence (for_each xs body).
Proof.
  intros Hb. induction xs as [|x xs IH]; simpl.
  - apply keeps_ret.
  - apply keeps_bind; [apply Hb|]. intros y.
    apply keeps_bind; [exact IH|]. intros ys. apply keeps_ret.
Qed.

Lemma stored_distribution_fields (distance : num) (mode : string)
    (density : num) (ds : distribution num) :
  stored_distribution distance mode density = Some ds ->
  ds_transport_distance ds = distance /\ ds_transport_mode ds = mode /\
  ds_fuel_density ds = density.
Proof.
  unfold stored_distribution. unfold_methods. unfold dict_mem.
  destruct (dict_get emission_factors mode) as [ef|]; [|discriminate].
  destruct (dict_get energy_factors mode) as [enf|]; [|discriminate].
  simpl. intros [= <-]. repeat split.
Qed.

(** The distribution setter writes a coherent group, or nothing. *)
Lemma keeps_set_distribution_data (distance : num) (mode : string)
    (density : num) (silent : bool) :
  keeps_coherence (set_distribution_data distance mode density silent).
Proof.
  intros s H.
  pose proof (set_distribution_data_outcome distance mode density silent s)
    as O.
  destruct (stored_distribution distance mode density) as [ds|] eqn:St.
  - destruct O as (_ & s' & -> & D & _). simpl.
    unfold distribution_coherent. rewrite D.
    destruct (stored_distribution_fields _ _ _ _ St) as (-> & -> & ->).
    exact St.
  - destruct O as (_ & ->). exact H.
Qed.

Ltac keeps_step :=
  first
    [ apply keeps_ret | apply keeps_raise | apply keeps_get
    | apply keeps_print | apply keeps_set_distribution_data
    | apply keeps_for_each; intros
    | apply keeps_bind; [|intros]
    | match goal with
      | |- keeps_coherence (match ?x with _ => _ end) => destruct x
      | |- keeps_coherence (let _ := _ in _) => cbv zeta
      end
    | intros s H; exact H ].

Lemma keeps_set_electrolysis_data
    (e1 e2 : num) (source : string) (co h2 w : num) (given : option num)
    (silent : bool) :
  keeps_coherence (set_electrolysis_data e1 e2 source co h2 w given silent).
Proof.
  unfold set_electrolysis_data, getitem, narrate, assign_electrolysis_data.
  repeat keeps_step.
Qed.

Lemma keeps_calculate_lca (silent : bool) :
  keeps_coherence (calculate_lca (num:=num) silent).
Proof.
  unfold calculate_lca, truediv, narrate, assign_results.
  repeat keeps_step.
Qed.

Lemma keeps_calculate_emission_reduction (fossil : num) (silent : bool) :
  keeps_coherence (calculate_emission_reduction fossil silent).
Proof.
  unfold calculate_emission_reduction, getitem, truediv, narrate.
  repeat first [apply keeps_calculate_lca | keeps_step].
Qed.

Lemma keeps_analyze_electricity_sources (sources : option (list string)) :
  keeps_coherence (analyze_electricity_sources (num:=num) sources).
Proof.
  unfold analyze_electricity_sources, electrolysis_item, getitem.
  repeat first [apply keeps_calculate_lca | apply keeps_set_electrolysis_data
               | keeps_step].
Qed.

Lemma keeps_analyze_transport_modes (modes : option (list string))
    (base_distance : num) :
  keeps_coherence (analyze_transport_modes modes base_distance).
Proof.
  unfold analyze_transport_modes, distribution_item, getitem.
  repeat first [apply keeps_calculate_lca | keeps_step].
Qed.

Lemma keeps_set_conversion_data
    (technology : string) (efficiency ghg energy_input water : num)
    (syngas_requirement co_h2_ratio : option num) :
  keeps_coherence
    (set_conversion_data technology efficiency ghg energy_input water
       syngas_requirement co_h2_ratio).
Proof.
  unfold set_conversion_data, assign_conversion_data. repeat keeps_step.
Qed.

Lemma keeps_set_use_phase_data (combustion_emissions energy_density : num) :
  keeps_coherence (set_use_phase_data combustion_emissions energy_density).
Proof.
  unfold set_use_phase_data, assign_use_phase_data. repeat keeps_step.
Qed.

Lemma keeps_set_carbon_capture_data
    (capture_efficiency energy_requirement ghg water co2_capture_rate : num) :
  keeps_coherence
    (set_carbon_capture_data capture_efficiency energy_requirement ghg water
       co2_capture_rate).
Proof.
  unfold set_carbon_capture_data, assign_carbon_capture_data.
  repeat keeps_step.
Qed.

(** Every object a client can obtain holds a coherent distribution group. *)
Lemma reachable_coherent (s : SAF_LCA_Model num) :
  reachable s -> distribution_coherent s.
Proof.
  induction 1 as [|c s R IH].
  - exact I.
  - destruct c; simpl.
    + now apply keeps_set_conversion_data.
    + now apply keeps_set_distribution_data.
    + now apply keeps_set_use_phase_data.
    + now apply keeps_set_carbon_capture_data.
    + now apply keeps_set_electrolysis_data.
    + now apply keeps_calculate_lca.
    + now apply keeps_calculate_emission_reduction.
    + now apply keeps_analyze_electricity_sources.
    + now apply keeps_analyze_transport_modes.
Qed.

End Coherence.

Section Binary64Facts.

#[local] Set Warnings "-inexact-float".

(** [float_dec] gives the doubles Python reads from the literals of the
    source. *)
Lemma float_dec_literals :
  float_dec 62 3 = 0.062%float /\ float_dec 1 3 = 0.001%float /\
  float_dec 36 1 = 3.6%float /\ float_dec 11 3 = 0.011%float /\
  float_dec 20 3 = 0.020%float /\ float_dec 923 3 = 0.923%float /\
  float_dec 213 2 = 2.13%float /\ float_dec 890 1 = 89.0%float /\
  float_dec 430 1 = 43.0%float /\ float_dec 100 0 = 100%float.
Proof. repeat split; reflexivity. Qed.

(** The literals [calculate_lca] and the sweeps divide by are not zero, so
    writing those divisions with [quot] loses no exception. *)
Lemma literal_divisors_nonzero_binary64 :
  is_zero (dec (num:=float) 100 0) = false /\
  is_zero (dec (num:=float) 36 1) = false /\
  is_zero (dec (num:=float) 890 1) = false.
Proof. repeat split; reflexivity. Qed.

Lemma Prim2SF_zero_cases (x : float) :
  PrimFloat.is_zero x = true ->
  x = PrimFloat.zero \/ x = PrimFloat.neg_zero.
Proof.
  intros Z. unfold PrimFloat.is_zero in Z. rewrite FloatAxioms.eqb_spec in Z.
  change (Prim2SF PrimFloat.zero) with (S754_zero false) in Z.
  rewrite <- (SF2Prim_Prim2SF x).
  destruct (Prim2SF x) as [[|]| [|] | | [|] m e]; try discriminate Z.
  - right. reflexivity.
  - left. reflexivity.
Qed.

(** Dividing a zero by [100] gives a zero. *)
Lemma float_zero_quot_100 (x : float) :
  PrimFloat.is_zero x = true ->
  PrimFloat.is_zero (x / float_dec 100 0) = true.
Proof.
  intros Z. destruct (Prim2SF_zero_cases x Z) as [-> | ->]; reflexivity.
Qed.

(** A finite double minus itself is a zero. *)
Lemma float_sub_self (x : float) :
  PrimFloat.is_finite x = true ->
  (x - x = PrimFloat.zero \/ x - x = PrimFloat.neg_zero)%float.
Proof.
  intros F.
  assert (exists b, Prim2SF (x - x) = S754_zero b) as (b & E).
  { rewrite FloatAxioms.sub_spec.
    unfold PrimFloat.is_finite in F.
    apply negb_true_iff, orb_false_iff in F. destruct F as (N & I).
    destruct (Prim2SF x) as [s | s | | s m e] eqn:P.
    - exists (if s then false else false). destruct s; reflexivity.
    - exfalso. unfold Prim2SF in P. rewrite N, I in P.
      destruct (PrimFloat.is_zero x); [discriminate|].
      destruct (Z.frexp x) as (fr, ex).
      destruct (shr_fexp prec emax _ _ _) as (sh, e').
      destruct (shr_m sh); discriminate.
    - exfalso. unfold Prim2SF in P. rewrite N, I in P.
      destruct (PrimFloat.is_zero x); [discriminate|].
      destruct (Z.frexp x) as (fr, ex).
      destruct (shr_fexp prec emax _ _ _) as (sh, e').
      destruct (shr_m sh); discriminate.
    - exists false. unfold SF64sub, SFsub. cbv zeta.
      rewrite Z.sub_diag. reflexivity. }
  rewrite <- (SF2Prim_Prim2SF (x - x)), E.
  destruct b; [right | left]; reflexivity.
Qed.

(** So the difference passes any tolerance test. *)
Lemma float_within_tolerance_self (x : float) :
  PrimFloat.is_finite x = true ->
  (PrimFloat.abs (x - x) <=? float_dec 1 9)%float = true.
Proof.
  intros F. destruct (float_sub_self x F) as [-> | ->]; reflexivity.
Qed.

End Binary64Facts.

(** ** Binary64 rounding is monotone *)

Section Binary64Rounding.

Local Open Scope Z_scope.

Lemma rne_decompose (m k : Z) :
  0 < k ->
  m = (m / 2 ^ k) * 2 ^ k + Z.b2z (Z.testbit m (k - 1)) * 2 ^ (k - 1)
      + m mod 2 ^ (k - 1) /\
  0 <= m mod 2 ^ (k - 1) < 2 ^ (k - 1) /\ 2 ^ k = 2 * 2 ^ (k - 1).
Proof.
  intros K.
  assert (P : 2 ^ k = 2 * 2 ^ (k - 1)).
  { replace k with (Z.succ (k - 1)) at 1 by lia. apply Z.pow_succ_r. lia. }
  assert (H : 0 < 2 ^ (k - 1)) by (apply Z.pow_pos_nonneg; lia).
  split; [|split; [apply Z.mod_pos_bound; exact H | exact P]].
  pose proof (Z.div_mod m (2 ^ (k - 1)) ltac:(lia)) as D1.
  pose proof (Z.div_mod (m / 2 ^ (k - 1)) 2 ltac:(lia)) as D2.
  assert (B : Z.b2z (Z.testbit m (k - 1)) = (m / 2 ^ (k - 1)) mod 2).
  { rewrite Z.testbit_spec' by lia. reflexivity. }
  assert (Q : m / 2 ^ k = m / 2 ^ (k - 1) / 2).
  { rewrite P, Z.mul_comm. rewrite Z.div_div by lia. reflexivity. }
  rewrite B, Q. lia.
Qed.

Lemma rne_bounds (m k : Z) :
  0 < k -> m / 2 ^ k <= rne m k <= m / 2 ^ k + 1.
Proof.
  intros K. unfold rne. destruct (Z.leb_spec k 0); [lia|].
  destruct (Z.testbit m (k - 1)), (m mod 2 ^ (k - 1) =? 0),
    (Z.even (m / 2 ^ k)); cbn [negb]; lia.
Qed.

Lemma rne_mono (m m' k : Z) : m <= m' -> rne m k <= rne m' k.
Proof.
  intros L. destruct (Z.leb_spec k 0) as [K|K].
  - unfold rne. destruct (Z.leb_spec k 0); lia.
  - assert (P : 0 < 2 ^ k) by (apply Z.pow_pos_nonneg; lia).
    pose proof (Z.div_le_mono m m' (2 ^ k) P L) as Q.
    pose proof (rne_bounds m k K). pose proof (rne_bounds m' k K).
    destruct (Z.eq_dec (m / 2 ^ k) (m' / 2 ^ k)) as [E|N]; [|lia].
    destruct (rne_decompose m k K) as (D & R & T).
    destruct (rne_decompose m' k K) as (D' & R' & _).
    unfold rne in *. destruct (Z.leb_spec k 0); [lia|].
    rewrite <- E in *.
    destruct (Z.eqb_spec (m mod 2 ^ (k - 1)) 0) as [Z0|Z0];
      destruct (Z.eqb_spec (m' mod 2 ^ (k - 1)) 0) as [Z1|Z1];
      destruct (Z.testbit m (k - 1)), (Z.testbit m' (k - 1));
      cbn [negb Z.b2z] in *; destruct (Z.even (m / 2 ^ k)); nia.
Qed.

Lemma rne_scale (m k j : Z) :
  0 <= k -> 0 <= j -> rne (m * 2 ^ j) (k + j) = rne m k.
Proof.
  intros K J.
  assert (Pj : 0 < 2 ^ j) by (apply Z.pow_pos_nonneg; lia).
  unfold rne.
  destruct (Z.leb_spec (k + j) 0) as [A|A], (Z.leb_spec k 0) as [B|B];
    try lia.
  - assert (j = 0) by lia. subst j. rewrite Z.pow_0_r. lia.
  - assert (k = 0) by lia. subst k. cbn [Z.add].
    rewrite Z.div_mul by lia.
    rewrite Z.mul_pow2_bits by lia.
    rewrite Z.testbit_neg_r by lia. reflexivity.
  - assert (E1 : m * 2 ^ j / 2 ^ (k + j) = m / 2 ^ k).
    { rewrite Z.pow_add_r by lia. rewrite Z.div_mul_cancel_r by lia.
      reflexivity. }
    assert (E2 : Z.testbit (m * 2 ^ j) (k + j - 1) = Z.testbit m (k - 1)).
    { rewrite Z.mul_pow2_bits by lia. f_equal. lia. }
    assert (E3 : (m * 2 ^ j) mod 2 ^ (k + j - 1)
                 = (m mod 2 ^ (k - 1)) * 2 ^ j).
    { replace (k + j - 1) with ((k - 1) + j) by lia.
      rewrite Z.pow_add_r by lia.
      rewrite Z.mul_mod_distr_r; [reflexivity| |lia].
      apply Z.pow_nonzero; lia. }
    rewrite E1, E2, E3.
    replace (m mod 2 ^ (k - 1) * 2 ^ j =? 0) with (m mod 2 ^ (k - 1) =? 0);
      [reflexivity|].
    destruct (Z.eqb_spec (m mod 2 ^ (k - 1)) 0) as [->|N];
      destruct (Z.eqb_spec (m mod 2 ^ (k - 1) * 2 ^ j) 0); try reflexivity;
      nia.
Qed.

(** ** The shifts of [SpecFloat] *)

Lemma shr_1_inv (M j : Z) (mrs : shr_record) :
  0 <= M -> 0 <= j -> shr_inv M j mrs -> shr_inv M (j + 1) (shr_1 mrs).
Proof.
  intros HM HJ (Hm & H0 & H1).
  assert (Pj : 0 < 2 ^ j) by (apply Z.pow_pos_nonneg; lia).
  assert (Q : M / 2 ^ (j + 1) = M / 2 ^ j / 2).
  { rewrite Z.pow_add_r, Z.pow_1_r by lia. rewrite Z.div_div by lia.
    reflexivity. }
  assert (B : Z.testbit M j = Z.odd (M / 2 ^ j)).
  { rewrite Z.testbit_odd, Z.shiftr_div_pow2 by lia. reflexivity. }
  assert (S : orb (shr_r mrs) (shr_s mrs) = negb (M mod 2 ^ j =? 0)).
  { destruct (Z.eq_dec j 0) as [->|N].
    - destruct H0 as (-> & ->); [lia|]. rewrite Z.pow_0_r, Z.mod_1_r.
      reflexivity.
    - destruct H1 as (-> & ->); [lia|].
      destruct (rne_decompose M j ltac:(lia)) as (D & R & T).
      pose proof (Z.div_mod M (2 ^ j) ltac:(lia)) as D2.
      destruct (Z.testbit M (j - 1));
        destruct (Z.eqb_spec (M mod 2 ^ (j - 1)) 0);
        destruct (Z.eqb_spec (M mod 2 ^ j) 0); cbn [negb orb Z.b2z] in *;
        try reflexivity; nia. }
  assert (Nn : 0 <= shr_m mrs).
  { rewrite Hm. apply Z.div_pos; lia. }
  destruct mrs as [m r s]. cbn [shr_m shr_r shr_s] in *.
  unfold shr_inv, shr_1.
  replace (j + 1 - 1) with j by lia.
  rewrite Q, B, <- Hm, <- S.
  destruct m as [|[p|p|]|p]; cbn [shr_m shr_r shr_s]; try lia;
    (split; [|split; [intros; lia | intros _; split; reflexivity]]);
    try reflexivity.
  - rewrite Pos2Z.inj_xI. apply Z.div_unique with 1; lia.
  - rewrite Pos2Z.inj_xO. apply Z.div_unique with 0; lia.
Qed.

Lemma iter_shr_inv (p : positive) (M j : Z) (mrs : shr_record) :
  0 <= M -> 0 <= j -> shr_inv M j mrs ->
  shr_inv M (j + Zpos p) (iter_pos shr_1 p mrs).
Proof.
  intros HM. revert j mrs.
  induction p as [p IH|p IH|]; intros j mrs HJ H; cbn [iter_pos].
  - replace (j + Zpos p~1) with (j + 1 + Zpos p + Zpos p) by lia.
    apply IH; [lia|]. apply IH; [lia|]. now apply shr_1_inv.
  - replace (j + Zpos p~0) with (j + Zpos p + Zpos p) by lia.
    apply IH; [lia|]. now apply IH.
  - now apply shr_1_inv.
Qed.

Lemma shr_inv_exact (M : Z) : shr_inv M 0 (shr_record_of_loc M loc_Exact).
Proof.
  unfold shr_inv. cbn. rewrite Z.div_1_r.
  split; [reflexivity|]. split; [tauto | lia].
Qed.

(** What [shr] gives on an exact non-negative mantissa. *)
Lemma shr_exact (M e n : Z) :
  0 <= M ->
  let '(mrs, e') := shr (shr_record_of_loc M loc_Exact) e n in
  if 0 <? n
  then e' = e + n /\ shr_m mrs = M / 2 ^ n /\
       round_nearest_even (shr_m mrs) (loc_of_shr_record mrs) = rne M n
  else e' = e /\ mrs = shr_record_of_loc M loc_Exact.
Proof.
  intros HM. unfold shr. destruct n as [|p|p]; cbn [Z.ltb Z.compare];
    try (split; reflexivity).
  pose proof (iter_shr_inv p M 0 _ HM ltac:(lia) (shr_inv_exact M))
    as (Hm & _ & H1).
  cbn [Z.add] in *. split; [reflexivity|]. split; [exact Hm|].
  destruct H1 as (Hr & Hs); [lia|].
  unfold rne. destruct (Z.leb_spec (Zpos p) 0); [lia|].
  rewrite <- Hm, <- Hr, <- Hs.
  destruct (iter_pos shr_1 p _) as [m r s]. cbn.
  destruct r, s; reflexivity.
Qed.

(** ** Digits *)

Lemma digits2_pos_bounds (p : positive) :
  2 ^ (Zpos (digits2_pos p) - 1) <= Zpos p < 2 ^ Zpos (digits2_pos p).
Proof.
  induction p as [p IH|p IH|]; cbn [digits2_pos].
  - rewrite Pos2Z.inj_succ. change (Zpos p~1) with (2 * Zpos p + 1).
    replace (Z.succ (Zpos (digits2_pos p)) - 1)
      with (Z.succ (Zpos (digits2_pos p) - 1)) by lia.
    rewrite !Z.pow_succ_r by lia. lia.
  - rewrite Pos2Z.inj_succ. change (Zpos p~0) with (2 * Zpos p).
    replace (Z.succ (Zpos (digits2_pos p)) - 1)
      with (Z.succ (Zpos (digits2_pos p) - 1)) by lia.
    rewrite !Z.pow_succ_r by lia. lia.
  - cbn. lia.
Qed.

Lemma digits2_le (p : positive) (n : Z) :
  Zpos p < 2 ^ n -> Zpos (digits2_pos p) <= n.
Proof.
  intros H. pose proof (digits2_pos_bounds p) as (L & _).
  destruct (Z.le_gt_cases (Zpos (digits2_pos p)) n) as [|G]; [assumption|].
  exfalso.
  assert (2 ^ n <= 2 ^ (Zpos (digits2_pos p) - 1)).
  { destruct (Z.le_gt_cases 0 n).
    - apply Z.pow_le_mono_r; lia.
    - rewrite (Z.pow_neg_r 2 n) by lia. apply Z.pow_nonneg. lia. }
  lia.
Qed.

Lemma digits2_ge (p : positive) (n : Z) :
  2 ^ n <= Zpos p -> n < Zpos (digits2_pos p).
Proof.
  intros H. pose proof (digits2_pos_bounds p) as (_ & U).
  destruct (Z.le_gt_cases (Zpos (digits2_pos p)) n) as [L|]; [|assumption].
  exfalso.
  assert (2 ^ Zpos (digits2_pos p) <= 2 ^ n)
    by (apply Z.pow_le_mono_r; lia).
  lia.
Qed.

Lemma fexp_eq (x : Z) : fexp prec emax x = Z.max (x - 53) (-1074).
Proof. reflexivity. Qed.

(** ** What [binary_round_aux] computes on an exact positive mantissa *)

Lemma rne_range (p : positive) (e : Z) :
  0 <= target p e - e ->
  0 <= rne (Zpos p) (target p e - e) <= 2 ^ 53.
Proof.
  intros K. set (k := target p e - e) in *.
  pose proof (digits2_pos_bounds p) as (L & U).
  assert (D : Zpos (digits2_pos p) - k <= 53) by (unfold k, target; lia).
  destruct (Z.eq_dec k 0) as [E|N].
  - rewrite E. unfold rne. cbn [Z.leb Z.compare].
    assert (2 ^ Zpos (digits2_pos p) <= 2 ^ 53)
      by (apply Z.pow_le_mono_r; lia).
    lia.
  - pose proof (rne_bounds (Zpos p) k ltac:(lia)) as B.
    assert (Pk : 0 < 2 ^ k) by (apply Z.pow_pos_nonneg; lia).
    assert (Q0 : 0 <= Zpos p / 2 ^ k) by (apply Z.div_pos; lia).
    assert (Q1 : Zpos p / 2 ^ k < 2 ^ 53).
    { apply Z.div_lt_upper_bound; [lia|].
      destruct (Z.le_gt_cases (Zpos (digits2_pos p)) k) as [Le|Gt].
      - assert (2 ^ Zpos (digits2_pos p) <= 2 ^ k)
          by (apply Z.pow_le_mono_r; lia).
        assert (1 <= 2 ^ 53) by (cbn; lia). nia.
      - assert (2 ^ Zpos (digits2_pos p) <= 2 ^ k * 2 ^ 53).
        { rewrite <- Z.pow_add_r by lia. apply Z.pow_le_mono_r; lia. }
        lia. }
    lia.
Qed.

Lemma shr_fexp_small (M t : Z) (p : positive) :
  M = Zpos p -> M < 2 ^ 53 -> -1074 <= t ->
  shr_fexp prec emax M t loc_Exact = (shr_record_of_loc M loc_Exact, t).
Proof.
  intros -> U T. unfold shr_fexp. cbn [Zdigits2]. rewrite fexp_eq.
  pose proof (digits2_le p 53 U).
  unfold shr.
  destruct (Z.max (Zpos (digits2_pos p) + t - 53) (-1074) - t) eqn:E;
    try reflexivity.
  lia.
Qed.

Lemma bra_spec (s : bool) (p : positive) (e : Z) :
  0 <= target p e - e ->
  binary_round_aux prec emax s (Zpos p) e loc_Exact
  = round_result s (rne (Zpos p) (target p e - e)) (target p e).
Proof.
  intros K. pose proof (rne_range p e K) as R.
  set (t := target p e) in *. set (M := rne (Zpos p) (t - e)) in *.
  assert (T : -1074 <= t) by (unfold t, target; lia).
  unfold binary_round_aux.
  assert (First : shr_fexp prec emax (Zpos p) e loc_Exact
                  = (fst (shr_fexp prec emax (Zpos p) e loc_Exact), t) /\
                  round_nearest_even
                    (shr_m (fst (shr_fexp prec emax (Zpos p) e loc_Exact)))
                    (loc_of_shr_record
                       (fst (shr_fexp prec emax (Zpos p) e loc_Exact)))
                  = M).
  { unfold shr_fexp. cbn [Zdigits2]. rewrite fexp_eq. fold (target p e).
    fold t.
    pose proof (shr_exact (Zpos p) e (t - e) ltac:(lia)) as H.
    destruct (shr (shr_record_of_loc (Zpos p) loc_Exact) e (t - e))
      as [mrs e'].
    cbn [fst]. destruct (Z.ltb_spec 0 (t - e)) as [G|G].
    - destruct H as (-> & _ & H). split; [f_equal; lia | exact H].
    - destruct H as (-> & ->). split; [f_equal; lia|].
      cbn. unfold M, rne. replace (t - e) with 0 by lia. reflexivity. }
  destruct First as (F1 & F2). rewrite F1, F2. clear F1 F2.
  unfold round_result.
  destruct (Z.eqb_spec M 0) as [Z0|N0].
  - rewrite Z0. unfold shr_fexp. cbn [Zdigits2]. rewrite fexp_eq.
    unfold shr.
    destruct (Z.max (0 + t - 53) (-1074) - t) eqn:E; try reflexivity.
    lia.
  - destruct (Z.eqb_spec M (2 ^ 53)) as [C|NC].
    + rewrite C. unfold shr_fexp. rewrite fexp_eq.
      change (Zdigits2 (2 ^ 53)) with 54.
      replace (Z.max (54 + t - 53) (-1074) - t) with 1 by lia.
      change (shr (shr_record_of_loc (2 ^ 53) loc_Exact) t 1)
        with ({| shr_m := 2 ^ 52; shr_r := false; shr_s := false |}, t + 1).
      reflexivity.
    + destruct M as [|q|q] eqn:EM; try lia.
      rewrite (shr_fexp_small (Zpos q) t q eq_refl ltac:(lia) T).
      cbn [shr_record_of_loc shr_m Z.to_pos]. reflexivity.
Qed.

(** ** Rounding is monotone *)

Lemma vle_base (B m1 e1 m2 e2 : Z) :
  B <= e1 -> B <= e2 ->
  (vle m1 e1 m2 e2 <-> m1 * 2 ^ (e1 - B) <= m2 * 2 ^ (e2 - B)).
Proof.
  intros B1 B2. unfold vle. set (lo := Z.min e1 e2).
  assert (P : 0 < 2 ^ (lo - B)) by (apply Z.pow_pos_nonneg; lia).
  replace (e1 - B) with ((e1 - lo) + (lo - B)) by lia.
  replace (e2 - B) with ((e2 - lo) + (lo - B)) by lia.
  rewrite !Z.pow_add_r by lia. rewrite !Z.mul_assoc.
  split; intros H.
  - apply Z.mul_le_mono_nonneg_r; lia.
  - apply Z.mul_le_mono_pos_r in H; lia.
Qed.

Lemma SFleb_finite (M1 M2 E1 E2 : Z) :
  0 < M1 -> 0 < M2 -> E1 < E2 \/ (E1 = E2 /\ M1 <= M2) ->
  SFleb (S754_finite false (Z.to_pos M1) E1)
        (S754_finite false (Z.to_pos M2) E2) = true.
Proof.
  intros P1 P2 H. unfold SFleb, SFcompare.
  destruct (Z.compare_spec E1 E2) as [E|L|G]; try reflexivity; try lia.
  rewrite Pos.compare_cont_spec. cbn [Pos.switch_Eq].
  destruct (Pos.compare_spec (Z.to_pos M1) (Z.to_pos M2)) as [|L|G];
    try reflexivity.
  apply Pos2Z.pos_lt_pos in G. rewrite !Z2Pos.id in G by lia. lia.
Qed.

Lemma magnitude_le (p1 p2 : positive) (e1 e2 : Z) :
  vle (Zpos p1) e1 (Zpos p2) e2 ->
  Zpos (digits2_pos p1) + e1 <= Zpos (digits2_pos p2) + e2.
Proof.
  intros V. set (B := Z.min e1 e2).
  assert (B1 : B <= e1) by (unfold B; lia).
  assert (B2 : B <= e2) by (unfold B; lia).
  apply (proj1 (vle_base B _ _ _ _ B1 B2)) in V.
  pose proof (digits2_pos_bounds p1) as (L1 & _).
  pose proof (digits2_pos_bounds p2) as (_ & U2).
  set (d1 := Zpos (digits2_pos p1)) in *.
  set (d2 := Zpos (digits2_pos p2)) in *.
  assert (P1 : 0 < 2 ^ (e1 - B)) by (apply Z.pow_pos_nonneg; unfold B; lia).
  assert (P2 : 0 < 2 ^ (e2 - B)) by (apply Z.pow_pos_nonneg; unfold B; lia).
  assert (A : 2 ^ (d1 - 1 + (e1 - B)) < 2 ^ (d2 + (e2 - B))).
  { rewrite (Z.pow_add_r 2 (d1 - 1) (e1 - B)), (Z.pow_add_r 2 d2 (e2 - B))
      by (unfold d1, d2, B; lia).
    assert (2 ^ (d1 - 1) * 2 ^ (e1 - B) <= Zpos p1 * 2 ^ (e1 - B))
      by (apply Z.mul_le_mono_nonneg_r; lia).
    assert (Zpos p2 * 2 ^ (e2 - B) < 2 ^ d2 * 2 ^ (e2 - B))
      by (apply Z.mul_lt_mono_pos_r; lia).
    lia. }
  apply Z.pow_lt_mono_r_iff in A; unfold d2, B in *; lia.
Qed.

Lemma rne_common (p : positive) (e t B : Z) :
  B <= e -> e <= t -> rne (Zpos p * 2 ^ (e - B)) (t - B) = rne (Zpos p) (t - e).
Proof.
  intros H1 H2. replace (t - B) with ((t - e) + (e - B)) by lia.
  apply rne_scale; lia.
Qed.

Lemma rne_large (p : positive) (e : Z) :
  -1074 < target p e -> 0 <= target p e - e ->
  2 ^ 52 <= rne (Zpos p) (target p e - e).
Proof.
  intros T K. pose proof (digits2_pos_bounds p) as (L & _).
  set (d := Zpos (digits2_pos p)) in *.
  assert (E : target p e - e = d - 53) by (unfold target in *; fold d; fold d in T; lia).
  rewrite E in *.
  assert (Pk : 0 < 2 ^ (d - 53)) by (apply Z.pow_pos_nonneg; lia).
  assert (S : 2 ^ (d - 1) = 2 ^ 52 * 2 ^ (d - 53)).
  { rewrite <- Z.pow_add_r by lia. f_equal. lia. }
  destruct (Z.eq_dec (d - 53) 0) as [Z0|N].
  - rewrite Z0 in *. unfold rne. cbn [Z.leb Z.compare]. rewrite Z.pow_0_r in S.
    lia.
  - pose proof (rne_bounds (Zpos p) (d - 53) ltac:(lia)) as (Lo & _).
    assert (2 ^ 52 <= Zpos p / 2 ^ (d - 53)).
    { apply Z.div_le_lower_bound; lia. }
    lia.
Qed.

Lemma round_mono (p1 p2 : positive) (e1 e2 : Z) :
  vle (Zpos p1) e1 (Zpos p2) e2 ->
  0 <= target p1 e1 - e1 -> 0 <= target p2 e2 - e2 ->
  SFleb (round_result false (rne (Zpos p1) (target p1 e1 - e1)) (target p1 e1))
        (round_result false (rne (Zpos p2) (target p2 e2 - e2)) (target p2 e2))
  = true.
Proof.
  intros V K1 K2.
  pose proof (magnitude_le p1 p2 e1 e2 V) as Mg.
  pose proof (rne_range p1 e1 K1) as R1.
  pose proof (rne_range p2 e2 K2) as R2.
  assert (T12 : target p1 e1 <= target p2 e2) by (unfold target; lia).
  assert (T1 : -1074 <= target p1 e1) by (unfold target; lia).
  assert (P52 : 2 ^ 52 < 2 ^ 53) by (cbn; lia).
  assert (P0 : 0 < 2 ^ 52) by (cbn; lia).
  assert (Ord : (target p1 e1 = target p2 e2 /\
                 rne (Zpos p1) (target p1 e1 - e1)
                 <= rne (Zpos p2) (target p2 e2 - e2)) \/
                (target p1 e1 < target p2 e2 /\
                 2 ^ 52 <= rne (Zpos p2) (target p2 e2 - e2))).
  { destruct (Z.eq_dec (target p1 e1) (target p2 e2)) as [E|N].
    - left. split; [exact E|].
      set (B := Z.min e1 e2).
      assert (B1 : B <= e1) by (unfold B; lia).
      assert (B2 : B <= e2) by (unfold B; lia).
      apply (proj1 (vle_base B _ _ _ _ B1 B2)) in V.
      rewrite <- (rne_common p1 e1 (target p1 e1) B) by (unfold B; lia).
      rewrite <- (rne_common p2 e2 (target p2 e2) B) by (unfold B; lia).
      rewrite E. now apply rne_mono.
    - right. split; [lia|]. apply rne_large; lia. }
  set (t1 := target p1 e1) in *. set (t2 := target p2 e2) in *.
  set (M1 := rne (Zpos p1) (t1 - e1)) in *.
  set (M2 := rne (Zpos p2) (t2 - e2)) in *.
  clearbody M1 M2 t1 t2. clear V K1 K2 Mg.
  unfold round_result.
  destruct (Z.eqb_spec M1 0), (Z.eqb_spec M2 0),
    (Z.eqb_spec M1 (2 ^ 53)), (Z.eqb_spec M2 (2 ^ 53)),
    (Z.leb_spec (t1 + 1) 971), (Z.leb_spec (t2 + 1) 971),
    (Z.leb_spec t1 971), (Z.leb_spec t2 971);
    try reflexivity; try lia;
    try (change (2 ^ 52)%positive with (Z.to_pos (2 ^ 52)));
    apply SFleb_finite; lia.
Qed.

(** ** Valid binary64 numbers and their order *)

Lemma valid_finite (s : bool) (m : positive) (e : Z) :
  valid_binary (S754_finite s m e) = true ->
  target m e = e /\ e <= 971.
Proof.
  cbn [SpecFloat.valid_binary]. unfold bounded, canonical_mantissa.
  rewrite fexp_eq. intros H. apply andb_prop in H. destruct H as (C & B).
  apply Z.eqb_eq in C. apply Z.leb_le in B. unfold target.
  change (emax - prec) with 971 in B. lia.
Qed.

Lemma SFleb_finite_inv (m1 m2 : positive) (e1 e2 : Z) :
  SFleb (S754_finite false m1 e1) (S754_finite false m2 e2) = true ->
  e1 < e2 \/ (e1 = e2 /\ Zpos m1 <= Zpos m2).
Proof.
  unfold SFleb, SFcompare.
  destruct (Z.compare_spec e1 e2) as [E|L|G]; try discriminate;
    [|intros _; now left].
  rewrite Pos.compare_cont_spec. cbn [Pos.switch_Eq].
  destruct (Pos.compare_spec m1 m2) as [->|L|G]; try discriminate;
    intros _; right; split; try assumption; lia.
Qed.

(** On valid positive numbers the order of [SFleb] is the order of the
    values. *)
Lemma SFleb_value (m1 m2 : positive) (e1 e2 : Z) :
  valid_binary (S754_finite false m1 e1) = true ->
  valid_binary (S754_finite false m2 e2) = true ->
  SFleb (S754_finite false m1 e1) (S754_finite false m2 e2) = true ->
  vle (Zpos m1) e1 (Zpos m2) e2.
Proof.
  intros V1 V2 L.
  apply valid_finite in V1. apply valid_finite in V2.
  destruct V1 as (C1 & _), V2 as (C2 & _). unfold target in *.
  apply SFleb_finite_inv in L. unfold vle.
  destruct L as [Lt|(-> & Le)].
  - rewrite Z.min_l by lia. rewrite Z.sub_diag, Z.pow_0_r.
    pose proof (digits2_pos_bounds m1) as (_ & U1).
    pose proof (digits2_pos_bounds m2) as (L2 & _).
    assert (D1 : Zpos (digits2_pos m1) <= 53) by lia.
    assert (D2 : Zpos (digits2_pos m2) = 53) by lia.
    rewrite D2 in L2.
    assert (2 ^ Zpos (digits2_pos m1) <= 2 ^ 53)
      by (apply Z.pow_le_mono_r; lia).
    assert (2 ^ 1 <= 2 ^ (e2 - e1)) by (apply Z.pow_le_mono_r; lia).
    change (2 ^ 1) with 2 in *. change (2 ^ (53 - 1)) with (2 ^ 52) in L2.
    assert (2 ^ 53 = 2 ^ 52 * 2) by reflexivity.
    nia.
  - rewrite Z.min_id, Z.sub_diag, Z.pow_0_r. lia.
Qed.

Lemma SFleb_refl (x : spec_float) : x <> S754_nan -> SFleb x x = true.
Proof.
  destruct x as [[|]|[|]| |[|] m e]; intros N; try reflexivity;
    try (now elim N); unfold SFleb, SFcompare;
    rewrite Z.compare_refl, Pos.compare_cont_refl; reflexivity.
Qed.

(** ** The rounded results are numbers of the sign asked for *)

Lemma round_result_forms (s : bool) (M t : Z) :
  0 <= M ->
  round_result s M t = S754_zero s \/
  round_result s M t = S754_infinity s \/
  exists m e, round_result s M t = S754_finite s m e.
Proof.
  intros _. unfold round_result.
  destruct (M =? 0), (M =? 2 ^ 53), (t + 1 <=? 971), (t <=? 971); eauto.
Qed.

(** ** Multiplication is monotone on non-negative numbers *)

Lemma mul_target (mx my : positive) (ex ey : Z) :
  target mx ex = ex -> target my ey = ey ->
  0 <= target (mx * my) (ex + ey) - (ex + ey).
Proof.
  unfold target. intros Cx Cy.
  pose proof (digits2_pos_bounds mx) as (Lx & _).
  pose proof (digits2_pos_bounds my) as (Ly & _).
  assert (P : 2 ^ (Zpos (digits2_pos mx) - 1 + (Zpos (digits2_pos my) - 1))
              <= Zpos (mx * my)).
  { rewrite Z.pow_add_r by lia. rewrite Pos2Z.inj_mul.
    apply Z.mul_le_mono_nonneg; try lia; apply Z.pow_nonneg; lia. }
  apply digits2_ge in P. lia.
Qed.

Lemma vle_mul (mc mx my : positive) (ec ex ey : Z) :
  vle (Zpos mx) ex (Zpos my) ey ->
  vle (Zpos (mc * mx)) (ec + ex) (Zpos (mc * my)) (ec + ey).
Proof.
  intros V. set (B := Z.min ex ey).
  assert (B1 : B <= ex) by (unfold B; lia).
  assert (B2 : B <= ey) by (unfold B; lia).
  apply (proj1 (vle_base B _ _ _ _ B1 B2)) in V.
  assert (C1 : ec + B <= ec + ex) by lia.
  assert (C2 : ec + B <= ec + ey) by lia.
  apply (proj2 (vle_base (ec + B) _ _ _ _ C1 C2)).
  replace (ec + ex - (ec + B)) with (ex - B) by lia.
  replace (ec + ey - (ec + B)) with (ey - B) by lia.
  rewrite !Pos2Z.inj_mul, <- !Z.mul_assoc.
  apply Z.mul_le_mono_nonneg_l; lia.
Qed.

Lemma SFnonneg_forms (x : spec_float) :
  SFnonneg x ->
  (exists s, x = S754_zero s) \/ x = S754_infinity false \/
  exists m e, x = S754_finite false m e.
Proof.
  unfold SFnonneg.
  destruct x as [s|[|]| |[|] m e]; try discriminate; eauto.
Qed.

Lemma SFmul_finite (mc mx : positive) (ec ex : Z) :
  valid_binary (S754_finite false mc ec) = true ->
  valid_binary (S754_finite false mx ex) = true ->
  SF64mul (S754_finite false mc ec) (S754_finite false mx ex)
  = round_result false
      (rne (Zpos (mc * mx))
           (target (mc * mx) (ec + ex) - (ec + ex)))
      (target (mc * mx) (ec + ex)).
Proof.
  intros Vc Vx. apply valid_finite in Vc, Vx.
  unfold SF64mul, SFmul. cbn [xorb].
  apply bra_spec. apply mul_target; tauto.
Qed.

Lemma SFmul_mono (c x y : spec_float) :
  valid_binary c = true -> valid_binary x = true -> valid_binary y = true ->
  SFnonneg c -> SFnonneg x -> SFleb x y = true ->
  SF64mul c x <> S754_nan -> SF64mul c y <> S754_nan ->
  SFleb (SF64mul c x) (SF64mul c y) = true.
Proof.
  intros Vc Vx Vy Nc Nx L Px Py.
  destruct (SFnonneg_forms c Nc) as [(sc & ->) | [-> | (mc & ec & ->)]];
    destruct (SFnonneg_forms x Nx) as [(sx & ->) | [-> | (mx & ex & ->)]];
    destruct y as [sy|[|]| |[|] my ey]; try discriminate L;
    try (now elim Px); try (now elim Py);
    try (destruct sc); try (destruct sx); try (destruct sy);
    try reflexivity.
  all: try (rewrite (SFmul_finite mc my ec ey Vc Vy)).
  all: try (rewrite (SFmul_finite mc mx ec ex Vc Vx)).
  all: try (cbn [SF64mul SFmul xorb];
            match goal with
            | |- SFleb _ (round_result false ?M ?t) = true =>
                destruct (round_result_forms false M t) as [-> | [-> | (m & e & ->)]];
                [apply rne_range, mul_target;
                 apply valid_finite in Vc, Vy; tauto
                | reflexivity ..]
            | |- SFleb (round_result false ?M ?t) _ = true =>
                destruct (round_result_forms false M t) as [-> | [-> | (m & e & ->)]];
                [apply rne_range, mul_target;
                 apply valid_finite in Vc, Vx; tauto
                | reflexivity ..]
            end).
  apply round_mono.
  - apply vle_mul. now apply SFleb_value.
  - apply mul_target; apply valid_finite in Vc, Vx; tauto.
  - apply mul_target; apply valid_finite in Vc, Vy; tauto.
Qed.

(** ** Normalisation and addition *)

Lemma iter_xO (m d : positive) :
  Zpos (Pos.iter xO m d) = Zpos m * 2 ^ Zpos d.
Proof.
  induction d as [|d IH] using Pos.peano_ind.
  - cbn [Pos.iter]. change (2 ^ 1) with 2. lia.
  - rewrite Pos.iter_succ, Pos2Z.inj_succ, Z.pow_succ_r by lia.
    change (Zpos (Pos.iter xO m d)~0) with (2 * Zpos (Pos.iter xO m d)).
    rewrite IH. lia.
Qed.

Lemma shl_align_spec (m : positive) (e e' : Z) :
  let '(m', e'') := shl_align m e e' in
  e'' = Z.min e e' /\ Zpos m' = Zpos m * 2 ^ (e - e'').
Proof.
  unfold shl_align. destruct (e' - e) as [|d|d] eqn:E.
  - split; [lia|]. rewrite Z.sub_diag, Z.pow_0_r. lia.
  - split; [lia|]. rewrite Z.sub_diag, Z.pow_0_r. lia.
  - split; [lia|]. rewrite iter_xO. f_equal. f_equal. lia.
Qed.

Lemma digits2_scale (m m' : positive) (j : Z) :
  0 <= j -> Zpos m' = Zpos m * 2 ^ j ->
  Zpos (digits2_pos m') = Zpos (digits2_pos m) + j.
Proof.
  intros J E.
  pose proof (digits2_pos_bounds m) as (L & U).
  assert (Pj : 0 < 2 ^ j) by (apply Z.pow_pos_nonneg; lia).
  assert (A : 2 ^ (Zpos (digits2_pos m) - 1 + j) <= Zpos m').
  { rewrite Z.pow_add_r by lia. rewrite E.
    apply Z.mul_le_mono_nonneg_r; lia. }
  assert (B : Zpos m' < 2 ^ (Zpos (digits2_pos m) + j)).
  { rewrite Z.pow_add_r by lia. rewrite E.
    apply Z.mul_lt_mono_pos_r; lia. }
  apply digits2_ge in A. apply digits2_le in B. lia.
Qed.

(** [binary_round] is [binary_round_aux] on a mantissa of the same value
    that needs no shift to the left. *)
Lemma binary_round_spec (s : bool) (m : positive) (e : Z) :
  exists m' e',
    binary_round prec emax s m e
    = round_result s (rne (Zpos m') (target m' e' - e')) (target m' e') /\
    e' <= e /\ Zpos m' = Zpos m * 2 ^ (e - e') /\
    0 <= target m' e' - e'.
Proof.
  unfold binary_round. rewrite fexp_eq. fold (target m e).
  pose proof (shl_align_spec m e (target m e)) as H.
  destruct (shl_align m e (target m e)) as [m' e'].
  destruct H as (E & V).
  assert (D : Zpos (digits2_pos m') = Zpos (digits2_pos m) + (e - e'))
    by (apply digits2_scale; [lia | exact V]).
  assert (K : 0 <= target m' e' - e') by (unfold target in *; lia).
  exists m', e'. split; [now apply bra_spec|]. repeat split; try assumption.
  lia.
Qed.

Lemma vle_trans_eq (m1 e1 m1' e1' m2 e2 m2' e2' : Z) :
  e1' <= e1 -> m1' = m1 * 2 ^ (e1 - e1') ->
  e2' <= e2 -> m2' = m2 * 2 ^ (e2 - e2') ->
  vle m1 e1 m2 e2 -> vle m1' e1' m2' e2'.
Proof.
  intros L1 -> L2 -> V.
  set (B := Z.min e1' e2').
  assert (B1 : B <= e1') by (unfold B; lia).
  assert (B2 : B <= e2') by (unfold B; lia).
  apply (proj2 (vle_base B _ _ _ _ B1 B2)).
  assert (C1 : B <= e1) by lia. assert (C2 : B <= e2) by lia.
  apply (proj1 (vle_base B _ _ _ _ C1 C2)) in V.
  rewrite <- !Z.mul_assoc, <- !Z.pow_add_r by lia.
  replace (e1 - e1' + (e1' - B)) with (e1 - B) by lia.
  replace (e2 - e2' + (e2' - B)) with (e2 - B) by lia.
  exact V.
Qed.

Lemma binary_round_mono (m1 m2 : positive) (e1 e2 : Z) :
  vle (Zpos m1) e1 (Zpos m2) e2 ->
  SFleb (binary_round prec emax false m1 e1)
        (binary_round prec emax false m2 e2) = true.
Proof.
  intros V.
  destruct (binary_round_spec false m1 e1) as (p1 & f1 & -> & L1 & V1 & K1).
  destruct (binary_round_spec false m2 e2) as (p2 & f2 & -> & L2 & V2 & K2).
  apply round_mono; try assumption.
  now apply (vle_trans_eq (Zpos m1) e1 _ _ (Zpos m2) e2).
Qed.

Lemma round_result_opp (M t : Z) :
  SFopp (round_result false M t) = round_result true M t.
Proof.
  unfold round_result.
  destruct (M =? 0), (M =? 2 ^ 53), (t + 1 <=? 971), (t <=? 971);
    reflexivity.
Qed.

Lemma binary_round_opp (m : positive) (e : Z) :
  binary_round prec emax true m e
  = SFopp (binary_round prec emax false m e).
Proof.
  unfold binary_round.
  destruct (shl_align m e _) as [m' e'] eqn:E.
  pose proof (shl_align_spec m e (fexp prec emax (Zpos (digits2_pos m) + e)))
    as H.
  rewrite E in H. destruct H as (E' & V).
  assert (D : Zpos (digits2_pos m') = Zpos (digits2_pos m) + (e - e'))
    by (apply digits2_scale; [lia | exact V]).
  rewrite fexp_eq in E'.
  assert (K : 0 <= target m' e' - e') by (unfold target in *; lia).
  rewrite !bra_spec by exact K. now rewrite round_result_opp.
Qed.

Lemma binary_round_forms (m : positive) (e : Z) :
  binary_round prec emax false m e = S754_zero false \/
  binary_round prec emax false m e = S754_infinity false \/
  exists m' e', binary_round prec emax false m e = S754_finite false m' e'.
Proof.
  destruct (binary_round_spec false m e) as (p & f & -> & _ & _ & K).
  apply round_result_forms. apply rne_range. exact K.
Qed.

Lemma SFleb_opp (u v : spec_float) :
  SFleb u v = true -> SFleb (SFopp v) (SFopp u) = true.
Proof.
  destruct u as [su|su| |su mu eu], v as [sv|sv| |sv mv ev];
    try destruct su; try destruct sv; try discriminate; try reflexivity;
    unfold SFleb, SFcompare, SFopp, negb;
    rewrite !Pos.compare_cont_spec; cbn [Pos.switch_Eq];
    destruct (Z.compare_spec eu ev), (Z.compare_spec ev eu); try lia;
    try discriminate; try reflexivity;
    destruct (Pos.compare_spec mu mv), (Pos.compare_spec mv mu); try lia;
    try discriminate; reflexivity.
Qed.

(** Normalisation is monotone on signed mantissas. *)
Lemma vle_opp (m1 e1 m2 e2 : Z) :
  vle m1 e1 m2 e2 -> vle (- m2) e2 (- m1) e1.
Proof. unfold vle. rewrite (Z.min_comm e2 e1). lia. Qed.

Lemma vle_signs (m1 e1 m2 e2 : Z) :
  vle m1 e1 m2 e2 -> 0 < m1 -> 0 < m2.
Proof.
  unfold vle. intros V P.
  assert (0 < 2 ^ (e1 - Z.min e1 e2)) by (apply Z.pow_pos_nonneg; lia).
  assert (0 < 2 ^ (e2 - Z.min e1 e2)) by (apply Z.pow_pos_nonneg; lia).
  nia.
Qed.

Lemma binary_normalize_mono (S1 S2 e1 e2 : Z) :
  vle S1 e1 S2 e2 ->
  SFleb (binary_normalize prec emax S1 e1 false)
        (binary_normalize prec emax S2 e2 false) = true.
Proof.
  intros V. unfold binary_normalize.
  destruct S1 as [|p1|p1], S2 as [|p2|p2].
  - reflexivity.
  - destruct (binary_round_forms p2 e2) as [-> | [-> | (m & e & ->)]];
      reflexivity.
  - apply vle_signs in V; lia || (apply vle_opp in V; apply vle_signs in V; lia).
  - apply vle_signs in V; lia.
  - now apply binary_round_mono.
  - apply vle_signs in V; lia.
  - rewrite binary_round_opp.
    destruct (binary_round_forms p1 e1) as [-> | [-> | (m & e & ->)]];
      reflexivity.
  - rewrite binary_round_opp.
    destruct (binary_round_forms p1 e1) as [-> | [-> | (m & e & ->)]];
      destruct (binary_round_forms p2 e2) as [-> | [-> | (m' & e' & ->)]];
      reflexivity.
  - rewrite !binary_round_opp. apply SFleb_opp.
    apply binary_round_mono. apply vle_opp in V. exact V.
Qed.

(** A valid number is the normalisation of its own mantissa. *)
Lemma binary_normalize_valid (s : bool) (m : positive) (e : Z) :
  valid_binary (S754_finite s m e) = true ->
  binary_normalize prec emax (cond_Zopp s (Zpos m)) e false
  = S754_finite s m e.
Proof.
  intros V. apply valid_finite in V. destruct V as (T & E).
  assert (R : forall s', binary_round prec emax s' m e = S754_finite s' m e).
  { intros s'. unfold binary_round. rewrite fexp_eq. fold (target m e).
    rewrite T. unfold shl_align. rewrite Z.sub_diag.
    rewrite bra_spec by lia. rewrite T, Z.sub_diag.
    pose proof (digits2_pos_bounds m) as (_ & U).
    assert (2 ^ Zpos (digits2_pos m) <= 2 ^ 53)
      by (apply Z.pow_le_mono_r; unfold target in T; lia).
    unfold round_result, rne. cbn [Z.leb Z.compare].
    destruct (Z.eqb_spec (Zpos m) 0); [lia|].
    destruct (Z.eqb_spec (Zpos m) (2 ^ 53)); [lia|].
    destruct (Z.leb_spec e 971); [reflexivity | lia]. }
  destruct s; cbn [cond_Zopp Z.opp binary_normalize]; apply R.
Qed.

Lemma SFadd_finite (sa : bool) (ma : positive) (ea : Z) (x : spec_float) :
  valid_binary (S754_finite sa ma ea) = true -> SFreal x ->
  SF64add (S754_finite sa ma ea) x
  = binary_normalize prec emax
      (cond_Zopp sa (Zpos ma) * 2 ^ (ea - Z.min ea (snd (sval x ea)))
       + fst (sval x ea)
         * 2 ^ (snd (sval x ea) - Z.min ea (snd (sval x ea))))
      (Z.min ea (snd (sval x ea))) false.
Proof.
  intros Va R. destruct x as [sx| | |sx mx ex]; try contradiction.
  - cbn [sval fst snd SF64add SFadd]. rewrite Z.min_id, Z.sub_diag, Z.pow_0_r.
    rewrite Z.mul_1_r, Z.mul_0_l, Z.add_0_r.
    symmetry. now apply binary_normalize_valid.
  - cbn [sval fst snd]. unfold SF64add, SFadd.
    pose proof (shl_align_spec ma ea (Z.min ea ex)) as Ha.
    pose proof (shl_align_spec mx ex (Z.min ea ex)) as Hx.
    destruct (shl_align ma ea (Z.min ea ex)) as [ma' ea'].
    destruct (shl_align mx ex (Z.min ea ex)) as [mx' ex'].
    cbn [fst]. destruct Ha as (Ea & Ma), Hx as (Ex & Mx).
    f_equal. f_equal.
    + replace (Z.min ea ex) with ea' by lia.
      destruct sa; cbn [cond_Zopp]; lia.
    + replace (Z.min ea ex) with ex' by lia.
      destruct sx; cbn [cond_Zopp]; lia.
Qed.

Lemma sval_order (x y : spec_float) (e0 : Z) :
  valid_binary x = true -> valid_binary y = true ->
  SFreal x -> SFreal y -> SFleb x y = true ->
  vle (fst (sval x e0)) (snd (sval x e0)) (fst (sval y e0)) (snd (sval y e0)).
Proof.
  intros Vx Vy Rx Ry L.
  destruct x as [sx| | |sx mx ex], y as [sy| | |sy my ey];
    try contradiction; cbn [sval fst snd].
  - unfold vle. lia.
  - destruct sy; [discriminate L|]. unfold vle. cbn [cond_Zopp].
    assert (0 < 2 ^ (ey - Z.min e0 ey)) by (apply Z.pow_pos_nonneg; lia).
    nia.
  - destruct sx; [|discriminate L]. unfold vle. cbn [cond_Zopp].
    assert (0 < 2 ^ (ex - Z.min ex e0)) by (apply Z.pow_pos_nonneg; lia).
    nia.
  - destruct sx, sy; cbn [cond_Zopp].
    + apply SFleb_opp in L. cbn [SFopp negb] in L.
      apply vle_opp. apply SFleb_value; assumption.
    + unfold vle.
      assert (0 < 2 ^ (ex - Z.min ex ey)) by (apply Z.pow_pos_nonneg; lia).
      assert (0 < 2 ^ (ey - Z.min ex ey)) by (apply Z.pow_pos_nonneg; lia).
      nia.
    + discriminate L.
    + apply SFleb_value; assumption.
Qed.

Lemma vle_add (A ea X ex Y ey : Z) :
  vle X ex Y ey ->
  vle (A * 2 ^ (ea - Z.min ea ex) + X * 2 ^ (ex - Z.min ea ex)) (Z.min ea ex)
      (A * 2 ^ (ea - Z.min ea ey) + Y * 2 ^ (ey - Z.min ea ey)) (Z.min ea ey).
Proof.
  intros V.
  set (B := Z.min ea (Z.min ex ey)).
  assert (B1 : B <= ex) by (unfold B; lia).
  assert (B2 : B <= ey) by (unfold B; lia).
  apply (proj1 (vle_base B _ _ _ _ B1 B2)) in V.
  assert (C1 : B <= Z.min ea ex) by (unfold B; lia).
  assert (C2 : B <= Z.min ea ey) by (unfold B; lia).
  apply (proj2 (vle_base B _ _ _ _ C1 C2)).
  rewrite !Z.mul_add_distr_r, <- !Z.mul_assoc, <- !Z.pow_add_r by lia.
  replace (ea - Z.min ea ex + (Z.min ea ex - B)) with (ea - B) by lia.
  replace (ex - Z.min ea ex + (Z.min ea ex - B)) with (ex - B) by lia.
  replace (ea - Z.min ea ey + (Z.min ea ey - B)) with (ea - B) by lia.
  replace (ey - Z.min ea ey + (Z.min ea ey - B)) with (ey - B) by lia.
  lia.
Qed.

Lemma SFleb_neg_infinity (r : spec_float) :
  r <> S754_nan -> SFleb (S754_infinity true) r = true.
Proof.
  destruct r as [s|[|]| |s m e]; intros N; try reflexivity; now elim N.
Qed.

Lemma SFleb_infinity (r : spec_float) :
  r <> S754_nan -> SFleb r (S754_infinity false) = true.
Proof.
  destruct r as [s|[|]| |[|] m e]; intros N; try reflexivity; now elim N.
Qed.

(** Addition is monotone in its second argument. *)
Lemma SFadd_mono (a x y : spec_float) :
  valid_binary a = true -> valid_binary x = true -> valid_binary y = true ->
  SFleb x y = true ->
  SF64add a x <> S754_nan -> SF64add a y <> S754_nan ->
  SFleb (SF64add a x) (SF64add a y) = true.
Proof.
  intros Va Vx Vy L Px Py.
  destruct a as [sa|sa| |sa ma ea].
  - destruct x as [sx|sx| |sx mx ex], y as [sy|sy| |sy my ey];
      try discriminate L; try (now elim Px); try (now elim Py);
      destruct sa; try destruct sx; try destruct sy;
      try discriminate L; try reflexivity; exact L.
  - destruct x as [sx|sx| |sx mx ex], y as [sy|sy| |sy my ey];
      try discriminate L; try (now elim Px); try (now elim Py);
      destruct sa; try destruct sx; try destruct sy;
      try discriminate L; try reflexivity;
      try (now elim Px); try (now elim Py).
  - now elim Px.
  - destruct x as [sx|[|]| |sx mx ex] eqn:Ex.
    + destruct y as [sy|[|]| |sy my ey] eqn:Ey; try discriminate L.
      * apply SFleb_refl. discriminate.
      * apply SFleb_infinity. exact Px.
      * rewrite !SFadd_finite by (assumption || exact I).
        apply binary_normalize_mono, vle_add.
        apply (sval_order (S754_zero sx) (S754_finite sy my ey));
          try assumption; exact I.
    + apply SFleb_neg_infinity. exact Py.
    + destruct y as [sy|[|]| |sy my ey]; try discriminate L.
      reflexivity.
    + now elim Px.
    + destruct y as [sy|[|]| |sy my ey] eqn:Ey; try discriminate L.
      * rewrite !SFadd_finite by (assumption || exact I).
        apply binary_normalize_mono, vle_add.
        apply (sval_order (S754_finite sx mx ex) (S754_zero sy));
          try assumption; exact I.
      * apply SFleb_infinity. exact Px.
      * rewrite !SFadd_finite by (assumption || exact I).
        apply binary_normalize_mono, vle_add.
        apply (sval_order (S754_finite sx mx ex) (S754_finite sy my ey));
          try assumption; exact I.
Qed.

Lemma SFadd_comm (x y : spec_float) : SF64add x y = SF64add y x.
Proof.
  destruct x as [sx|sx| |sx mx ex], y as [sy|sy| |sy my ey];
    try destruct sx; try destruct sy; try reflexivity;
    unfold SF64add, SFadd; rewrite (Z.min_comm ey ex), Z.add_comm;
    reflexivity.
Qed.

Lemma SFmul_comm (x y : spec_float) : SF64mul x y = SF64mul y x.
Proof.
  destruct x as [sx|sx| |sx mx ex], y as [sy|sy| |sy my ey];
    try destruct sx; try destruct sy; try reflexivity;
    unfold SF64mul, SFmul; rewrite (Pos.mul_comm my mx), (Z.add_comm ey ex);
    reflexivity.
Qed.

(** ** Division of non-negative numbers *)

Lemma shr_1_nonneg (mrs : shr_record) :
  0 <= shr_m mrs -> 0 <= shr_m (shr_1 mrs).
Proof.
  destruct mrs as [[|[p|p|]|p] r s]; cbn; lia.
Qed.

Lemma iter_shr_nonneg (p : positive) (mrs : shr_record) :
  0 <= shr_m mrs -> 0 <= shr_m (iter_pos shr_1 p mrs).
Proof.
  revert mrs. induction p as [p IH|p IH|]; intros mrs H; cbn [iter_pos].
  - apply IH, IH. now apply shr_1_nonneg.
  - now apply IH, IH.
  - now apply shr_1_nonneg.
Qed.

Lemma shr_fexp_nonneg (m e : Z) (l : location) :
  0 <= m -> 0 <= shr_m (fst (shr_fexp prec emax m e l)).
Proof.
  intros H. unfold shr_fexp, shr.
  assert (R : 0 <= shr_m (shr_record_of_loc m l))
    by (destruct l as [|[| |]]; exact H).
  destruct (fexp prec emax (Zdigits2 m + e) - e); cbn [fst]; try exact R.
  now apply iter_shr_nonneg.
Qed.

Lemma round_nearest_even_nonneg (m : Z) (l : location) :
  0 <= m -> 0 <= round_nearest_even m l.
Proof.
  intros H. destruct l as [|[| |]]; cbn; try destruct (Z.even m); lia.
Qed.

Lemma binary_round_aux_nonneg (m e : Z) (l : location) :
  0 <= m -> SFnonneg (binary_round_aux prec emax false m e l).
Proof.
  intros H. unfold binary_round_aux.
  pose proof (shr_fexp_nonneg m e l H) as H1.
  destruct (shr_fexp prec emax m e l) as [mrs' e']. cbn [fst] in H1.
  pose proof (shr_fexp_nonneg
                (round_nearest_even (shr_m mrs') (loc_of_shr_record mrs'))
                e' loc_Exact
                (round_nearest_even_nonneg _ _ H1)) as H2.
  destruct (shr_fexp prec emax _ e' loc_Exact) as [mrs'' e''].
  cbn [fst] in H2.
  destruct (shr_m mrs''); try lia; try reflexivity.
  destruct (e'' <=? emax - prec); reflexivity.
Qed.

Lemma SFdiv_nonneg (x y : spec_float) :
  SFnonneg x -> SFltb (S754_zero false) y = true ->
  SF64div x y <> S754_nan ->
  SFnonneg (SF64div x y).
Proof.
  intros Nx Ny P.
  destruct (SFnonneg_forms x Nx) as [(sx & ->) | [-> | (mx & ex & ->)]];
    destruct y as [sy|[|]| |[|] my ey]; try discriminate Ny;
    try (now elim P); try reflexivity.
  unfold SF64div, SFdiv. cbn [xorb].
  destruct (SFdiv_core_binary prec emax (Zpos mx) ex (Zpos my) ey)
    as [[mz ez] lz] eqn:E.
  apply binary_round_aux_nonneg.
  unfold SFdiv_core_binary in E.
  set (m' := match _ - _ - _ with Zpos _ => _ | Z0 => _ | Zneg _ => _ end)
    in E.
  assert (M : 0 <= m').
  { unfold m'. destruct (_ - _ - _); try lia.
    apply Z.shiftl_nonneg. lia. }
  destruct (Z.div_eucl m' (Zpos my)) as [q r] eqn:D.
  injection E as <- _ _.
  assert (Q : q = m' / Zpos my) by (unfold Z.div; now rewrite D).
  rewrite Q. apply Z.div_pos; lia.
Qed.

(** ** Monotonicity of the binary64 operations of Python's [float] *)

Lemma SFeqb_refl (x : spec_float) : x <> S754_nan -> SFeqb x x = true.
Proof.
  destruct x as [[|]|[|]| |[|] m e]; intros N; try reflexivity;
    try (now elim N); unfold SFeqb, SFcompare;
    rewrite Z.compare_refl, Pos.compare_cont_refl; reflexivity.
Qed.

Lemma is_nan_spec (z : float) :
  PrimFloat.is_nan z = false <-> Prim2SF z <> S754_nan.
Proof.
  unfold PrimFloat.is_nan. rewrite FloatAxioms.eqb_spec. split.
  - intros H E. rewrite E in H. discriminate H.
  - intros N. now rewrite SFeqb_refl.
Qed.

Lemma zero_leb_spec (z : float) :
  PrimFloat.leb PrimFloat.zero z = true <-> SFnonneg (Prim2SF z).
Proof. rewrite FloatAxioms.leb_spec. reflexivity. Qed.

Lemma float_mul_number (x y : float) :
  PrimFloat.is_nan (PrimFloat.mul x y) = false ->
  PrimFloat.is_nan x = false /\ PrimFloat.is_nan y = false.
Proof.
  rewrite !is_nan_spec, FloatAxioms.mul_spec.
  destruct (Prim2SF x), (Prim2SF y); cbn; intros H; split; congruence.
Qed.

Lemma float_add_number (x y : float) :
  PrimFloat.is_nan (PrimFloat.add x y) = false ->
  PrimFloat.is_nan x = false /\ PrimFloat.is_nan y = false.
Proof.
  rewrite !is_nan_spec, FloatAxioms.add_spec.
  destruct (Prim2SF x), (Prim2SF y); cbn; intros H; split; congruence.
Qed.

(** [c * x <= c * y] for [0 <= c] and [0 <= x <= y], when both products are
    numbers. *)
Lemma float_mul_mono_r (c x y : float) :
  PrimFloat.leb PrimFloat.zero c = true ->
  PrimFloat.leb PrimFloat.zero x = true ->
  PrimFloat.leb x y = true ->
  PrimFloat.is_nan (PrimFloat.mul c x) = false ->
  PrimFloat.is_nan (PrimFloat.mul c y) = false ->
  PrimFloat.leb (PrimFloat.mul c x) (PrimFloat.mul c y) = true.
Proof.
  rewrite !zero_leb_spec, !is_nan_spec, !FloatAxioms.leb_spec,
    !FloatAxioms.mul_spec.
  intros. apply SFmul_mono; try assumption; apply Prim2SF_valid.
Qed.

Lemma float_mul_mono_l (c x y : float) :
  PrimFloat.leb PrimFloat.zero c = true ->
  PrimFloat.leb PrimFloat.zero x = true ->
  PrimFloat.leb x y = true ->
  PrimFloat.is_nan (PrimFloat.mul x c) = false ->
  PrimFloat.is_nan (PrimFloat.mul y c) = false ->
  PrimFloat.leb (PrimFloat.mul x c) (PrimFloat.mul y c) = true.
Proof.
  rewrite !zero_leb_spec, !is_nan_spec, !FloatAxioms.leb_spec,
    !FloatAxioms.mul_spec.
  rewrite (SFmul_comm (Prim2SF x)), (SFmul_comm (Prim2SF y)).
  intros. apply SFmul_mono; try assumption; apply Prim2SF_valid.
Qed.

(** [a + x <= a + y] and [x + a <= y + a] for [x <= y], when both sums are
    numbers. *)
Lemma float_add_mono_r (a x y : float) :
  PrimFloat.leb x y = true ->
  PrimFloat.is_nan (PrimFloat.add a x) = false ->
  PrimFloat.is_nan (PrimFloat.add a y) = false ->
  PrimFloat.leb (PrimFloat.add a x) (PrimFloat.add a y) = true.
Proof.
  rewrite !is_nan_spec, !FloatAxioms.leb_spec, !FloatAxioms.add_spec.
  intros. apply SFadd_mono; try assumption; apply Prim2SF_valid.
Qed.

Lemma float_add_mono_l (a x y : float) :
  PrimFloat.leb x y = true ->
  PrimFloat.is_nan (PrimFloat.add x a) = false ->
  PrimFloat.is_nan (PrimFloat.add y a) = false ->
  PrimFloat.leb (PrimFloat.add x a) (PrimFloat.add y a) = true.
Proof.
  rewrite !is_nan_spec, !FloatAxioms.leb_spec, !FloatAxioms.add_spec.
  rewrite (SFadd_comm (Prim2SF x)), (SFadd_comm (Prim2SF y)).
  intros. apply SFadd_mono; try assumption; apply Prim2SF_valid.
Qed.

(** A non-negative number over a positive one is a non-negative number or
    not a number at all. *)
Lemma float_div_nonneg (x y : float) :
  PrimFloat.leb PrimFloat.zero x = true ->
  PrimFloat.ltb PrimFloat.zero y = true ->
  PrimFloat.is_nan (PrimFloat.div x y) = false ->
  PrimFloat.leb PrimFloat.zero (PrimFloat.div x y) = true.
Proof.
  rewrite !zero_leb_spec, is_nan_spec, FloatAxioms.ltb_spec,
    FloatAxioms.div_spec.
  intros. now apply SFdiv_nonneg.
Qed.

Lemma float_leb_trans_zero (x y : float) :
  PrimFloat.leb PrimFloat.zero x = true -> PrimFloat.leb x y = true ->
  PrimFloat.leb PrimFloat.zero y = true.
Proof.
  rewrite !FloatAxioms.leb_spec.
  change (Prim2SF PrimFloat.zero) with (S754_zero false).
  destruct (Prim2SF x) as [sx|[|]| |[|] mx ex],
    (Prim2SF y) as [sy|[|]| |[|] my ey]; try discriminate; reflexivity.
Qed.

Lemma SFmul_nonneg (c x : spec_float) :
  SFnonneg c -> SFnonneg x -> SF64mul c x <> S754_nan ->
  SFnonneg (SF64mul c x).
Proof.
  intros Nc Nx P.
  destruct (SFnonneg_forms c Nc) as [(sc & ->) | [-> | (mc & ec & ->)]];
    destruct (SFnonneg_forms x Nx) as [(sx & ->) | [-> | (mx & ex & ->)]];
    try (now elim P); try reflexivity.
  unfold SF64mul, SFmul. cbn [xorb]. now apply binary_round_aux_nonneg.
Qed.

Lemma SFleb_not_ltb (x y : spec_float) :
  SFleb x y = true -> SFltb y x = false.
Proof.
  destruct x as [sx|sx| |sx mx ex], y as [sy|sy| |sy my ey];
    try destruct sx; try destruct sy; try discriminate; try reflexivity;
    unfold SFleb, SFltb, SFcompare;
    rewrite !Pos.compare_cont_spec; cbn [Pos.switch_Eq];
    destruct (Z.compare_spec ex ey), (Z.compare_spec ey ex); try lia;
    try discriminate; try reflexivity;
    destruct (Pos.compare_spec mx my), (Pos.compare_spec my mx); try lia;
    try discriminate; reflexivity.
Qed.

Lemma float_mul_nonneg (c x : float) :
  PrimFloat.leb PrimFloat.zero c = true ->
  PrimFloat.leb PrimFloat.zero x = true ->
  PrimFloat.is_nan (PrimFloat.mul c x) = false ->
  PrimFloat.leb PrimFloat.zero (PrimFloat.mul c x) = true.
Proof.
  rewrite !zero_leb_spec, is_nan_spec, FloatAxioms.mul_spec.
  apply SFmul_nonneg.
Qed.

(** A number that is not below another is never strictly above it, and
    nothing is strictly below what is not a number. *)
Lemma float_never_less (x y : float) :
  (PrimFloat.is_nan x = false -> PrimFloat.is_nan y = false ->
   PrimFloat.leb x y = true) ->
  PrimFloat.ltb y x = false.
Proof.
  intros H. rewrite FloatAxioms.ltb_spec.
  destruct (PrimFloat.is_nan x) eqn:Nx.
  - assert (E : Prim2SF x = S754_nan).
    { destruct (Prim2SF x) eqn:E; try reflexivity;
        assert (N : PrimFloat.is_nan x = false)
          by (apply is_nan_spec; rewrite E; discriminate);
        congruence. }
    rewrite E. destruct (Prim2SF y); reflexivity.
  - destruct (PrimFloat.is_nan y) eqn:Ny.
    + assert (E : Prim2SF y = S754_nan).
      { destruct (Prim2SF y) eqn:E; try reflexivity;
          assert (N : PrimFloat.is_nan y = false)
            by (apply is_nan_spec; rewrite E; discriminate);
          congruence. }
      rewrite E. reflexivity.
    + specialize (H eq_refl eq_refl). rewrite FloatAxioms.leb_spec in H.
      now apply SFleb_not_ltb.
Qed.

Lemma SFleb_trans (x y z : spec_float) :
  SFleb x y = true -> SFleb y z = true -> SFleb x z = true.
Proof.
  destruct x as [sx|sx| |sx mx ex], y as [sy|sy| |sy my ey],
    z as [sz|sz| |sz mz ez];
    try destruct sx; try destruct sy; try destruct sz;
    try discriminate; try reflexivity;
    unfold SFleb, SFcompare;
    rewrite !Pos.compare_cont_spec; cbn [Pos.switch_Eq];
    destruct (Z.compare_spec ex ey), (Z.compare_spec ey ez),
      (Z.compare_spec ex ez); try lia; try discriminate; try reflexivity;
    destruct (Pos.compare_spec mx my), (Pos.compare_spec my mz),
      (Pos.compare_spec mx mz); try lia; try discriminate; reflexivity.
Qed.

Lemma SFadd_nonneg (x y : spec_float) :
  SFnonneg x -> SFnonneg y ->
  SF64add x y <> S754_nan /\ SFnonneg (SF64add x y).
Proof.
  intros Nx Ny.
  destruct (SFnonneg_forms x Nx) as [(sx & ->) | [-> | (mx & ex & ->)]];
    destruct (SFnonneg_forms y Ny) as [(sy & ->) | [-> | (my & ey & ->)]];
    try destruct sx; try destruct sy;
    try (split; [discriminate | reflexivity]).
  unfold SF64add, SFadd. cbn [cond_Zopp Z.add binary_normalize].
  destruct (binary_round_forms
              (fst (shl_align mx ex (Z.min ex ey))
               + fst (shl_align my ey (Z.min ex ey))) (Z.min ex ey))
    as [-> | [-> | (m & e & ->)]]; split; try discriminate; reflexivity.
Qed.

Lemma float_leb_trans (x y z : float) :
  PrimFloat.leb x y = true -> PrimFloat.leb y z = true ->
  PrimFloat.leb x z = true.
Proof. rewrite !FloatAxioms.leb_spec. apply SFleb_trans. Qed.

Lemma float_add_nonneg (x y : float) :
  PrimFloat.leb PrimFloat.zero x = true ->
  PrimFloat.leb PrimFloat.zero y = true ->
  PrimFloat.is_nan (PrimFloat.add x y) = false /\
  PrimFloat.leb PrimFloat.zero (PrimFloat.add x y) = true.
Proof.
  rewrite !zero_leb_spec, is_nan_spec, FloatAxioms.add_spec.
  apply SFadd_nonneg.
Qed.

Lemma float_div_number (x y : float) :
  PrimFloat.is_nan (PrimFloat.div x y) = false ->
  PrimFloat.is_nan x = false /\ PrimFloat.is_nan y = false.
Proof.
  rewrite !is_nan_spec, FloatAxioms.div_spec.
  destruct (Prim2SF x), (Prim2SF y); cbn; intros H; split; congruence.
Qed.

(** A non-negative number that is not a zero is positive. *)
Lemma float_positive (y : float) :
  PrimFloat.leb PrimFloat.zero y = true ->
  PrimFloat.is_zero y = false ->
  PrimFloat.ltb PrimFloat.zero y = true.
Proof.
  unfold PrimFloat.is_zero.
  rewrite FloatAxioms.leb_spec, FloatAxioms.eqb_spec, FloatAxioms.ltb_spec.
  change (Prim2SF PrimFloat.zero) with (S754_zero false).
  destruct (Prim2SF y) as [s|[|]| |[|] m e]; try discriminate;
    reflexivity.
Qed.

(** The sum of two non-negative numbers follows the order of both. *)
Lemma float_add_mono (x x' y y' : float) :
  PrimFloat.leb PrimFloat.zero x = true ->
  PrimFloat.leb PrimFloat.zero y = true ->
  PrimFloat.leb x x' = true -> PrimFloat.leb y y' = true ->
  PrimFloat.leb (PrimFloat.add x y) (PrimFloat.add x' y') = true.
Proof.
  intros Px Py Lx Ly.
  pose proof (float_leb_trans_zero x x' Px Lx) as Px'.
  pose proof (float_leb_trans_zero y y' Py Ly) as Py'.
  apply float_leb_trans with (PrimFloat.add x' y).
  - apply float_add_mono_l; try assumption; now apply float_add_nonneg.
  - apply float_add_mono_r; try assumption; now apply float_add_nonneg.
Qed.

End Binary64Rounding.

(** ** The properties *)

Section GhgBalance.

(** The GHG total that [calculate_lca] stores is the sum of the five stage
    values it stores, added left to right, in any arithmetic. *)
Lemma ghg_total_is_stage_sum {num : Type} {A : Arith num} (silent : bool)
    (s s' : SAF_LCA_Model num) (r : lca_results num) :
  calculate_lca silent s = Returned r s' ->
  exists g1 g2 g3 g4 g5,
    dict_get (ghg_emissions r) "carbon_capture" = Some g1 /\
    dict_get (ghg_emissions r) "electrolysis" = Some g2 /\
    dict_get (ghg_emissions r) "conversion" = Some g3 /\
    dict_get (ghg_emissions r) "distribution" = Some g4 /\
    dict_get (ghg_emissions r) "use_phase" = Some g5 /\
    dict_get (ghg_emissions r) "total"
    = Some (add (add (add (add g1 g2) g3) g4) g5).
Proof.
  intros C.
  destruct (calculate_lca_shape silent s C)
    as (g1 & g2 & g3 & g4 & g5 & e1 & e2 & e3 & e4 & w1 & w2 & w3 & ->).
  exists g1, g2, g3, g4, g5. repeat split; reflexivity.
Qed.

(** C1.  For the documented example parameter set, whatever the parameters
    that the claim leaves open, Python's [calculate_lca] returns a GHG total
    with [15 <= total * 1000 <= 30]. *)
Theorem example_total_in_range
    (energy_requirement capture_water electrolysis_water : float)
    (technology : string) (efficiency conversion_water fuel_density : float) :
  exists (r : lca_results float) (s : SAF_LCA_Model float) (total : float),
    (documented_setup energy_requirement capture_water electrolysis_water
       technology efficiency conversion_water fuel_density ;;;
     calculate_lca false) init = Returned r s /\
    dict_get (ghg_emissions r) "total" = Some total /\
    (float_dec 15 0 <=? total * float_dec 1000 0)%float = true /\
    (total * float_dec 1000 0 <=? float_dec 30 0)%float = true.
Proof.
  do 3 eexists. split; [vm_compute; reflexivity|].
  split; [vm_compute; reflexivity|].
  split; vm_compute; reflexivity.
Qed.

(** C2.  Under Python's arithmetic, whenever [calculate_lca] returns, the
    five GHG stage values added in the order carbon capture, electrolysis,
    conversion, distribution, use phase are the very double stored as the
    total; when that total is finite, the test
    [abs(sum - total) <= 1e-9] holds. *)
Theorem ghg_stages_sum_to_total (silent : bool)
    (s s' : SAF_LCA_Model float) (r : lca_results float) :
  calculate_lca silent s = Returned r s' ->
  exists g1 g2 g3 g4 g5 total : float,
    dict_get (ghg_emissions r) "carbon_capture" = Some g1 /\
    dict_get (ghg_emissions r) "electrolysis" = Some g2 /\
    dict_get (ghg_emissions r) "conversion" = Some g3 /\
    dict_get (ghg_emissions r) "distribution" = Some g4 /\
    dict_get (ghg_emissions r) "use_phase" = Some g5 /\
    dict_get (ghg_emissions r) "total" = Some total /\
    (g1 + g2 + g3 + g4 + g5)%float = total /\
    (PrimFloat.is_finite total = true ->
     (PrimFloat.abs ((g1 + g2 + g3 + g4 + g5) - total) <=? float_dec 1 9)%float
     = true).
Proof.
  intros C.
  destruct (ghg_total_is_stage_sum silent s s' r C)
    as (g1 & g2 & g3 & g4 & g5 & H1 & H2 & H3 & H4 & H5 & H6).
  exists g1, g2, g3, g4, g5, (g1 + g2 + g3 + g4 + g5)%float.
  repeat (split; [assumption|]).
  split; [reflexivity|]. apply float_within_tolerance_self.
Qed.

Lemma ghg_stages_sum_to_total_example :
  exists g1 g2 g3 g4 g5 total : float,
    dict_get (ghg_emissions example_results) "carbon_capture" = Some g1 /\
    dict_get (ghg_emissions example_results) "electrolysis" = Some g2 /\
    dict_get (ghg_emissions example_results) "conversion" = Some g3 /\
    dict_get (ghg_emissions example_results) "distribution" = Some g4 /\
    dict_get (ghg_emissions example_results) "use_phase" = Some g5 /\
    dict_get (ghg_emissions example_results) "total" = Some total /\
    (g1 + g2 + g3 + g4 + g5)%float = total /\
    (PrimFloat.is_finite total = true ->
     (PrimFloat.abs ((g1 + g2 + g3 + g4 + g5) - total) <=? float_dec 1 9)%float
     = true).
Proof.
  apply (ghg_stages_sum_to_total true example_model example_computed).
  vm_compute. reflexivity.
Defined.

End GhgBalance.

Section Sweeps.

Context {num : Type} {A : Arith num}.

(** C3.  Let [calculate_lca] return [r].  Whatever list of sources the
    electricity sweep is given, and whatever list of known modes and base
    distance the transport sweep is given (the stored distribution group
    being one the setter wrote), the object the sweep leaves holds the same
    five parameter groups and the results [r], and [calculate_lca] on it
    returns [r] again; on a list that is not empty the sweep returns its
    table. *)
Theorem sweeps_restore_model (b : bool) (s s1 : SAF_LCA_Model num)
    (r : lca_results num) (sources modes : option (list string))
    (base_distance : num) :
  calculate_lca b s = Returned r s1 ->
  distribution_coherent s ->
  Forall (fun mode => In mode default_transport_modes)
    (get_default modes default_transport_modes) ->
  (let o := analyze_electricity_sources sources s1 in
   same_parameters s1 (final_state o) /\
   results (final_state o) = r /\
   (exists s3, calculate_lca b (final_state o) = Returned r s3) /\
   (sources <> Some [] -> exists df, o = Returned df (final_state o))) /\
  (let o := analyze_transport_modes modes base_distance s1 in
   same_parameters s1 (final_state o) /\
   results (final_state o) = r /\
   (exists s3, calculate_lca b (final_state o) = Returned r s3) /\
   (modes <> Some [] -> exists df, o = Returned df (final_state o))).
Proof.
  intros C Coh Known.
  destruct (calculate_lca_returned b s C) as (_ & _ & SP & _).
  assert (Coh1 : distribution_coherent s1).
  { unfold distribution_coherent in *.
    destruct SP as (_ & <- & _). exact Coh. }
  split.
  - destruct (analyze_electricity_sources_restores sources b C SP)
      as (SP2 & R2 & Ret).
    repeat split; try apply SP2; try assumption.
    destruct (calculate_lca_parameters_only b b
                (same_parameters_trans SP SP2) C) as (s3 & C3 & _).
    exists s3. exact C3.
  - destruct (analyze_transport_modes_restores modes base_distance b C SP
                Coh1 Known) as (SP2 & R2 & Ret).
    repeat split; try apply SP2; try assumption.
    destruct (calculate_lca_parameters_only b b
                (same_parameters_trans SP SP2) C) as (s3 & C3 & _).
    exists s3. exact C3.
Qed.

End Sweeps.

Section ResultShape.

Context {num : Type} {A : Arith num}.

(** C4, as amended.  Whenever [calculate_lca] returns, the result has the
    four categories; the GHG category holds the five stages and a total,
    energy consumption holds four stages (no use phase) and a total, water
    usage holds three stages (no distribution, no use phase) and a total, and
    land use holds a total only; each total is the left-to-right sum of the
    stage values its category holds, which is [0] for land use. *)
Theorem result_categories_and_totals (silent : bool)
    (s s' : SAF_LCA_Model num) (r : lca_results num) :
  calculate_lca silent s = Returned r s' ->
  dict_keys (results_items r)
  = ["ghg_emissions"; "energy_consumption"; "water_usage"; "land_use"] /\
  dict_keys (ghg_emissions r) = (stage_names ++ ["total"])%list /\
  dict_keys (energy_consumption r)
  = ["carbon_capture"; "electrolysis"; "conversion"; "distribution"; "total"] /\
  dict_keys (water_usage r)
  = ["carbon_capture"; "electrolysis"; "conversion"; "total"] /\
  dict_keys (land_use r) = ["total"] /\
  Forall (fun category =>
            dict_get category "total" = Some (sum_values (stages category)))
         (map snd (results_items r)) /\
  dict_get (land_use r) "total" = Some (dec 0 0).
Proof.
  intros C.
  destruct (calculate_lca_shape silent s C)
    as (g1 & g2 & g3 & g4 & g5 & e1 & e2 & e3 & e4 & w1 & w2 & w3 & ->).
  repeat split; try reflexivity.
  repeat constructor.
Qed.

End ResultShape.

Section Setters.

Context {num : Type} {A : Arith num}.

(** C5, as amended.  The lookup table holds 14 distinct sources.  With no
    intensity given, a source of the table gets its table value and no
    warning; any other source gets the value [0.020] of ["renewable"], the
    setter returns, and the warning is printed unless [silent]. *)
Theorem electricity_source_resolution
    (e1 e2 : num) (source : string) (co h2 w : num) (silent : bool)
    (s : SAF_LCA_Model num) :
  List.length (dict_keys (electricity_carbon_intensities (num:=num)))
  = 14%nat /\
  NoDup (dict_keys (electricity_carbon_intensities (num:=num))) /\
  exists s' el,
    set_electrolysis_data e1 e2 source co h2 w None silent s = Returned tt s' /\
    electrolysis_data s' = Some el /\
    el_electricity_source el = source /\
    (forall v, dict_get electricity_carbon_intensities source = Some v ->
       el_electricity_carbon_intensity el = v /\
       stdout s'
       = (stdout s ++ said silent (Narration "set_electrolysis_data"))%list) /\
    (dict_get (electricity_carbon_intensities (num:=num)) source = None ->
       el_electricity_carbon_intensity el = dec 20 3 /\
       stdout s'
       = (stdout s ++ said silent (Warning source)
          ++ said silent (Narration "set_electrolysis_data"))%list).
Proof.
  split; [reflexivity|]. split.
  { unfold electricity_carbon_intensities, dict_keys. simpl map.
    repeat (constructor; [simpl; intuition discriminate|]). constructor. }
  destruct (set_electrolysis_data_returns e1 e2 source co h2 w None silent s)
    as (s' & S & E & _ & _ & _ & _ & _ & O).
  eexists s', _. split; [exact S|]. split; [exact E|].
  split; [reflexivity|].
  cbn [el_electricity_carbon_intensity]. unfold table_intensity, dict_mem in *.
  destruct (dict_get electricity_carbon_intensities source) as [v0|].
  - split; [|discriminate]. intros v [= <-]. split; [reflexivity|exact O].
  - split; [discriminate|]. intros _. split; [reflexivity|exact O].
Qed.

(** C6.  For every distance, density and [silent]: a mode outside
    truck, rail, ship, barge, pipeline makes [set_distribution_data] raise
    [ValueError] and leave the whole object as it was; a mode among the five
    makes it return. *)
Theorem set_distribution_data_validates_mode
    (distance : num) (mode : string) (density : num) (silent : bool)
    (s : SAF_LCA_Model num) :
  (~ In mode ["truck"; "rail"; "ship"; "barge"; "pipeline"] ->
   exists message,
     set_distribution_data distance mode density silent s
     = Raised (ValueError message) s) /\
  (In mode ["truck"; "rail"; "ship"; "barge"; "pipeline"] ->
   exists s', set_distribution_data distance mode density silent s
              = Returned tt s').
Proof.
  pose proof (set_distribution_data_outcome distance mode density silent s)
    as O.
  destruct (stored_distribution distance mode density) as [ds|].
  - destruct O as (K & s' & O & _). split.
    + intros N. contradiction.
    + intros _. exists s'. exact O.
  - destruct O as (N & O). split.
    + intros _. eexists. exact O.
    + intros K. contradiction.
Qed.

End Setters.

Section Engine.

Context {num : Type} {A : Arith num}.

(** C7.  [calculate_lca] raises [ValueError] exactly when one of the five
    groups is empty, and then the object is as it was; when the five groups
    are set and none of the values it divides by is zero, it returns the
    stored results, with the four categories filled. *)
Theorem calculate_lca_missing_data_iff (silent : bool)
    (s : SAF_LCA_Model num) :
  ((exists message s',
      calculate_lca silent s = Raised (ValueError message) s')
   <-> all_populated s = false) /\
  (forall message s',
     calculate_lca silent s = Raised (ValueError message) s' -> s' = s) /\
  (all_populated s = true -> divisors_nonzero s = true ->
   exists r s',
     calculate_lca silent s = Returned r s' /\ results s' = r /\
     Forall (fun category => dict_truthy category = true)
            (map snd (results_items r)) /\
     Forall (fun stage => dict_mem (ghg_emissions r) stage = true)
            (stage_names ++ ["total"])).
Proof.
  destruct (calculate_lca_cases silent s)
    as [(P & E) | [(P & D & s0 & E) | (P & D & r0 & s0 & E)]].
  - split; [|split].
    + split; [intros _; exact P | intros _; eauto].
    + intros message s' H. rewrite E in H. now injection H as _ <-.
    + intros P'. rewrite P in P'. discriminate.
  - split; [|split].
    + split; [intros (m & s' & H); rewrite E in H; discriminate|].
      intros P'. rewrite P in P'. discriminate.
    + intros message s' H. rewrite E in H. discriminate.
    + intros _ D'. rewrite D in D'. discriminate.
  - split; [|split].
    + split; [intros (m & s' & H); rewrite E in H; discriminate|].
      intros P'. rewrite P in P'. discriminate.
    + intros message s' H. rewrite E in H. discriminate.
    + intros _ _. exists r0, s0.
      destruct (calculate_lca_returned silent s E) as (_ & _ & _ & R & _).
      destruct (calculate_lca_shape silent s E)
        as (g1 & g2 & g3 & g4 & g5 & e1 & e2 & e3 & e4 & w1 & w2 & w3 & Sh).
      split; [exact E|]. split; [exact R|]. rewrite Sh.
      split; repeat constructor.
Qed.

End Engine.

Section Reduction.

Context {num : Type} {A : Arith num}.

(** With a GHG total stored and a baseline that is not zero,
    [calculate_emission_reduction] returns the formula and only prints. *)
Lemma emission_reduction_of_stored (fossil total : num) (silent : bool)
    (s : SAF_LCA_Model num) :
  dict_get (ghg_emissions (results s)) "total" = Some total ->
  is_zero fossil = false ->
  exists s',
    calculate_emission_reduction fossil silent s
    = Returned (mul (quot (sub fossil (mul total (dec 1000 0))) fossil)
                    (dec 100 0)) s' /\
    same_parameters s s' /\ results s' = results s /\
    stdout s'
    = (stdout s ++ said silent (Narration "calculate_emission_reduction"))%list.
Proof.
  intros T Z.
  assert (Tr : dict_truthy (ghg_emissions (results s)) = true).
  { destruct (ghg_emissions (results s)); [discriminate T | reflexivity]. }
  unfold_methods. rewrite Tr. cbv iota beta. rewrite T, Z.
  destruct silent; simpl; eexists; (split; [reflexivity|]); simpl;
    rewrite ?app_nil_r; repeat split; reflexivity.
Qed.

(** Whatever the first call did, what it returns is the formula on the GHG
    total of the object it leaves. *)
Lemma emission_reduction_returned (fossil v : num) (silent : bool)
    (s s1 : SAF_LCA_Model num) :
  calculate_emission_reduction fossil silent s = Returned v s1 ->
  exists total,
    dict_get (ghg_emissions (results s1)) "total" = Some total /\
    is_zero fossil = false /\
    v = mul (quot (sub fossil (mul total (dec 1000 0))) fossil) (dec 100 0).
Proof.
  unfold calculate_emission_reduction.
  unfold bind at 1, get at 1.
  destruct (dict_truthy (ghg_emissions (results s))).
  - unfold_methods.
    destruct (dict_get (ghg_emissions (results s)) "total") as [t|] eqn:T;
      [|discriminate].
    destruct (is_zero fossil); [discriminate|].
    destruct silent; simpl; intros H; injection H as <- <-;
      exists t; repeat split; try reflexivity; exact T.
  - unfold bind at 1. unfold bind at 1.
    destruct (calculate_lca false s) as [r s0|e s0] eqn:C; [|discriminate].
    destruct (calculate_lca_returned false s C) as (_ & _ & _ & R & _).
    destruct (calculate_lca_shape false s C)
      as (g1 & g2 & g3 & g4 & g5 & e1 & e2 & e3 & e4 & w1 & w2 & w3 & Sh).
    unfold_methods. rewrite R, Sh. simpl dict_get. cbv iota beta.
    destruct (is_zero fossil); [discriminate|].
    destruct silent; simpl; intros H; injection H as <- <-;
      simpl; rewrite R, Sh; eexists; repeat split; reflexivity.
Qed.

(** C9.  With a GHG total stored and a baseline that is not zero,
    [calculate_emission_reduction] returns exactly
    [(fossil - total * 1000) / fossil * 100] and leaves the parameter groups
    and the results as they are.  With no GHG result stored it is one
    (non-silent) [calculate_lca] followed by the same.  Whenever a call
    returns, the next call returns the same value and changes neither the
    parameter groups nor the results. *)
Theorem emission_reduction_is_pure (fossil : num) (silent : bool)
    (s : SAF_LCA_Model num) :
  (forall total,
     dict_get (ghg_emissions (results s)) "total" = Some total ->
     is_zero fossil = false ->
     exists s',
       calculate_emission_reduction fossil silent s
       = Returned (mul (quot (sub fossil (mul total (dec 1000 0))) fossil)
                       (dec 100 0)) s' /\
       same_parameters s s' /\ results s' = results s) /\
  (ghg_emissions (results s) = [] ->
   calculate_emission_reduction fossil silent s
   = (calculate_lca false ;;; calculate_emission_reduction fossil silent) s) /\
  (forall v s1,
     calculate_emission_reduction fossil silent s = Returned v s1 ->
     exists s2,
       calculate_emission_reduction fossil silent s1 = Returned v s2 /\
       same_parameters s1 s2 /\ results s2 = results s1).
Proof.
  split; [|split].
  - intros total T Z.
    destruct (emission_reduction_of_stored fossil total silent s T Z)
      as (s' & E & SP & R & _).
    exists s'. repeat split; try apply SP; assumption.
  - intros G. unfold calculate_emission_reduction at 1.
    erewrite bind_returned by reflexivity. rewrite G.
    cbn [dict_truthy].
    destruct (calculate_lca false s) as [r s0|e s0] eqn:C.
    + erewrite (bind_returned (calculate_lca false ;;; ret tt))
        by (erewrite bind_returned by exact C; reflexivity).
      symmetry.
      erewrite (bind_returned (calculate_lca false)) by exact C.
      destruct (calculate_lca_returned false s C) as (_ & _ & _ & R & _).
      destruct (calculate_lca_shape false s C)
        as (g1 & g2 & g3 & g4 & g5 & e1 & e2 & e3 & e4 & w1 & w2 & w3 & Sh).
      unfold calculate_emission_reduction.
      erewrite (bind_returned get) by reflexivity.
      rewrite R, Sh. reflexivity.
    + erewrite (bind_raised (calculate_lca false ;;; ret tt))
        by (erewrite bind_raised by exact C; reflexivity).
      erewrite (bind_raised (calculate_lca false)) by exact C.
      reflexivity.
  - intros v s1 E.
    destruct (emission_reduction_returned fossil v silent s s1 E)
      as (total & T & Z & ->).
    destruct (emission_reduction_of_stored fossil total silent s1 T Z)
      as (s2 & E2 & SP & R & _).
    exists s2. repeat split; try apply SP; assumption.
Qed.

End Reduction.

Section ZeroDenominators.

Context {num : Type} {A : Arith num}.

(** In an arithmetic where a zero divided by [100] is a zero, a zero
    energy density, capture efficiency or electrolysis efficiency stops
    [calculate_lca] with [ZeroDivisionError] before it stores anything. *)
Lemma zero_parameter_raises
    (zero_quot : forall x : num,
        is_zero x = true -> is_zero (quot x (dec 100 0)) = true)
    (silent : bool) (s : SAF_LCA_Model num)
    (cc : carbon_capture num) (el : electrolysis num) (up : use_phase num) :
  all_populated s = true ->
  carbon_capture_data s = Some cc ->
  electrolysis_data s = Some el ->
  use_phase_data s = Some up ->
  is_zero (up_energy_density up) = true \/
  is_zero (cc_capture_efficiency cc) = true \/
  is_zero (el_co2_electrolysis_efficiency el) = true \/
  is_zero (el_water_electrolysis_efficiency el) = true ->
  exists s',
    calculate_lca silent s = Raised ZeroDivisionError s' /\
    results s' = results s /\ same_parameters s s'.
Proof.
  intros P Hcc Hel Hup Z.
  assert (D : divisors_nonzero s = false).
  { unfold divisors_nonzero, divisors. rewrite Hcc, Hel, Hup.
    unfold all_populated in P. rewrite Hcc, Hel in P.
    destruct (conversion_data s) as [cv|]; [|discriminate P].
    cbn [forallb].
    destruct Z as [Z | [Z | [Z | Z]]];
      [| apply zero_quot in Z ..]; rewrite Z; cbn [negb andb];
      rewrite ?andb_false_r; reflexivity. }
  destruct (calculate_lca_zero_divisor silent s P D) as (s' & E & SP & R & _).
  exists s'. repeat split; try apply SP; assumption.
Qed.

End ZeroDenominators.

(** C10.  Under Python's arithmetic, with the five groups set, an energy
    density, capture efficiency or electrolysis efficiency equal to zero makes
    [calculate_lca] raise [ZeroDivisionError]; the stored results and the
    parameter groups are then as they were. *)
Theorem zero_denominator_raises_before_store (silent : bool)
    (s : SAF_LCA_Model float)
    (cc : carbon_capture float) (el : electrolysis float)
    (up : use_phase float) :
  all_populated s = true ->
  carbon_capture_data s = Some cc ->
  electrolysis_data s = Some el ->
  use_phase_data s = Some up ->
  PrimFloat.is_zero (up_energy_density up) = true \/
  PrimFloat.is_zero (cc_capture_efficiency cc) = true \/
  PrimFloat.is_zero (el_co2_electrolysis_efficiency el) = true \/
  PrimFloat.is_zero (el_water_electrolysis_efficiency el) = true ->
  exists s',
    calculate_lca silent s = Raised ZeroDivisionError s' /\
    results s' = results s /\ same_parameters s s'.
Proof.
  exact (@zero_parameter_raises float binary64 float_zero_quot_100
           silent s cc el up).
Qed.

Section DistributionStage.

Context {num : Type} {A : Arith num}.

(** The emissions the distribution setter stores. *)
Lemma stored_distribution_ghg (distance : num) (mode : string)
    (density : num) (ds : distribution num) :
  stored_distribution distance mode density = Some ds ->
  exists ef,
    dict_get emission_factors mode = Some ef /\
    ds_ghg_emissions ds = mul (mul ef (dec 1 3)) distance.
Proof.
  unfold stored_distribution. unfold_methods. unfold dict_mem.
  destruct (dict_get emission_factors mode) as [ef|]; [|discriminate].
  destruct (dict_get energy_factors mode) as [enf|]; [|discriminate].
  simpl. intros [= <-]. exists ef. split; reflexivity.
Qed.

(** Two objects that differ in the distribution group only: [calculate_lca]
    returns on both or on neither, and the GHG categories differ in the
    distribution stage only, which is the stored emissions times the
    normalization factor. *)
Lemma calculate_lca_varying_distribution (b : bool)
    (s t s' : SAF_LCA_Model num) (r : lca_results num)
    (ds_s ds_t : distribution num) (up : use_phase num) :
  conversion_data t = conversion_data s ->
  use_phase_data t = use_phase_data s ->
  carbon_capture_data t = carbon_capture_data s ->
  electrolysis_data t = electrolysis_data s ->
  distribution_data s = Some ds_s ->
  distribution_data t = Some ds_t ->
  use_phase_data s = Some up ->
  calculate_lca b s = Returned r s' ->
  exists g1 g2 g3 g5 r_t t',
    calculate_lca b t = Returned r_t t' /\
    ghg_emissions r
    = (let g4 := mul (ds_ghg_emissions ds_s)
                     (quot (dec 1 0) (up_energy_density up)) in
       [("carbon_capture", g1); ("electrolysis", g2); ("conversion", g3);
        ("distribution", g4); ("use_phase", g5);
        ("total", add (add (add (add g1 g2) g3) g4) g5)]) /\
    ghg_emissions r_t
    = (let g4 := mul (ds_ghg_emissions ds_t)
                     (quot (dec 1 0) (up_energy_density up)) in
       [("carbon_capture", g1); ("electrolysis", g2); ("conversion", g3);
        ("distribution", g4); ("use_phase", g5);
        ("total", add (add (add (add g1 g2) g3) g4) g5)]).
Proof.
  intros E1 E2 E3 E4 Ds Dt Up. unfold_methods.
  rewrite E1, E2, E3, E4, Dt, Ds, Up.
  destruct (carbon_capture_data s) as [cc|], (electrolysis_data s) as [el|],
    (conversion_data s) as [cv|]; try discriminate.
  destruct b; simpl; split_zero_tests; try discriminate;
    intros H; injection H as <- _; do 6 eexists; repeat split; reflexivity.
Qed.

End DistributionStage.

(** ** Distance and transport mode in binary64 *)

Section DistanceBinary64.

(** The emission factors of the table are non-negative numbers, and so are
    they per kilogram of fuel. *)
Lemma emission_factor_per_kg (mode : string) (ef : float) :
  dict_get (emission_factors (num:=float)) mode = Some ef ->
  PrimFloat.leb PrimFloat.zero ef = true /\
  PrimFloat.leb PrimFloat.zero (PrimFloat.mul ef (float_dec 1 3)) = true.
Proof.
  intros H. pose proof (emission_factor_known _ H) as K.
  simpl in K.
  destruct K as [<- | [<- | [<- | [<- | [<- | []]]]]];
    injection H as <-; split; reflexivity.
Qed.

(** From the emissions the setter stores to the distribution stage and the
    total: both follow the order of the stored emissions. *)
Lemma stage_and_total_monotone (g1 g2 g3 g5 u1 u2 ed : float) :
  PrimFloat.ltb PrimFloat.zero ed = true ->
  (PrimFloat.is_nan u1 = false -> PrimFloat.is_nan u2 = false ->
   PrimFloat.leb PrimFloat.zero u1 = true /\ PrimFloat.leb u1 u2 = true) ->
  let stage u := PrimFloat.mul u (PrimFloat.div (float_dec 1 0) ed) in
  let total u :=
    PrimFloat.add
      (PrimFloat.add (PrimFloat.add (PrimFloat.add g1 g2) g3) (stage u))
      g5 in
  (PrimFloat.is_nan (stage u1) = false ->
   PrimFloat.is_nan (stage u2) = false ->
   PrimFloat.leb (stage u1) (stage u2) = true) /\
  (PrimFloat.is_nan (total u1) = false ->
   PrimFloat.is_nan (total u2) = false ->
   PrimFloat.leb (total u1) (total u2) = true).
Proof.
  intros Ed H stage total.
  assert (St : PrimFloat.is_nan (stage u1) = false ->
               PrimFloat.is_nan (stage u2) = false ->
               PrimFloat.leb (stage u1) (stage u2) = true).
  { intros N1 N2.
    destruct (float_mul_number _ _ N1) as (A1 & B1).
    destruct (float_mul_number _ _ N2) as (A2 & _).
    destruct (H A1 A2) as (P & L).
    apply float_mul_mono_l; try assumption.
    apply float_div_nonneg; [reflexivity | exact Ed | exact B1]. }
  split; [exact St|].
  intros N1 N2.
  destruct (float_add_number _ _ N1) as (A1 & _).
  destruct (float_add_number _ _ N2) as (A2 & _).
  destruct (float_add_number _ _ A1) as (_ & S1).
  destruct (float_add_number _ _ A2) as (_ & S2).
  apply float_add_mono_l; try assumption.
  apply float_add_mono_r; try assumption.
  now apply St.
Qed.

(** On the documented example the increase is strict for each of the five
    modes between any two of the distances the dashboard offers. *)
Lemma distribution_strict_on_the_slider (mode : string) (d1 d2 : float) :
  In mode default_transport_modes ->
  In d1 slider_distances -> In d2 slider_distances ->
  PrimFloat.ltb d1 d2 = true ->
  strictly_higher mode d1 d2 = true.
Proof.
  intros Hm H1 H2 L.
  assert (F : forallb (fun m =>
                forallb (fun a =>
                  forallb (fun b =>
                    implb (PrimFloat.ltb a b) (strictly_higher m a b))
                    slider_distances) slider_distances)
                default_transport_modes = true)
    by (vm_compute; reflexivity).
  rewrite forallb_forall in F. specialize (F mode Hm).
  rewrite forallb_forall in F. specialize (F d1 H1).
  rewrite forallb_forall in F. specialize (F d2 H2).
  rewrite L in F. exact F.
Qed.

(** C8, as amended.  In binary64, for a known mode, a positive energy
    density and distances [0 <= d1 <= d2]: if [set_distribution_data] at
    [d1] followed by [calculate_lca] returns, so does the same at [d2], and
    neither the distribution stage nor the total of the GHG category is
    lower at [d2]: the comparison [value at d2 < value at d1] is false, and
    [value at d1 <= value at d2] holds whenever both values are numbers
    (they are not when a zero meets an infinity).  The increase need not be
    strict, since rounding can give two distances the same values; on the
    documented example it is strict for each of the five modes between any
    two of the distances the dashboard offers. *)
Theorem distribution_monotone_binary64 :
  (forall (s s1 : SAF_LCA_Model float) (r1 : lca_results float)
          (up : use_phase float) (mode : string) (density d1 d2 : float)
          (silent : bool),
     In mode ["truck"; "rail"; "ship"; "barge"; "pipeline"]%string ->
     use_phase_data s = Some up ->
     PrimFloat.ltb PrimFloat.zero (up_energy_density up) = true ->
     PrimFloat.leb PrimFloat.zero d1 = true ->
     PrimFloat.leb d1 d2 = true ->
     (set_distribution_data d1 mode density silent ;;;
      calculate_lca silent) s = Returned r1 s1 ->
     exists r2 s2 dist1 dist2 total1 total2,
       (set_distribution_data d2 mode density silent ;;;
        calculate_lca silent) s = Returned r2 s2 /\
       dict_get (ghg_emissions r1) "distribution" = Some dist1 /\
       dict_get (ghg_emissions r2) "distribution" = Some dist2 /\
       dict_get (ghg_emissions r1) "total" = Some total1 /\
       dict_get (ghg_emissions r2) "total" = Some total2 /\
       PrimFloat.ltb dist2 dist1 = false /\
       PrimFloat.ltb total2 total1 = false /\
       (PrimFloat.is_nan dist1 = false -> PrimFloat.is_nan dist2 = false ->
        PrimFloat.leb dist1 dist2 = true) /\
       (PrimFloat.is_nan total1 = false ->
        PrimFloat.is_nan total2 = false ->
        PrimFloat.leb total1 total2 = true)) /\
  (forall (mode : string) (d1 d2 : float),
     In mode ["truck"; "rail"; "ship"; "barge"; "pipeline"]%string ->
     In d1 slider_distances -> In d2 slider_distances ->
     PrimFloat.ltb d1 d2 = true ->
     strictly_higher mode d1 d2 = true).
Proof.
  split; [|exact distribution_strict_on_the_slider].
  intros s s1 r1 up mode density d1 d2 silent K Up Epos D1 D12 Run.
  destruct (set_distribution_data_known d1 density silent s K)
    as (ds1 & t1 & St1 & S1 & F1 & G1 & G2 & G3 & G4 & _).
  destruct (set_distribution_data_known d2 density silent s K)
    as (ds2 & t2 & St2 & S2 & F2 & H1 & H2 & H3 & H4 & _).
  erewrite bind_returned in Run by exact S1.
  destruct (stored_distribution_ghg d1 mode density ds1 St1)
    as (ef & Ef & Q1).
  destruct (stored_distribution_ghg d2 mode density ds2 St2)
    as (ef' & Ef' & Q2).
  rewrite Ef in Ef'. injection Ef' as <-.
  assert (Up1 : use_phase_data t1 = Some up) by congruence.
  destruct (calculate_lca_varying_distribution silent t1 t2 s1 r1 ds1 ds2 up)
    as (g1 & g2 & g3 & g5 & r2 & s2 & C2 & R1 & R2); try congruence.
  exists r2, s2. rewrite R1, R2. cbv zeta.
  do 4 eexists.
  split; [erewrite bind_returned by exact S2; exact C2|].
  do 4 (split; [reflexivity|]).
  rewrite Q1, Q2.
  destruct (emission_factor_per_kg mode ef Ef) as (_ & Cpos).
  destruct (stage_and_total_monotone g1 g2 g3 g5
              (PrimFloat.mul (PrimFloat.mul ef (float_dec 1 3)) d1)
              (PrimFloat.mul (PrimFloat.mul ef (float_dec 1 3)) d2)
              (up_energy_density up) Epos) as (St & Tt).
  { intros N1 N2. split.
    - now apply float_mul_nonneg.
    - now apply float_mul_mono_r. }
  cbv zeta in St, Tt.
  split; [apply float_never_less; exact St|].
  split; [apply float_never_less; exact Tt|].
  split; [exact St | exact Tt].
Qed.

End DistanceBinary64.

(** ** The properties at concrete inputs *)

Section Instances.

Local Open Scope float_scope.

(** C3 at the documented example: after either sweep the stored results are
    those computed before it. *)
Lemma sweeps_restore_model_example :
  results (final_state
             (analyze_electricity_sources (Some ["coal"; "tidal"]%string)
                (example_computed (num:=float))))
  = example_results /\
  results (final_state
             (analyze_transport_modes None (float_dec 250 0)
                (example_computed (num:=float))))
  = example_results.
Proof.
  destruct (@sweeps_restore_model float binary64 true example_model
              example_computed
              example_results (Some ["coal"; "tidal"]%string) None
              (float_dec 250 0))
    as ((_ & R1 & _) & (_ & R2 & _)).
  - vm_compute. reflexivity.
  - vm_compute. reflexivity.
  - repeat constructor; simpl; tauto.
  - split; assumption.
Defined.

(** C4 as stated fails on the documented example: [calculate_lca] returns
    a result whose energy category has no use-phase entry (nor has the water
    category, and the water and land-use categories lack others), so not
    every category holds all five stages. *)
Lemma categories_lack_stages :
  calculate_lca true (example_model (num:=float))
  = Returned example_results example_computed /\
  dict_get (energy_consumption (example_results (num:=float))) "use_phase"
  = None /\
  ~ Forall (fun category =>
              Forall (fun stage => dict_mem category stage = true)
                     stage_names)
           (map snd (results_items (example_results (num:=float)))).
Proof.
  split; [vm_compute; reflexivity|].
  split; [vm_compute; reflexivity|].
  intros H. apply Forall_inv_tail, Forall_inv in H.
  do 4 apply Forall_inv_tail in H. apply Forall_inv in H.
  vm_compute in H. discriminate H.
Qed.

(** C4, as amended, at the documented example. *)
Lemma result_categories_and_totals_example :
  dict_keys (energy_consumption (example_results (num:=float)))
  = ["carbon_capture"; "electrolysis"; "conversion"; "distribution";
     "total"]%string /\
  dict_get (land_use (example_results (num:=float))) "total"
  = Some (float_dec 0 0).
Proof.
  destruct (@result_categories_and_totals float binary64 true example_model
              example_computed example_results)
    as (_ & _ & E & _ & _ & _ & L).
  - vm_compute. reflexivity.
  - split; [exact E | exact L].
Defined.

(** C5 as stated fails: the table holds 14 sources, not 15, and a silent
    call with a source outside the table prints nothing. *)
Lemma electricity_table_is_not_fifteen :
  List.length (dict_keys (electricity_carbon_intensities (num:=float)))
  <> 15%nat /\
  stdout (final_state
            (set_electrolysis_data (float_dec 650 1) (float_dec 750 1)
               "tidal" (float_dec 280 1) (float_dec 550 1) (float_dec 200 1)
               None true init))
  = stdout (init (num:=float)).
Proof.
  split; [vm_compute; discriminate | vm_compute; reflexivity].
Qed.

(** C5, as amended, at the source ["tidal"], not silent: the fallback
    intensity is stored and the warning is printed. *)
Lemma electricity_source_resolution_example :
  exists s' el,
    set_electrolysis_data (float_dec 650 1) (float_dec 750 1) "tidal"
      (float_dec 280 1) (float_dec 550 1) (float_dec 200 1) None false
      (init (num:=float)) = Returned tt s' /\
    electrolysis_data s' = Some el /\
    el_electricity_carbon_intensity el = float_dec 20 3 /\
    stdout s'
    = [Narration "__init__"; Warning "tidal";
       Narration "set_electrolysis_data"]%string.
Proof.
  destruct (@electricity_source_resolution float binary64 (float_dec 650 1) (float_dec 750 1)
              "tidal" (float_dec 280 1) (float_dec 550 1) (float_dec 200 1)
              false (init (num:=float)))
    as (_ & _ & s' & el & S & E & _ & _ & U).
  destruct U as (I & O); [vm_compute; reflexivity|].
  exists s', el. split; [exact S|]. split; [exact E|].
  split; [exact I | exact O].
Defined.

(** C6 at the mode ["teleport"], distance [1], on the documented example:
    [ValueError], and the object is as it was. *)
Lemma set_distribution_data_validates_mode_example :
  (exists message,
     set_distribution_data (float_dec 1 0) "teleport" (float_dec 8 1) false
       (example_model (num:=float))
     = Raised (ValueError message) example_model) /\
  (exists s',
     set_distribution_data (float_dec 1 0) "rail" (float_dec 8 1) false
       (example_model (num:=float)) = Returned tt s').
Proof.
  split.
  - apply (@set_distribution_data_validates_mode float binary64
             (float_dec 1 0) "teleport"
             (float_dec 8 1) false example_model).
    simpl. intuition discriminate.
  - apply (@set_distribution_data_validates_mode float binary64
             (float_dec 1 0) "rail"
             (float_dec 8 1) false example_model).
    simpl. tauto.
Defined.

(** C7 at the documented example: the five groups are set and no divisor is
    zero, so [calculate_lca] returns. *)
Lemma calculate_lca_missing_data_iff_example :
  exists r s',
    calculate_lca false (example_model (num:=float)) = Returned r s' /\
    results s' = r.
Proof.
  destruct (@calculate_lca_missing_data_iff float binary64 false
              example_model)
    as (_ & _ & H).
  destruct H as (r & s' & C & R & _);
    [vm_compute; reflexivity | vm_compute; reflexivity|].
  exists r, s'. split; [exact C | exact R].
Defined.

(** C8 as stated fails under Python's arithmetic: on the documented example
    with the truck mode, the distances [500.0] and the next double above it
    give the same distribution stage and the same total. *)
Lemma adjacent_distances_tie :
  (float_dec 0 0 <=? float_dec 500 0) = true /\
  (float_dec 500 0 <? PrimFloat.next_up (float_dec 500 0)) = true /\
  exists r1 s1 r2 s2 dist1 dist2 total1 total2,
    (set_distribution_data (float_dec 500 0) "truck" (float_dec 8 1) true ;;;
     calculate_lca true) (example_model (num:=float)) = Returned r1 s1 /\
    (set_distribution_data (PrimFloat.next_up (float_dec 500 0)) "truck"
       (float_dec 8 1) true ;;;
     calculate_lca true) (example_model (num:=float)) = Returned r2 s2 /\
    dict_get (ghg_emissions r1) "distribution" = Some dist1 /\
    dict_get (ghg_emissions r2) "distribution" = Some dist2 /\
    dict_get (ghg_emissions r1) "total" = Some total1 /\
    dict_get (ghg_emissions r2) "total" = Some total2 /\
    (dist1 <? dist2) = false /\ (total1 <? total2) = false.
Proof.
  split; [vm_compute; reflexivity|]. split; [vm_compute; reflexivity|].
  do 8 eexists.
  split; [vm_compute; reflexivity|]. split; [vm_compute; reflexivity|].
  do 4 (split; [vm_compute; reflexivity|]).
  split; vm_compute; reflexivity.
Qed.

(** C8, as amended, at the documented example: from 500 to 600 km by truck
    the total is not lower, and from 500 to 550 km by rail the stage and the
    total are strictly higher. *)
Lemma distribution_monotone_binary64_example :
  (exists r2 s2 total1 total2,
     (set_distribution_data (float_dec 600 0) "truck" (float_dec 8 1) true ;;;
      calculate_lca true) (example_model (num:=float)) = Returned r2 s2 /\
     dict_get (ghg_emissions (example_results (num:=float))) "total"
     = Some total1 /\
     dict_get (ghg_emissions r2) "total" = Some total2 /\
     PrimFloat.ltb total2 total1 = false) /\
  strictly_higher "rail" (float_dec 500 0) (float_dec 550 0) = true.
Proof.
  destruct distribution_monotone_binary64 as (General & Slider).
  split.
  - destruct (General
                (example_model (num:=float)) example_computed example_results
                {| up_combustion_emissions := float_dec 0 1;
                   up_energy_density := float_dec 430 1 |}
                "truck"%string (float_dec 8 1) (float_dec 500 0)
                (float_dec 600 0) true)
      as (r2 & s2 & dist1 & dist2 & total1 & total2
          & Run2 & _ & _ & T1 & T2 & _ & Lt & _).
    + simpl. tauto.
    + vm_compute. reflexivity.
    + vm_compute. reflexivity.
    + vm_compute. reflexivity.
    + vm_compute. reflexivity.
    + vm_compute. reflexivity.
    + exists r2, s2, total1, total2.
      split; [exact Run2|]. split; [exact T1|]. split; [exact T2 | exact Lt].
  - apply Slider.
    + simpl. tauto.
    + apply in_map_iff. exists 8%nat.
      split; [reflexivity | apply in_seq; lia].
    + apply in_map_iff. exists 9%nat.
      split; [reflexivity | apply in_seq; lia].
    + vm_compute. reflexivity.
Defined.

(** C9 at the documented example, after [calculate_lca], against the
    baseline [89.0]: the call returns, and the next call returns the same. *)
Lemma emission_reduction_is_pure_example :
  exists v s1 s2,
    calculate_emission_reduction (float_dec 890 1) true
      (example_computed (num:=float)) = Returned v s1 /\
    calculate_emission_reduction (float_dec 890 1) true s1 = Returned v s2 /\
    results s2 = results s1.
Proof.
  destruct (@emission_reduction_is_pure float binary64 (float_dec 890 1) true
              example_computed) as (F & _ & T).
  destruct (F (get_default
                 (dict_get (ghg_emissions (example_results (num:=float)))
                    "total") (float_dec 0 0))) as (s1 & E & _);
    [vm_compute; reflexivity | vm_compute; reflexivity|].
  destruct (T _ _ E) as (s2 & E2 & _ & R).
  eexists _, s1, s2. split; [exact E|]. split; [exact E2 | exact R].
Defined.

(** C10 at the documented example with the energy density set to zero. *)
Lemma zero_denominator_raises_before_store_example :
  exists s',
    calculate_lca true
      (final_state (set_use_phase_data (float_dec 0 1) (float_dec 0 1)
                      (example_model (num:=float))))
    = Raised ZeroDivisionError s' /\
    results s' = empty_results.
Proof.
  destruct (zero_denominator_raises_before_store true
              (final_state (set_use_phase_data (float_dec 0 1) (float_dec 0 1)
                              (example_model (num:=float))))
              {| cc_capture_efficiency := float_dec 800 1;
                 cc_energy_requirement := float_dec 200 1;
                 cc_ghg_emissions := float_dec 8 2;
                 cc_water_usage := float_dec 50 1;
                 cc_co2_capture_rate := float_dec 31 1 |}
              {| el_co2_electrolysis_efficiency := float_dec 650 1;
                 el_water_electrolysis_efficiency := float_dec 750 1;
                 el_electricity_source := "wind";
                 el_electricity_carbon_intensity := float_dec 11 3;
                 el_energy_input_co := float_dec 280 1;
                 el_energy_input_h2 := float_dec 550 1;
                 el_water_usage := float_dec 200 1 |}
              {| up_combustion_emissions := float_dec 0 1;
                 up_energy_density := float_dec 0 1 |})
    as (s' & E & R & _).
  - vm_compute. reflexivity.
  - vm_compute. reflexivity.
  - vm_compute. reflexivity.
  - vm_compute. reflexivity.
  - left. vm_compute. reflexivity.
  - exists s'. split; [exact E|]. rewrite R. vm_compute. reflexivity.
Defined.

End Instances.

(** ** Further properties of the calculation engine *)

Section EngineProperties.

Context {num : Type} {A : Arith num}.

(** Two objects with the same groups, results and output are the same. *)
Lemma model_ext (s s' : SAF_LCA_Model num) :
  same_parameters s s' -> results s = results s' -> stdout s = stdout s' ->
  s = s'.
Proof.
  destruct s, s'. unfold same_parameters. simpl.
  intros (-> & -> & -> & -> & ->) -> ->. reflexivity.
Qed.

(** X1.  Once [calculate_lca] has returned, calling it again returns the same
    result: a silent call leaves the object exactly as it is, and a call that
    prints changes only the output. *)
Theorem calculate_lca_idempotent (b : bool) (s s1 : SAF_LCA_Model num)
    (r : lca_results num) :
  calculate_lca b s = Returned r s1 ->
  calculate_lca true s1 = Returned r s1 /\
  exists s2, calculate_lca false s1 = Returned r s2 /\
             same_parameters s1 s2 /\ results s2 = results s1.
Proof.
  intros C.
  destruct (calculate_lca_returned b s C) as (_ & _ & SP & R & _).
  split.
  - destruct (calculate_lca_parameters_only b true SP C)
      as (s2 & C2 & SP2 & R2 & O2).
    rewrite C2. f_equal. symmetry. apply model_ext.
    + exact SP2.
    + congruence.
    + rewrite O2. simpl. now rewrite app_nil_r.
  - destruct (calculate_lca_parameters_only b false SP C)
      as (s2 & C2 & SP2 & R2 & _).
    exists s2. repeat split; try apply SP2; congruence.
Qed.

(** X2.  Leaving out [syngas_requirement] or [co_h2_ratio] in
    [set_conversion_data] gives the same outcome of [calculate_lca] as
    passing the defaults [2.5] and [0.5]. *)
Theorem conversion_defaults
    (technology : string) (efficiency ghg energy_input water : num)
    (syngas_requirement co_h2_ratio : option num) (b : bool)
    (s : SAF_LCA_Model num) :
  result_of
    ((set_conversion_data technology efficiency ghg energy_input water
        syngas_requirement co_h2_ratio ;;; calculate_lca b) s)
  = result_of
      ((set_conversion_data technology efficiency ghg energy_input water
          (Some (get_default syngas_requirement (dec 25 1)))
          (Some (get_default co_h2_ratio (dec 5 1))) ;;;
        calculate_lca b) s).
Proof.
  unfold_methods. cbn.
  destruct (carbon_capture_data s), (electrolysis_data s),
    (distribution_data s), (use_phase_data s); try reflexivity.
  destruct b; cbn; split_zero_tests; reflexivity.
Qed.

(** X3.  The technology name and the efficiency of the conversion group, and
    the fuel density of the distribution group, are stored but never read:
    [calculate_lca] gives the same outcome whatever they are. *)
Theorem informational_parameters
    (technology technology' : string) (efficiency efficiency' : num)
    (ghg energy_input water : num)
    (syngas_requirement co_h2_ratio : option num)
    (distance : num) (mode : string) (density density' : num)
    (silent b : bool) (s : SAF_LCA_Model num) :
  result_of
    ((set_conversion_data technology efficiency ghg energy_input water
        syngas_requirement co_h2_ratio ;;; calculate_lca b) s)
  = result_of
      ((set_conversion_data technology' efficiency' ghg energy_input water
          syngas_requirement co_h2_ratio ;;; calculate_lca b) s) /\
  result_of
    ((set_distribution_data distance mode density silent ;;;
      calculate_lca b) s)
  = result_of
      ((set_distribution_data distance mode density' silent ;;;
        calculate_lca b) s).
Proof.
  split.
  - unfold_methods. cbn.
    destruct (carbon_capture_data s), (electrolysis_data s),
      (distribution_data s), (use_phase_data s); try reflexivity.
    destruct b; cbn; split_zero_tests; reflexivity.
  - unfold set_distribution_data, getitem.
    destruct (dict_mem emission_factors mode); [|reflexivity]. cbn [negb].
    destruct (dict_get emission_factors mode) as [ef|]; [|reflexivity].
    destruct (dict_get energy_factors mode) as [enf|]; [|reflexivity].
    unfold_methods. cbn.
    destruct (carbon_capture_data s), (electrolysis_data s),
      (conversion_data s), (use_phase_data s), silent; try reflexivity;
      destruct b; cbn; split_zero_tests; reflexivity.
Qed.

(** Two objects that differ in the source and the intensity of the
    electrolysis group only: [calculate_lca] returns on both or on neither,
    and only the electrolysis stage and the total of the GHG category
    differ. *)
Lemma calculate_lca_varying_intensity (b b' : bool)
    (s t s' : SAF_LCA_Model num) (r : lca_results num)
    (el : electrolysis num) (source : string) (intensity : num) :
  conversion_data t = conversion_data s ->
  distribution_data t = distribution_data s ->
  use_phase_data t = use_phase_data s ->
  carbon_capture_data t = carbon_capture_data s ->
  electrolysis_data s = Some el ->
  electrolysis_data t = Some (with_source el source intensity) ->
  calculate_lca b s = Returned r s' ->
  exists g1 g2 g2' g3 g4 g5 e1 e2 e3 e4 w1 w2 w3 t',
    r = inventory g1 g2 g3 g4 g5 e1 e2 e3 e4 w1 w2 w3 /\
    calculate_lca b' t
    = Returned (inventory g1 g2' g3 g4 g5 e1 e2 e3 e4 w1 w2 w3) t'.
Proof.
  intros E1 E2 E3 E4 Es Et. unfold_methods.
  rewrite E1, E2, E3, E4, Et, Es.
  destruct (carbon_capture_data s) as [cc|], (conversion_data s) as [cv|],
    (distribution_data s) as [ds|], (use_phase_data s) as [up|];
    try discriminate.
  destruct b, b'; cbn; split_zero_tests; try discriminate;
    intros H; injection H as <- _; do 14 eexists; split; reflexivity.
Qed.

(** X4.  Setting another electricity source or intensity, all else equal,
    changes only the electrolysis stage and the total of the GHG category:
    the other GHG stages and the energy, water and land-use categories are
    the same, and [calculate_lca] returns for the one setting if it does for
    the other. *)
Theorem electricity_changes_only_electrolysis_ghg
    (e1 e2 : num) (source source' : string) (co h2 w : num)
    (given given' : option num) (q q' b b' : bool)
    (s s1 : SAF_LCA_Model num) (r1 : lca_results num) :
  (set_electrolysis_data e1 e2 source co h2 w given q ;;; calculate_lca b) s
  = Returned r1 s1 ->
  exists r2 s2,
    (set_electrolysis_data e1 e2 source' co h2 w given' q' ;;;
     calculate_lca b') s = Returned r2 s2 /\
    energy_consumption r2 = energy_consumption r1 /\
    water_usage r2 = water_usage r1 /\
    land_use r2 = land_use r1 /\
    Forall (fun stage =>
              dict_get (ghg_emissions r2) stage
              = dict_get (ghg_emissions r1) stage)
           ["carbon_capture"; "conversion"; "distribution"; "use_phase"].
Proof.
  intros Run.
  destruct (set_electrolysis_data_returns e1 e2 source co h2 w given q s)
    as (t1 & S1 & F5 & F1 & F2 & F3 & F4 & _).
  destruct (set_electrolysis_data_returns e1 e2 source' co h2 w given' q' s)
    as (t2 & S2 & G5 & G1 & G2 & G3 & G4 & _).
  erewrite bind_returned in Run by exact S1.
  edestruct (calculate_lca_varying_intensity b b' t1 t2 s1 r1)
    as (g1 & g2 & g2' & g3 & g4 & g5 & x1 & x2 & x3 & x4 & w1 & w2 & w3
        & t' & -> & C2);
    [congruence | congruence | congruence | congruence | exact F5
    | rewrite G5; reflexivity | exact Run |].
  eexists _, t'. split; [erewrite bind_returned by exact S2; exact C2|].
  repeat split; repeat constructor.
Qed.

End EngineProperties.

(** ** The rows of the sweeps *)

Section SweepRows.

Context {num : Type} {A : Arith num}.







End SweepRows.

(** ** The sweeps when something is missing or wrong *)

Section SweepFailures.

Context {num : Type} {A : Arith num}.

Lemma for_each_app {T U : Type} (xs ys : list T) (body : T -> M num U)
    (s : SAF_LCA_Model num) :
  for_each (xs ++ ys) body s
  = (rows1 <- for_each xs body ;;
     rows2 <- for_each ys body ;;
     ret (rows1 ++ rows2)%list) s.
Proof.
  revert s. induction xs as [|x xs IH]; intros s; simpl.
  - unfold bind, ret. destruct (for_each ys body s); reflexivity.
  - unfold bind, ret in *. destruct (body x s) as [y s1|e s1]; [|reflexivity].
    rewrite IH.
    destruct (for_each xs body s1) as [r1 s2|e s2]; [|reflexivity].
    destruct (for_each ys body s2); reflexivity.
Qed.

Lemma same_others_ready (s0 s : SAF_LCA_Model num) (ds : distribution num) :
  others_populated s0 = true -> same_others s0 s ->
  distribution_data s = Some ds ->
  all_populated s = true /\ divisors_nonzero s = divisors_nonzero s0.
Proof.
  intros P (E1 & E2 & E3 & E4) E5.
  unfold others_populated, all_populated, divisors_nonzero, divisors in *.
  rewrite E1, E2, E3, E4, E5.
  destruct (carbon_capture_data s0), (electrolysis_data s0),
    (conversion_data s0), (use_phase_data s0); try discriminate.
  split; reflexivity.
Qed.

(** One round of the transport sweep from any object that holds the four
    other groups of [s0]: it returns and leaves the group the setter stores
    for the mode at the base distance. *)
Lemma transport_round_state (s0 s : SAF_LCA_Model num)
    (base_distance density : num) (mode : string) :
  others_populated s0 = true -> divisors_nonzero s0 = true ->
  In mode default_transport_modes ->
  same_others s0 s ->
  exists row s',
    (set_distribution_data base_distance mode density true ;;;
     calculate_lca true ;;;
     self <- get ;;
     total <- getitem (ghg_emissions (results self)) "total" ;;
     let saf_emissions := mul total (dec 1000 0) in
     let emission_reduction :=
       mul (quot (sub (dec 890 1) saf_emissions) (dec 890 1)) (dec 100 0) in
     ds <- distribution_item "emission_factor" ;;
     distribution_ghg <-
       getitem (ghg_emissions (results self)) "distribution" ;;
     ret {| tr_transport_mode := mode;
            tr_emission_factor := ds_emission_factor ds;
            tr_energy_factor := ds_energy_factor ds;
            tr_transport_emissions := mul distribution_ghg (dec 1000 0);
            tr_saf_emissions_mjbasis := saf_emissions;
            tr_emission_reduction := emission_reduction;
            tr_total_emissions := saf_emissions |}) s
    = Returned row s' /\
    same_others s0 s' /\
    distribution_data s'
    = stored_distribution base_distance mode density /\
    stdout s' = stdout s.
Proof.
  intros P D K (E1 & E2 & E3 & E4).
  destruct (set_distribution_data_known base_distance density true s K)
    as (ds1 & s1 & St & S1 & F5 & F1 & F2 & F3 & F4 & _ & O1).
  assert (SO1 : same_others s0 s1) by (repeat split; congruence).
  destruct (same_others_ready s0 s1 ds1 P SO1 F5) as (P1 & D1).
  rewrite D in D1.
  destruct (calculate_lca_returns true s1 P1 D1) as (r & s2 & C & SP & R & O2).
  destruct (calculate_lca_shape true s1 C)
    as (g1 & g2 & g3 & g4 & g5 & e1 & e2 & e3 & e4 & w1 & w2 & w3 & Sh).
  pose proof SP as (G1 & G2 & G3 & G4 & G5).
  do 2 eexists. split; [|split; [|split]].
  - erewrite bind_returned by exact S1.
    erewrite bind_returned by exact C.
    erewrite bind_returned by reflexivity.
    rewrite R, Sh.
    erewrite bind_returned by (apply getitem_found; reflexivity).
    cbv zeta.
    erewrite bind_returned
      by (apply distribution_item_found; rewrite <- G2; exact F5).
    erewrite bind_returned by (apply getitem_found; reflexivity).
    reflexivity.
  - destruct SO1 as (I1 & I2 & I3 & I4). repeat split; congruence.
  - rewrite <- G2, F5. symmetry. exact St.
  - rewrite O2, O1. simpl. now rewrite !app_nil_r.
Qed.

(** The rounds of the transport sweep over known modes, from any object that
    holds the four other groups of [s0]: the distribution group left is that
    of the last mode. *)
Lemma transport_rounds_state (s0 : SAF_LCA_Model num)
    (base_distance density : num) (known : list string) :
  others_populated s0 = true -> divisors_nonzero s0 = true ->
  Forall (fun mode => In mode default_transport_modes) known ->
  forall s, same_others s0 s ->
  exists rows s',
    for_each known (fun mode =>
      set_distribution_data base_distance mode density true ;;;
      calculate_lca true ;;;
      self <- get ;;
      total <- getitem (ghg_emissions (results self)) "total" ;;
      let saf_emissions := mul total (dec 1000 0) in
      let emission_reduction :=
        mul (quot (sub (dec 890 1) saf_emissions) (dec 890 1)) (dec 100 0) in
      ds <- distribution_item "emission_factor" ;;
      distribution_ghg <-
        getitem (ghg_emissions (results self)) "distribution" ;;
      ret {| tr_transport_mode := mode;
             tr_emission_factor := ds_emission_factor ds;
             tr_energy_factor := ds_energy_factor ds;
             tr_transport_emissions := mul distribution_ghg (dec 1000 0);
             tr_saf_emissions_mjbasis := saf_emissions;
             tr_emission_reduction := emission_reduction;
             tr_total_emissions := saf_emissions |}) s
    = Returned rows s' /\
    same_others s0 s' /\ stdout s' = stdout s /\
    List.length rows = List.length known /\
    distribution_data s'
    = match rev known with
      | [] => distribution_data s
      | mode :: _ => stored_distribution base_distance mode density
      end.
Proof.
  intros P D Known. induction Known as [|mode known K Known IH]; intros s SO.
  - exists [], s. repeat split; try apply SO.
  - destruct (transport_round_state s0 s base_distance density mode P D K SO)
      as (row & s1 & B & SO1 & D1 & O1).
    destruct (IH s1 SO1) as (rows & s2 & L & SO2 & O2 & Len & D2).
    exists (row :: rows), s2. split; [|split; [|split; [|split]]].
    + cbn [for_each].
      erewrite bind_returned by exact B.
      erewrite bind_returned by exact L. reflexivity.
    + exact SO2.
    + congruence.
    + simpl. now rewrite Len.
    + rewrite D2. simpl rev.
      destruct (rev known) as [|m t]; simpl; [exact D1 | reflexivity].
Qed.

(** X7.  The transport sweep has no clean-up on failure.  When the list holds
    a mode outside the table after some known modes, the sweep raises the
    [ValueError] of the setter, and the distribution group it leaves is that
    of the last known mode before it, at the base distance: the original
    distance and mode are not put back.  (With no known mode before it, the
    distribution group is untouched.)  The four other groups are as they
    were. *)
Theorem transport_sweep_unknown_mode
    (known rest : list string) (bad : string) (base_distance : num)
    (s0 : SAF_LCA_Model num) :
  others_populated s0 = true -> divisors_nonzero s0 = true ->
  Forall (fun mode => In mode default_transport_modes) known ->
  ~ In bad default_transport_modes ->
  exists s',
    analyze_transport_modes (Some (known ++ bad :: rest)%list) base_distance s0
    = Raised (ValueError (unsupported_mode bad)) s' /\
    same_others s0 s' /\
    distribution_data s'
    = match rev known with
      | [] => distribution_data s0
      | mode :: _ =>
          stored_distribution base_distance mode
            (match distribution_data s0 with
             | Some ds => ds_fuel_density ds
             | None => dec 8 1
             end)
      end.
Proof.
  intros P D Known Bad.
  destruct (print_returns (Narration "analyze_transport_modes") s0)
    as (s1 & P1 & SP1 & _).
  destruct (print_returns (Narration "analyze_transport_modes") s1)
    as (s2 & P2 & SP2 & _).
  pose proof (same_parameters_trans SP1 SP2) as (G1 & G2 & G3 & G4 & G5).
  assert (H1 : distribution_data s1 = distribution_data s0).
  { destruct SP1 as (_ & <- & _). reflexivity. }
  assert (SO2 : same_others s0 s2) by (repeat split; congruence).
  set (density := match distribution_data s0 with
                  | Some ds => ds_fuel_density ds
                  | None => dec 8 1
                  end).
  destruct (transport_rounds_state s0 base_distance density known P D Known
              s2 SO2) as (rows & s3 & L & SO3 & _ & _ & D3).
  pose proof (set_distribution_data_outcome base_distance bad density true s3)
    as O.
  destruct (stored_distribution base_distance bad density) as [ds|];
    [destruct O as (K & _); contradiction|].
  destruct O as (_ & O).
  exists s3. split; [|split].
  - unfold analyze_transport_modes. cbn [get_default].
    erewrite bind_returned by exact P1.
    erewrite bind_returned by reflexivity.
    rewrite H1. fold density.
    erewrite bind_returned by exact P2.
    erewrite bind_raised; [reflexivity|].
    rewrite for_each_app.
    erewrite bind_returned by exact L.
    erewrite bind_raised; [reflexivity|].
    cbn [for_each].
    erewrite bind_raised; [reflexivity|].
    erewrite bind_raised; [reflexivity|]. exact O.
  - exact SO3.
  - rewrite D3. destruct (rev known); [congruence | reflexivity].
Qed.


(** X9.  The electricity sweep has no clean-up on failure either.  On an
    object whose electrolysis group is set while another group is missing,
    the sweep raises the [ValueError] of [calculate_lca] in its first round,
    after the setter has replaced the source: the electrolysis group it
    leaves names the first source of the list with the table intensity of
    that source, not the original source and intensity.  (On an empty list
    the restoring step raises the same error, with the group as it was.)
    The other groups and the results are untouched. *)
Theorem electricity_sweep_missing_group
    (sources : option (list string)) (s0 : SAF_LCA_Model num)
    (el0 : electrolysis num) :
  electrolysis_data s0 = Some el0 -> all_populated s0 = false ->
  exists s',
    analyze_electricity_sources sources s0
    = Raised (ValueError missing_data) s' /\
    electrolysis_data s'
    = Some match get_default sources default_electricity_sources with
           | [] => el0
           | source :: _ => with_source el0 source (table_intensity source)
           end /\
    conversion_data s' = conversion_data s0 /\
    distribution_data s' = distribution_data s0 /\
    use_phase_data s' = use_phase_data s0 /\
    carbon_capture_data s' = carbon_capture_data s0 /\
    results s' = results s0.
Proof.
  intros H0 P.
  destruct (print_returns (Narration "analyze_electricity_sources") s0)
    as (s1 & P1 & SP1 & R1 & _).
  destruct (print_returns (Narration "analyze_electricity_sources") s1)
    as (s2 & P2 & SP2 & R2 & _).
  pose proof (same_parameters_trans SP1 SP2) as SP.
  pose proof SP as (G1 & G2 & G3 & G4 & G5).
  assert (H1 : electrolysis_data s1 = Some el0).
  { destruct SP1 as (_ & _ & _ & _ & <-). exact H0. }
  assert (H2 : electrolysis_data s2 = Some el0) by congruence.
  set (xs := get_default sources default_electricity_sources).
  assert (Step : forall source given,
             exists s3,
               (el <- electrolysis_item "co2_electrolysis_efficiency" ;;
                set_electrolysis_data
                  (el_co2_electrolysis_efficiency el)
                  (el_water_electrolysis_efficiency el)
                  source (el_energy_input_co el0) (el_energy_input_h2 el0)
                  (el_water_usage el) given true ;;;
                calculate_lca true) s2
               = Raised (ValueError missing_data) s3 /\
               electrolysis_data s3
               = Some (with_source el0 source
                         match given with
                         | Some g => g
                         | None => table_intensity source
                         end) /\
               conversion_data s3 = conversion_data s0 /\
               distribution_data s3 = distribution_data s0 /\
               use_phase_data s3 = use_phase_data s0 /\
               carbon_capture_data s3 = carbon_capture_data s0 /\
               results s3 = results s0).
  { intros source given.
    destruct (set_electrolysis_data_returns
                (el_co2_electrolysis_efficiency el0)
                (el_water_electrolysis_efficiency el0)
                source (el_energy_input_co el0) (el_energy_input_h2 el0)
                (el_water_usage el0) given true s2)
      as (s3 & S3 & F5 & F1 & F2 & F3 & F4 & FR & _).
    exists s3. split.
    - erewrite bind_returned
        by (apply electrolysis_item_found; exact H2).
      erewrite bind_returned by exact S3.
      apply calculate_lca_missing.
      revert P. unfold all_populated.
      rewrite F1, F2, F3, F4, F5, <- G1, <- G2, <- G3, <- G4, H0.
      trivial.
    - split; [exact F5|]. repeat split; congruence. }
  destruct xs as [|source rest] eqn:Xs.
  - destruct (Step (el_electricity_source el0)
                (Some (el_electricity_carbon_intensity el0)))
      as (s3 & B & E & F).
    exists s3. split; [|split; [|exact F]].
    + unfold analyze_electricity_sources. fold xs. rewrite Xs.
      erewrite bind_returned by exact P1.
      erewrite bind_returned by reflexivity.
      rewrite H1.
      erewrite bind_returned by exact P2.
      erewrite bind_returned by reflexivity.
      unfold bind in B |- *.
      destruct (electrolysis_item "co2_electrolysis_efficiency" s2)
        as [el s|e s]; [|injection B as -> ->; reflexivity].
      destruct (set_electrolysis_data _ _ _ _ _ _ _ _ s) as [[] t|e t];
        [|injection B as -> ->; reflexivity].
      rewrite B. reflexivity.
    + rewrite E. now rewrite with_source_same.
  - destruct (Step source None) as (s3 & B & E & F).
    exists s3. split; [|split; [exact E | exact F]].
    unfold analyze_electricity_sources. fold xs. rewrite Xs.
    erewrite bind_returned by exact P1.
    erewrite bind_returned by reflexivity.
    rewrite H1.
    erewrite bind_returned by exact P2.
    erewrite bind_raised; [reflexivity|].
    cbn [for_each].
    erewrite bind_raised; [reflexivity|].
    unfold bind in B |- *.
    destruct (electrolysis_item "co2_electrolysis_efficiency" s2)
      as [el s|e s]; [|injection B as -> ->; reflexivity].
    destruct (set_electrolysis_data _ _ _ _ _ _ _ _ s) as [[] t|e t];
      [|injection B as -> ->; reflexivity].
    rewrite B. reflexivity.
Qed.

(** X10.  On an object whose electrolysis group was never set, the
    electricity sweep does not report missing data: whatever the list, it
    raises [KeyError] for the key [co2_electrolysis_efficiency], and it
    leaves the groups and the results as they were. *)
Theorem electricity_sweep_without_electrolysis
    (sources : option (list string)) (s0 : SAF_LCA_Model num) :
  electrolysis_data s0 = None ->
  exists s',
    analyze_electricity_sources sources s0
    = Raised (KeyError "co2_electrolysis_efficiency") s' /\
    same_parameters s0 s' /\ results s' = results s0.
Proof.
  intros H0.
  destruct (print_returns (Narration "analyze_electricity_sources") s0)
    as (s1 & P1 & SP1 & R1 & _).
  destruct (print_returns (Narration "analyze_electricity_sources") s1)
    as (s2 & P2 & SP2 & R2 & _).
  pose proof (same_parameters_trans SP1 SP2) as SP.
  assert (H1 : electrolysis_data s1 = None).
  { destruct SP1 as (_ & _ & _ & _ & <-). exact H0. }
  assert (H2 : electrolysis_data s2 = None).
  { destruct SP2 as (_ & _ & _ & _ & <-). exact H1. }
  assert (K : forall key, electrolysis_item key s2 = Raised (KeyError key) s2).
  { intros key. unfold electrolysis_item, bind, get. now rewrite H2. }
  exists s2. split; [|split; [exact SP | congruence]].
  unfold analyze_electricity_sources.
  erewrite bind_returned by exact P1.
  erewrite bind_returned by reflexivity.
  rewrite H1.
  erewrite bind_returned by exact P2.
  destruct (get_default sources default_electricity_sources)
    as [|source rest].
  - erewrite bind_returned by reflexivity.
    erewrite bind_raised; [reflexivity | apply K].
  - erewrite bind_raised; [reflexivity|].
    cbn [for_each].
    erewrite bind_raised; [reflexivity|].
    erewrite bind_raised; [reflexivity | apply K].
Qed.

End SweepFailures.

(** ** The stored results *)

Section StoredResults.

Context {num : Type} {A : Arith num}.

Lemma whole_unchanged {T : Type} (m : M num T) :
  keeps_results m -> keeps_whole m.
Proof. intros K s H. unfold results_whole. rewrite !K. exact H. Qed.

Lemma whole_bind {T U : Type} (m : M num T) (f : T -> M num U) :
  keeps_whole m -> (forall x, keeps_whole (f x)) -> keeps_whole (bind m f).
Proof.
  intros Hm Hf s H. specialize (Hm s H). unfold bind.
  destruct (m s) as [x s'|e s']; simpl in *; [now apply Hf | exact Hm].
Qed.

Lemma whole_for_each {T U : Type} (xs : list T) (body : T -> M num U) :
  (forall x, keeps_whole (body x)) -> keeps_whole (for_each xs body).
Proof.
  intros Hb. induction xs as [|x xs IH]; simpl.
  - apply whole_unchanged. intros s. reflexivity.
  - apply whole_bind; [apply Hb|]. intros y.
    apply whole_bind; [exact IH|]. intros ys.
    apply whole_unchanged. intros s. reflexivity.
Qed.

Lemma whole_assign_inventory (g1 g2 g3 g4 g5 e1 e2 e3 e4 w1 w2 w3 : num) :
  keeps_whole
    (assign_results (inventory g1 g2 g3 g4 g5 e1 e2 e3 e4 w1 w2 w3)).
Proof. intros s _. right. do 12 eexists. reflexivity. Qed.

Ltac whole_step :=
  first
    [ apply whole_assign_inventory
    | apply whole_bind; [|intros]
    | apply whole_for_each; intros
    | match goal with
      | |- keeps_whole (match ?x with _ => _ end) => destruct x
      | |- keeps_whole (let _ := _ in _) => cbv zeta
      end
    | apply whole_unchanged; intros ?; reflexivity ].

Lemma whole_calculate_lca (silent : bool) :
  keeps_whole (calculate_lca (num:=num) silent).
Proof.
  unfold calculate_lca, truediv, narrate. repeat whole_step.
Qed.

Lemma whole_set_electrolysis_data
    (e1 e2 : num) (source : string) (co h2 w : num) (given : option num)
    (silent : bool) :
  keeps_whole (set_electrolysis_data e1 e2 source co h2 w given silent).
Proof.
  unfold set_electrolysis_data, getitem, narrate, assign_electrolysis_data.
  repeat whole_step.
Qed.

Lemma whole_set_distribution_data (distance : num) (mode : string)
    (density : num) (silent : bool) :
  keeps_whole (set_distribution_data distance mode density silent).
Proof.
  unfold set_distribution_data, getitem, narrate, assign_distribution_data.
  repeat whole_step.
Qed.

(** No call leaves a part of an inventory behind. *)
Lemma results_whole_after (c : call) (s : SAF_LCA_Model num) :
  results_whole s -> results_whole (after c s).
Proof.
  revert s. change (keeps_whole (fun s => Returned tt (after c s))).
  destruct c; simpl; intros s H.
  - revert s H.
    change (keeps_whole
              (set_conversion_data technology efficiency ghg energy_input
                 water syngas_requirement co_h2_ratio)).
    unfold set_conversion_data, assign_conversion_data. repeat whole_step.
  - now apply whole_set_distribution_data.
  - revert s H.
    change (keeps_whole
              (set_use_phase_data combustion_emissions energy_density)).
    unfold set_use_phase_data, assign_use_phase_data. repeat whole_step.
  - revert s H.
    change (keeps_whole
              (set_carbon_capture_data capture_efficiency energy_requirement
                 ghg water co2_capture_rate)).
    unfold set_carbon_capture_data, assign_carbon_capture_data.
    repeat whole_step.
  - now apply whole_set_electrolysis_data.
  - now apply whole_calculate_lca.
  - revert s H.
    change (keeps_whole
              (calculate_emission_reduction fossil_jet_emissions silent)).
    unfold calculate_emission_reduction, getitem, truediv, narrate.
    repeat first [apply whole_calculate_lca | whole_step].
  - revert s H.
    change (keeps_whole
              (analyze_electricity_sources (num:=num) electricity_sources)).
    unfold analyze_electricity_sources, electrolysis_item, getitem.
    repeat first [apply whole_calculate_lca
                 | apply whole_set_electrolysis_data | whole_step].
  - revert s H.
    change (keeps_whole
              (analyze_transport_modes transport_modes base_distance)).
    unfold analyze_transport_modes, distribution_item, getitem.
    repeat first [apply whole_calculate_lca
                 | apply whole_set_distribution_data | whole_step].
Qed.

(** X11.  The stored results are all or nothing: on every object a client
    can obtain, whatever calls were made and whether they returned or
    raised, [self.results] is either as [__init__] left it or a whole
    inventory (five GHG stages, four energy stages, three water stages, each
    category with its total, and the land-use total). *)
Theorem reachable_results_whole (s : SAF_LCA_Model num) :
  reachable s -> results_whole s.
Proof.
  induction 1 as [|c s R IH].
  - left. reflexivity.
  - apply results_whole_after. exact IH.
Qed.

(** The setters do not touch the stored results, whether they return or
    raise. *)
Lemma setter_keeps_results (c : call) (s : SAF_LCA_Model num) :
  is_setter c = true -> results (after c s) = results s.
Proof.
  destruct c; try discriminate; intros _; simpl.
  - unfold_methods. reflexivity.
  - pose proof (set_distribution_data_outcome transport_distance
                  transport_mode fuel_density silent s) as O.
    destruct (stored_distribution _ _ _).
    + destruct O as (_ & s' & -> & _ & _ & _ & _ & _ & R & _). exact R.
    + destruct O as (_ & ->). reflexivity.
  - unfold_methods. reflexivity.
  - unfold_methods. reflexivity.
  - destruct (set_electrolysis_data_returns co2_electrolysis_efficiency
                water_electrolysis_efficiency electricity_source
                energy_input_co energy_input_h2 water
                electricity_carbon_intensity silent s)
      as (s' & -> & _ & _ & _ & _ & _ & R & _).
    exact R.
Qed.

(** X12.  [calculate_emission_reduction] reports the stored results, not the
    current parameters: once [calculate_lca] has returned [r], a call of any
    setter, valid or not, followed by [calculate_emission_reduction] returns
    the reduction for the GHG total of [r], and leaves [r] stored. *)
Theorem emission_reduction_reports_stored_results
    (c : call) (b silent : bool) (fossil : num) (s s1 : SAF_LCA_Model num)
    (r : lca_results num) :
  calculate_lca b s = Returned r s1 ->
  is_setter c = true -> is_zero fossil = false ->
  exists total s2,
    dict_get (ghg_emissions r) "total" = Some total /\
    calculate_emission_reduction fossil silent (after c s1)
    = Returned (mul (quot (sub fossil (mul total (dec 1000 0))) fossil)
                    (dec 100 0)) s2 /\
    results s2 = r.
Proof.
  intros C S Z.
  destruct (calculate_lca_returned b s C) as (_ & _ & _ & R & _).
  destruct (calculate_lca_shape b s C)
    as (g1 & g2 & g3 & g4 & g5 & e1 & e2 & e3 & e4 & w1 & w2 & w3 & Sh).
  pose proof (setter_keeps_results c s1 S) as K.
  assert (T : dict_get (ghg_emissions (results (after c s1))) "total"
              = Some (add (add (add (add g1 g2) g3) g4) g5)).
  { rewrite K, R, Sh. reflexivity. }
  destruct (emission_reduction_of_stored fossil _ silent (after c s1) T Z)
    as (s2 & E & _ & R2 & _).
  eexists _, s2. split; [rewrite Sh; reflexivity|].
  split; [exact E | congruence].
Qed.

(** X13.  On an object whose results are nothing or a whole inventory,
    [calculate_emission_reduction] never raises [KeyError]: it returns, or
    raises [ZeroDivisionError], or, with nothing stored and a group missing,
    the [ValueError] of [calculate_lca]. *)
Theorem emission_reduction_exceptions
    (fossil : num) (silent : bool) (s : SAF_LCA_Model num) :
  results_whole s ->
  match result_of (calculate_emission_reduction fossil silent s) with
  | inr _ => is_zero fossil = false
  | inl e =>
      e = ZeroDivisionError \/
      (e = ValueError missing_data /\ results s = empty_results /\
       all_populated s = false)
  end.
Proof.
  intros [E | (g1 & g2 & g3 & g4 & g5 & e1 & e2 & e3 & e4 & w1 & w2 & w3 & E)].
  - unfold calculate_emission_reduction.
    unfold bind at 1, get at 1. rewrite E. cbn [dict_truthy empty_results
      ghg_emissions].
    destruct (calculate_lca_cases false s)
      as [(P & C) | [(_ & _ & s' & C) | (_ & _ & r & s' & C)]].
    + unfold bind. rewrite C. simpl. right. rewrite <- E. auto.
    + unfold bind. rewrite C. simpl. now left.
    + destruct (calculate_lca_returned false s C) as (_ & _ & _ & R & _).
      destruct (calculate_lca_shape false s C)
        as (h1 & h2 & h3 & h4 & h5 & x1 & x2 & x3 & x4 & y1 & y2 & y3 & Sh).
      unfold_methods. rewrite C. rewrite R, Sh. simpl dict_get.
      cbv iota beta.
      destruct (is_zero fossil); [now left|].
      destruct silent; reflexivity.
  - unfold_methods. rewrite E. simpl. rewrite E. simpl.
    destruct (is_zero fossil); [now left|].
    destruct silent; reflexivity.
Qed.

Section Printing.

Context {O : Compare num}.

(** X14.  [print_results] only prints: the parameter groups and the results
    are as before, whether it returns or raises.  On an object whose results
    are nothing or a whole inventory it never raises [KeyError]; it raises
    [ZeroDivisionError] exactly when the detailed breakdown is asked for and
    the GHG total in grams or the energy total is zero (the water shares are
    guarded, the GHG and energy shares are not), and returns otherwise.
    With nothing stored it prints its notice and returns. *)
Theorem print_results_outcome
    (show_detailed show_summary show_benchmarks : bool)
    (s : SAF_LCA_Model num) :
  results_whole s ->
  let o := print_results show_detailed show_summary show_benchmarks s in
  same_parameters s (final_state o) /\
  results (final_state o) = results s /\
  result_of o
  = (if show_detailed && breakdown_divides_by_zero (results s)
     then inl ZeroDivisionError else inr tt) /\
  (results s = empty_results ->
   stdout (final_state o) = (stdout s ++ [Narration "print_results"])%list).
Proof.
  intros [E | (g1 & g2 & g3 & g4 & g5 & e1 & e2 & e3 & e4 & w1 & w2 & w3 & E)].
  - revert E. destruct s as [cv ds up cc el r out]. simpl. intros ->.
    unfold print_results, breakdown_divides_by_zero, print, bind, get.
    simpl. rewrite andb_false_r. repeat split; reflexivity.
  - revert E. destruct s as [cv ds up cc el r out]. simpl. intros ->.
    unfold print_results, breakdown_divides_by_zero, print_stage_share,
      print_water_share, stages_order, truediv, getitem, print, bind, get,
      ret, raise.
    split; [|split; [|split]];
      try (intros E0; discriminate E0);
      destruct show_detailed, show_summary, show_benchmarks; cbn;
      split_zero_tests; cbn; repeat split; reflexivity.
Qed.

End Printing.

End StoredResults.

(** ** The policy benchmarks and the dashboard labels *)

Section Benchmarks.

(** In binary64, a double that is at least a positive double is at least
    every positive double of a smaller exponent. *)
Lemma float_leb_smaller_exponent (a b r : float) (ma mb : positive)
    (ea eb : Z) :
  Prim2SF a = S754_finite false ma ea ->
  Prim2SF b = S754_finite false mb eb ->
  (eb < ea)%Z ->
  PrimFloat.leb a r = true -> PrimFloat.leb b r = true.
Proof.
  intros Ha Hb Lt. rewrite !FloatAxioms.leb_spec, Ha, Hb.
  unfold SFleb, SFcompare.
  destruct (Prim2SF r) as [[|]| [|] | | [|] m e]; try discriminate;
    try reflexivity.
  destruct (Z.compare_spec ea e) as [E|L|G]; try discriminate; intros _.
  - subst e. now rewrite (proj2 (Z.compare_lt_iff eb ea) Lt).
  - now rewrite (proj2 (Z.compare_lt_iff eb e) (Z.lt_trans _ _ _ Lt L)).
Qed.

(** X15.  In binary64, for every double (infinities and NaN included), the
    three benchmarks of [print_results] are nested: a reduction that passes
    EU RED II passes CA LCFS, and one that passes CA LCFS passes CORSIA.  So
    the label of the dashboard's [check_compliance] agrees with them: it is
    the EU RED II label exactly when all three pass, the CA LCFS label
    exactly when EU RED II alone fails, the CORSIA label exactly when CORSIA
    alone passes, and the non-compliance label exactly when all three fail
    (as they do for NaN). *)
Theorem compliance_label_matches_benchmarks (reduction : float) :
  implb (red_pass reduction) (lcfs_pass reduction) = true /\
  implb (lcfs_pass reduction) (corsia_pass reduction) = true /\
  (check_compliance reduction = "✅ EU RED II"%string
   <-> red_pass reduction = true) /\
  (check_compliance reduction = "⚠️ CA LCFS"%string
   <-> red_pass reduction = false /\ lcfs_pass reduction = true) /\
  (check_compliance reduction = "⚠️ CORSIA"%string
   <-> lcfs_pass reduction = false /\ corsia_pass reduction = true) /\
  (check_compliance reduction = "❌ 不合规"%string
   <-> corsia_pass reduction = false).
Proof.
  assert (N1 : red_pass reduction = true -> lcfs_pass reduction = true).
  { unfold red_pass, lcfs_pass. cbn [geb binary64_compare].
    apply (float_leb_smaller_exponent (float_dec 65 0) (float_dec 20 0)
             reduction 4573968371548160 5629499534213120 (-46) (-48));
      [vm_compute; reflexivity | vm_compute; reflexivity | reflexivity]. }
  assert (N2 : lcfs_pass reduction = true -> corsia_pass reduction = true).
  { unfold corsia_pass, lcfs_pass. cbn [geb binary64_compare].
    apply (float_leb_smaller_exponent (float_dec 20 0) (float_dec 10 0)
             reduction 5629499534213120 5629499534213120 (-48) (-49));
      [vm_compute; reflexivity | vm_compute; reflexivity | reflexivity]. }
  unfold check_compliance.
  change (geb reduction (dec 65 0)) with (red_pass reduction).
  change (geb reduction (dec 20 0)) with (lcfs_pass reduction).
  change (geb reduction (dec 10 0)) with (corsia_pass reduction).
  destruct (red_pass reduction), (lcfs_pass reduction),
    (corsia_pass reduction);
    try (discriminate (N1 eq_refl)); try (discriminate (N2 eq_refl));
    cbn [implb]; intuition congruence.
Qed.

(** X16.  In binary64, the benchmarks on the reduction against the fixed
    baseline of [89] g at their nominal bounds on the emissions, [31.15],
    [71.2] and [80.1] g CO2e/MJ (a reduction of 65, 20 and 10 per cent in
    real numbers): EU RED II passes at [31.15] and fails at the next double
    above it, CORSIA passes at [80.1] and fails at the next double above it,
    but CA LCFS fails at [71.2] itself, where the reduction rounds to a
    double below [20], and passes at the double just below [71.2]. *)
Theorem benchmarks_at_nominal_bounds :
  red_pass (reduction_against_89 (float_dec 3115 2)) = true /\
  red_pass (reduction_against_89 (PrimFloat.next_up (float_dec 3115 2)))
  = false /\
  lcfs_pass (reduction_against_89 (float_dec 712 1)) = false /\
  PrimFloat.ltb (reduction_against_89 (float_dec 712 1)) (float_dec 20 0)
  = true /\
  lcfs_pass (reduction_against_89 (PrimFloat.next_down (float_dec 712 1)))
  = true /\
  corsia_pass (reduction_against_89 (float_dec 801 1)) = true /\
  corsia_pass (reduction_against_89 (PrimFloat.next_up (float_dec 801 1)))
  = false.
Proof.
  repeat split; vm_compute; reflexivity.
Qed.

End Benchmarks.

(** ** The kinds of electricity source of the dashboard *)

Section SourceKinds.

Lemma list_mem_In (source : string) (names : list string) :
  list_mem source names = true <-> In source names.
Proof.
  unfold list_mem. rewrite existsb_exists. split.
  - intros (x & I & E). apply String.eqb_eq in E. now subst.
  - intros I. exists source. split; [exact I | apply String.eqb_refl].
Qed.

Lemma dict_mem_keys {V : Type} (d : dict V) (k : string) :
  dict_mem d k = true -> In k (dict_keys d).
Proof.
  unfold dict_mem. induction d as [|[k' v] d IH]; [discriminate|].
  rewrite dict_get_cons. simpl.
  destruct (String.eqb_spec k' k) as [->|_]; [now left | intros H; right; auto].
Qed.

(** The label is "other" exactly when the source is in none of the four
    lists. *)
Lemma categorize_source_named (source : string) :
  categorize_source source = "❓ 其他"%string
  <-> list_mem source
        ["wind"; "solar"; "hydro"; "renewable_mix"; "renewable"; "nuclear";
         "coal"; "natural_gas"; "grid_global"; "grid_eu"; "grid_us";
         "grid_china"]%string = false.
Proof.
  change ["wind"; "solar"; "hydro"; "renewable_mix"; "renewable"; "nuclear";
          "coal"; "natural_gas"; "grid_global"; "grid_eu"; "grid_us";
          "grid_china"]%string
    with (["wind"; "solar"; "hydro"; "renewable_mix"; "renewable"]
          ++ ["nuclear"] ++ ["coal"; "natural_gas"]
          ++ ["grid_global"; "grid_eu"; "grid_us"; "grid_china"])%list.
  unfold categorize_source, list_mem. cbv zeta. rewrite !existsb_app.
  destruct (existsb _ ["wind"; "solar"; "hydro"; "renewable_mix";
                       "renewable"]%string),
    (existsb _ ["nuclear"]%string),
    (existsb _ ["coal"; "natural_gas"]%string),
    (existsb _ ["grid_global"; "grid_eu"; "grid_us"; "grid_china"]%string);
    cbn [orb]; split; intros H; try discriminate H; reflexivity.
Qed.

(** X17.  [categorize_source] names a kind for exactly twelve sources and
    answers "other" for every other string.  The eleven sources of the
    default electricity sweep, whose rows the dashboard labels, are all
    among the twelve; of the sources in the intensity table of
    [set_electrolysis_data], exactly biomass and low_carbon_mix are labelled
    "other". *)
Theorem categorize_source_other (source : string) :
  (categorize_source source = "❓ 其他"%string
   <-> ~ In source
         ["wind"; "solar"; "hydro"; "renewable_mix"; "renewable"; "nuclear";
          "coal"; "natural_gas"; "grid_global"; "grid_eu"; "grid_us";
          "grid_china"]%string) /\
  (In source default_electricity_sources ->
   categorize_source source <> "❓ 其他"%string) /\
  (dict_mem (electricity_carbon_intensities (num:=float)) source = true ->
   (categorize_source source = "❓ 其他"%string
    <-> source = "biomass"%string \/ source = "low_carbon_mix"%string)).
Proof.
  split; [|split].
  - rewrite categorize_source_named, <- list_mem_In.
    destruct (list_mem source _); split; congruence.
  - intros I. rewrite categorize_source_named.
    assert (F : Forall (fun name =>
                          list_mem name
                            ["wind"; "solar"; "hydro"; "renewable_mix";
                             "renewable"; "nuclear"; "coal"; "natural_gas";
                             "grid_global"; "grid_eu"; "grid_us";
                             "grid_china"]%string = true)
                       default_electricity_sources)
      by (repeat constructor).
    rewrite Forall_forall in F. rewrite (F source I). discriminate.
  - intros T. apply dict_mem_keys in T. rewrite categorize_source_named.
    assert (F : Forall (fun name =>
                          negb (list_mem name
                                  ["wind"; "solar"; "hydro"; "renewable_mix";
                                   "renewable"; "nuclear"; "coal";
                                   "natural_gas"; "grid_global"; "grid_eu";
                                   "grid_us"; "grid_china"]%string)
                          = (String.eqb name "biomass"
                             || String.eqb name "low_carbon_mix")%bool)
                       (dict_keys
                          (electricity_carbon_intensities (num:=float))))
      by (repeat constructor).
    rewrite Forall_forall in F. specialize (F source T).
    rewrite <- negb_true_iff, F, orb_true_iff, !String.eqb_eq. reflexivity.
Qed.

End SourceKinds.

(** ** The ranking of the transport modes in binary64 *)

Section ModeRanking.

Lemma float_leb_number (x y : float) :
  PrimFloat.leb x y = true ->
  PrimFloat.is_nan x = false /\ PrimFloat.is_nan y = false.
Proof.
  rewrite FloatAxioms.leb_spec, !is_nan_spec.
  destruct (Prim2SF x), (Prim2SF y); cbn; intros H; split; congruence.
Qed.

(** X18.  In binary64, for a positive energy density and a distance that is
    not negative, the transport modes rank by their emission factor (in the
    table: pipeline, ship, rail, barge, truck): if [set_distribution_data]
    with a mode followed by [calculate_lca] returns, so does the same with a
    mode of a factor at least as high, and neither the distribution stage
    nor the total of the GHG category is lower for it: the comparison
    [value for the higher factor < value for the lower] is false, and [<=]
    holds whenever both values are numbers. *)
Theorem transport_modes_rank_by_factor
    (s s1 : SAF_LCA_Model float) (r1 : lca_results float)
    (up : use_phase float) (mode mode' : string)
    (ef ef' density distance : float) (silent : bool) :
  dict_get (emission_factors (num:=float)) mode = Some ef ->
  dict_get (emission_factors (num:=float)) mode' = Some ef' ->
  PrimFloat.leb ef ef' = true ->
  use_phase_data s = Some up ->
  PrimFloat.ltb PrimFloat.zero (up_energy_density up) = true ->
  PrimFloat.leb PrimFloat.zero distance = true ->
  (set_distribution_data distance mode density silent ;;;
   calculate_lca silent) s = Returned r1 s1 ->
  exists r2 s2 dist1 dist2 total1 total2,
    (set_distribution_data distance mode' density silent ;;;
     calculate_lca silent) s = Returned r2 s2 /\
    dict_get (ghg_emissions r1) "distribution" = Some dist1 /\
    dict_get (ghg_emissions r2) "distribution" = Some dist2 /\
    dict_get (ghg_emissions r1) "total" = Some total1 /\
    dict_get (ghg_emissions r2) "total" = Some total2 /\
    PrimFloat.ltb dist2 dist1 = false /\
    PrimFloat.ltb total2 total1 = false /\
    (PrimFloat.is_nan dist1 = false -> PrimFloat.is_nan dist2 = false ->
     PrimFloat.leb dist1 dist2 = true) /\
    (PrimFloat.is_nan total1 = false -> PrimFloat.is_nan total2 = false ->
     PrimFloat.leb total1 total2 = true).
Proof.
  intros Ef Ef' Le Up Epos D Run.
  pose proof (emission_factor_known _ Ef) as K.
  pose proof (emission_factor_known _ Ef') as K'.
  destruct (set_distribution_data_known distance density silent s K)
    as (ds1 & t1 & St1 & S1 & F1 & G1 & G2 & G3 & G4 & _).
  destruct (set_distribution_data_known distance density silent s K')
    as (ds2 & t2 & St2 & S2 & F2 & H1 & H2 & H3 & H4 & _).
  erewrite bind_returned in Run by exact S1.
  destruct (stored_distribution_ghg distance mode density ds1 St1)
    as (f & Hf & Q1).
  destruct (stored_distribution_ghg distance mode' density ds2 St2)
    as (f' & Hf' & Q2).
  rewrite Ef in Hf. injection Hf as <-.
  rewrite Ef' in Hf'. injection Hf' as <-.
  assert (Up1 : use_phase_data t1 = Some up) by congruence.
  destruct (calculate_lca_varying_distribution silent t1 t2 s1 r1 ds1 ds2 up)
    as (g1 & g2 & g3 & g5 & r2 & s2 & C2 & R1 & R2); try congruence.
  exists r2, s2. rewrite R1, R2. cbv zeta.
  do 4 eexists.
  split; [erewrite bind_returned by exact S2; exact C2|].
  do 4 (split; [reflexivity|]).
  rewrite Q1, Q2.
  destruct (emission_factor_per_kg mode ef Ef) as (P & Cpos).
  destruct (emission_factor_per_kg mode' ef' Ef') as (_ & Cpos').
  assert (Lc : PrimFloat.leb (PrimFloat.mul ef (float_dec 1 3))
                 (PrimFloat.mul ef' (float_dec 1 3)) = true).
  { apply float_mul_mono_l; try assumption; try reflexivity.
    - now apply float_leb_number in Cpos.
    - now apply float_leb_number in Cpos'. }
  destruct (stage_and_total_monotone g1 g2 g3 g5
              (PrimFloat.mul (PrimFloat.mul ef (float_dec 1 3)) distance)
              (PrimFloat.mul (PrimFloat.mul ef' (float_dec 1 3)) distance)
              (up_energy_density up) Epos) as (St & Tt).
  { intros N1 N2. split.
    - now apply float_mul_nonneg.
    - now apply float_mul_mono_l. }
  cbv zeta in St, Tt.
  split; [apply float_never_less; exact St|].
  split; [apply float_never_less; exact Tt|].
  split; [exact St | exact Tt].
Qed.

End ModeRanking.

(** ** The ranking of the electricity sources in binary64 *)

Section ElectrolysisStage.

Context {num : Type} {A : Arith num}.

(** Two objects that differ in the source and the intensity of the
    electrolysis group only: [calculate_lca] returns on both or on neither,
    and the GHG categories differ in the electrolysis stage only, which is
    the energy of each electrolyser times the intensity per MJ. *)
Lemma calculate_lca_electrolysis_stage (b b' : bool)
    (s t s' : SAF_LCA_Model num) (r : lca_results num)
    (cv : conversion num) (el : electrolysis num) (up : use_phase num)
    (source : string) (intensity : num) :
  conversion_data t = conversion_data s ->
  distribution_data t = distribution_data s ->
  use_phase_data t = use_phase_data s ->
  carbon_capture_data t = carbon_capture_data s ->
  conversion_data s = Some cv -> use_phase_data s = Some up ->
  electrolysis_data s = Some el ->
  electrolysis_data t = Some (with_source el source intensity) ->
  calculate_lca b s = Returned r s' ->
  exists g1 g3 g4 g5 r_t t',
    calculate_lca b' t = Returned r_t t' /\
    ghg_emissions r
    = (let g2 :=
         add (mul (co_electrolysis_energy cv el up)
                  (quot (el_electricity_carbon_intensity el) (dec 36 1)))
             (mul (h2_electrolysis_energy cv el up)
                  (quot (el_electricity_carbon_intensity el) (dec 36 1))) in
       [("carbon_capture", g1); ("electrolysis", g2); ("conversion", g3);
        ("distribution", g4); ("use_phase", g5);
        ("total", add (add (add (add g1 g2) g3) g4) g5)]) /\
    ghg_emissions r_t
    = (let g2 :=
         add (mul (co_electrolysis_energy cv el up)
                  (quot intensity (dec 36 1)))
             (mul (h2_electrolysis_energy cv el up)
                  (quot intensity (dec 36 1))) in
       [("carbon_capture", g1); ("electrolysis", g2); ("conversion", g3);
        ("distribution", g4); ("use_phase", g5);
        ("total", add (add (add (add g1 g2) g3) g4) g5)]) /\
    is_zero (add (dec 1 0) (get_default (cv_co_h2_ratio cv) (dec 5 1)))
    = false /\
    is_zero (quot (el_co2_electrolysis_efficiency el) (dec 100 0)) = false /\
    is_zero (quot (el_water_electrolysis_efficiency el) (dec 100 0)) = false.
Proof.
  intros E1 E2 E3 E4 Ec Eu Es Et. unfold_methods.
  rewrite E1, E2, E3, E4, Et, Es, Ec, Eu.
  destruct (carbon_capture_data s) as [cc|], (distribution_data s) as [ds|];
    try discriminate.
  unfold co_electrolysis_energy, h2_electrolysis_energy.
  destruct b, b'; cbn; split_zero_tests; try discriminate;
    intros H; injection H as <- _; do 6 eexists;
    repeat split; try reflexivity; assumption.
Qed.

End ElectrolysisStage.

Section SourceRanking.

Lemma dict_get_values {V : Type} (d : dict V) (k : string) (v : V) :
  dict_get d k = Some v -> In v (map snd d).
Proof.
  induction d as [|[k' v'] d IH]; [discriminate|].
  rewrite dict_get_cons. simpl.
  destruct (String.eqb k' k); [intros [= ->]; now left | auto].
Qed.

(** The intensities the table can resolve to, per MJ: they are non-negative
    numbers that follow the order of the intensities per kWh. *)
Lemma table_intensity_per_mj (source source' : string) :
  PrimFloat.leb (table_intensity (num:=float) source)
                (table_intensity source') = true ->
  PrimFloat.leb PrimFloat.zero
    (PrimFloat.div (table_intensity source) (float_dec 36 1)) = true /\
  PrimFloat.leb (PrimFloat.div (table_intensity source) (float_dec 36 1))
    (PrimFloat.div (table_intensity source') (float_dec 36 1)) = true.
Proof.
  assert (V : forall name,
             In (table_intensity (num:=float) name)
                (float_dec 20 3
                 :: map snd (electricity_carbon_intensities (num:=float)))).
  { intros name. unfold table_intensity.
    destruct (dict_get electricity_carbon_intensities name) as [v|] eqn:G.
    - right. now apply dict_get_values with name.
    - now left. }
  assert (F : forallb (fun a =>
                forallb (fun c =>
                  implb (PrimFloat.leb a c)
                    (PrimFloat.leb PrimFloat.zero
                       (PrimFloat.div a (float_dec 36 1))
                     && PrimFloat.leb (PrimFloat.div a (float_dec 36 1))
                          (PrimFloat.div c (float_dec 36 1))))
                  (float_dec 20 3
                   :: map snd (electricity_carbon_intensities (num:=float))))
                (float_dec 20 3
                 :: map snd (electricity_carbon_intensities (num:=float)))
              = true) by (vm_compute; reflexivity).
  intros L.
  rewrite forallb_forall in F. specialize (F _ (V source)).
  rewrite forallb_forall in F. specialize (F _ (V source')).
  rewrite L in F. cbn [implb] in F. now apply andb_prop in F.
Qed.

(** With parameters that are not negative, the energy of each electrolyser
    is a non-negative number or not a number at all. *)
Lemma electrolysis_energy_nonneg (cv : conversion float)
    (el : electrolysis float) (up : use_phase float) :
  PrimFloat.ltb PrimFloat.zero (up_energy_density up) = true ->
  PrimFloat.leb PrimFloat.zero
    (get_default (cv_syngas_requirement cv) (float_dec 25 1)) = true ->
  PrimFloat.leb PrimFloat.zero
    (get_default (cv_co_h2_ratio cv) (float_dec 5 1)) = true ->
  PrimFloat.leb PrimFloat.zero (el_co2_electrolysis_efficiency el) = true ->
  PrimFloat.leb PrimFloat.zero (el_water_electrolysis_efficiency el) = true ->
  PrimFloat.leb PrimFloat.zero (el_energy_input_co el) = true ->
  PrimFloat.leb PrimFloat.zero (el_energy_input_h2 el) = true ->
  PrimFloat.is_zero
    (PrimFloat.add (float_dec 1 0)
       (get_default (cv_co_h2_ratio cv) (float_dec 5 1))) = false ->
  PrimFloat.is_zero
    (PrimFloat.div (el_co2_electrolysis_efficiency el) (float_dec 100 0))
  = false ->
  PrimFloat.is_zero
    (PrimFloat.div (el_water_electrolysis_efficiency el) (float_dec 100 0))
  = false ->
  (PrimFloat.is_nan (co_electrolysis_energy cv el up) = false ->
   PrimFloat.leb PrimFloat.zero (co_electrolysis_energy cv el up) = true) /\
  (PrimFloat.is_nan (h2_electrolysis_energy cv el up) = false ->
   PrimFloat.leb PrimFloat.zero (h2_electrolysis_energy cv el up) = true).
Proof.
  intros Ed Sy Ra E1 E2 Ci Hi Nz0 Nz1 Nz2.
  assert (One : PrimFloat.leb PrimFloat.zero (float_dec 1 0) = true)
    by reflexivity.
  assert (Den : PrimFloat.ltb PrimFloat.zero
                  (PrimFloat.add (float_dec 1 0)
                     (get_default (cv_co_h2_ratio cv) (float_dec 5 1)))
                = true).
  { apply float_positive; [|exact Nz0].
    now apply float_add_nonneg. }
  unfold co_electrolysis_energy, h2_electrolysis_energy.
  cbn [mul quot add dec binary64]. cbv zeta.
  split; intros N.
  - destruct (float_mul_number _ _ N) as (N1 & _).
    destruct (float_div_number _ _ N1) as (N2 & N3).
    destruct (float_mul_number _ _ N2) as (N4 & N5).
    destruct (float_mul_number _ _ N4) as (_ & N6).
    apply float_mul_nonneg; try assumption.
    apply float_div_nonneg; try assumption.
    + apply float_mul_nonneg; try assumption.
      * apply float_mul_nonneg; try assumption.
        now apply float_div_nonneg.
      * now apply float_div_nonneg.
    + apply float_positive; [|exact Nz1].
      apply float_div_nonneg; try assumption; reflexivity.
  - destruct (float_mul_number _ _ N) as (N1 & _).
    destruct (float_div_number _ _ N1) as (N2 & N3).
    destruct (float_mul_number _ _ N2) as (N4 & N5).
    destruct (float_mul_number _ _ N4) as (_ & N6).
    apply float_mul_nonneg; try assumption.
    apply float_div_nonneg; try assumption.
    + apply float_mul_nonneg; try assumption.
      * apply float_mul_nonneg; try assumption.
        now apply float_div_nonneg.
      * now apply float_div_nonneg.
    + apply float_positive; [|exact Nz2].
      apply float_div_nonneg; try assumption; reflexivity.
Qed.

(** X19.  In binary64, with a positive energy density and with a syngas
    requirement, a CO:H2 ratio, efficiencies and energy inputs that are not
    negative, the electricity sources that [set_electrolysis_data] resolves
    from its table (no intensity given, as in the sweep) rank by their
    intensity: if [calculate_lca] returns for one source, it returns for a
    source of a table intensity at least as high, and neither the
    electrolysis stage nor the total of the GHG category is lower for it:
    the comparison [value for the higher intensity < value for the lower]
    is false, and [<=] holds whenever both values are numbers. *)
Theorem sources_rank_by_intensity
    (e1 e2 : float) (source source' : string) (co h2 w : float)
    (q q' b b' : bool) (s s1 : SAF_LCA_Model float) (r1 : lca_results float)
    (cv : conversion float) (up : use_phase float) :
  conversion_data s = Some cv -> use_phase_data s = Some up ->
  PrimFloat.ltb PrimFloat.zero (up_energy_density up) = true ->
  PrimFloat.leb PrimFloat.zero
    (get_default (cv_syngas_requirement cv) (float_dec 25 1)) = true ->
  PrimFloat.leb PrimFloat.zero
    (get_default (cv_co_h2_ratio cv) (float_dec 5 1)) = true ->
  PrimFloat.leb PrimFloat.zero e1 = true ->
  PrimFloat.leb PrimFloat.zero e2 = true ->
  PrimFloat.leb PrimFloat.zero co = true ->
  PrimFloat.leb PrimFloat.zero h2 = true ->
  PrimFloat.leb (table_intensity (num:=float) source)
                (table_intensity source') = true ->
  (set_electrolysis_data e1 e2 source co h2 w None q ;;; calculate_lca b) s
  = Returned r1 s1 ->
  exists r2 s2 stage1 stage2 total1 total2,
    (set_electrolysis_data e1 e2 source' co h2 w None q' ;;;
     calculate_lca b') s = Returned r2 s2 /\
    dict_get (ghg_emissions r1) "electrolysis" = Some stage1 /\
    dict_get (ghg_emissions r2) "electrolysis" = Some stage2 /\
    dict_get (ghg_emissions r1) "total" = Some total1 /\
    dict_get (ghg_emissions r2) "total" = Some total2 /\
    PrimFloat.ltb stage2 stage1 = false /\
    PrimFloat.ltb total2 total1 = false /\
    (PrimFloat.is_nan stage1 = false -> PrimFloat.is_nan stage2 = false ->
     PrimFloat.leb stage1 stage2 = true) /\
    (PrimFloat.is_nan total1 = false -> PrimFloat.is_nan total2 = false ->
     PrimFloat.leb total1 total2 = true).
Proof.
  intros Ec Eu Ed Sy Ra E1 E2 Ci Hi Le Run.
  destruct (set_electrolysis_data_returns e1 e2 source co h2 w None q s)
    as (t1 & S1 & F5 & F1 & F2 & F3 & F4 & _).
  destruct (set_electrolysis_data_returns e1 e2 source' co h2 w None q' s)
    as (t2 & S2 & G5 & G1 & G2 & G3 & G4 & _).
  erewrite bind_returned in Run by exact S1.
  set (el := {| el_co2_electrolysis_efficiency := e1;
                el_water_electrolysis_efficiency := e2;
                el_electricity_source := source;
                el_electricity_carbon_intensity := table_intensity source;
                el_energy_input_co := co;
                el_energy_input_h2 := h2;
                el_water_usage := w |}) in *.
  destruct (calculate_lca_electrolysis_stage b b' t1 t2 s1 r1 cv el up
              source' (table_intensity source'))
    as (g1 & g3 & g4 & g5 & r2 & s2 & C2 & R1 & R2 & Nz0 & Nz1 & Nz2);
    try congruence; [exact G5|].
  destruct (table_intensity_per_mj source source' Le) as (I0 & I1).
  destruct (electrolysis_energy_nonneg cv el up Ed Sy Ra E1 E2 Ci Hi Nz0 Nz1 Nz2)
    as (Pc & Ph).
  change (el_electricity_carbon_intensity el)
    with (table_intensity (num:=float) source) in R1.
  set (CO := co_electrolysis_energy cv el up) in *.
  set (H2 := h2_electrolysis_energy cv el up) in *.
  exists r2, s2. rewrite R1, R2. cbv zeta.
  do 4 eexists.
  split; [erewrite bind_returned by exact S2; exact C2|].
  do 4 (split; [reflexivity|]).
  cbn [mul quot add dec binary64].
  set (i := PrimFloat.div (table_intensity source) (float_dec 36 1)) in *.
  set (i' := PrimFloat.div (table_intensity source') (float_dec 36 1)) in *.
  assert (St : PrimFloat.is_nan
                 (PrimFloat.add (PrimFloat.mul CO i) (PrimFloat.mul H2 i))
               = false ->
               PrimFloat.is_nan
                 (PrimFloat.add (PrimFloat.mul CO i') (PrimFloat.mul H2 i'))
               = false ->
               PrimFloat.leb
                 (PrimFloat.add (PrimFloat.mul CO i) (PrimFloat.mul H2 i))
                 (PrimFloat.add (PrimFloat.mul CO i') (PrimFloat.mul H2 i'))
               = true).
  { intros N1 N2.
    destruct (float_add_number _ _ N1) as (A1 & B1).
    destruct (float_add_number _ _ N2) as (A2 & B2).
    destruct (float_mul_number _ _ A1) as (NC & _).
    destruct (float_mul_number _ _ B1) as (NH & _).
    specialize (Pc NC). specialize (Ph NH).
    apply float_add_mono.
    - now apply float_mul_nonneg.
    - now apply float_mul_nonneg.
    - now apply float_mul_mono_r.
    - now apply float_mul_mono_r. }
  assert (Tt : forall x y,
             (PrimFloat.is_nan x = false -> PrimFloat.is_nan y = false ->
              PrimFloat.leb x y = true) ->
             PrimFloat.is_nan
               (PrimFloat.add
                  (PrimFloat.add (PrimFloat.add (PrimFloat.add g1 x) g3) g4)
                  g5) = false ->
             PrimFloat.is_nan
               (PrimFloat.add
                  (PrimFloat.add (PrimFloat.add (PrimFloat.add g1 y) g3) g4)
                  g5) = false ->
             PrimFloat.leb
               (PrimFloat.add
                  (PrimFloat.add (PrimFloat.add (PrimFloat.add g1 x) g3) g4)
                  g5)
               (PrimFloat.add
                  (PrimFloat.add (PrimFloat.add (PrimFloat.add g1 y) g3) g4)
                  g5) = true).
  { intros x y H N1 N2.
    destruct (float_add_number _ _ N1) as (A1 & _).
    destruct (float_add_number _ _ N2) as (A2 & _).
    destruct (float_add_number _ _ A1) as (B1 & _).
    destruct (float_add_number _ _ A2) as (B2 & _).
    destruct (float_add_number _ _ B1) as (C1 & _).
    destruct (float_add_number _ _ B2) as (D2 & _).
    destruct (float_add_number _ _ C1) as (_ & X1).
    destruct (float_add_number _ _ D2) as (_ & X2).
    apply float_add_mono_l; try assumption.
    apply float_add_mono_l; try assumption.
    apply float_add_mono_l; try assumption.
    apply float_add_mono_r; try assumption.
    now apply H. }
  split; [apply float_never_less; exact St|].
  split; [apply float_never_less; now apply Tt|].
  split; [exact St | now apply Tt].
Qed.

End SourceRanking.

(** ** The further properties at the documented example *)

Section FurtherInstances.

Local Open Scope float_scope.

(** X1 at the documented example. *)
Lemma calculate_lca_idempotent_example :
  calculate_lca true (example_computed (num:=float))
  = Returned example_results example_computed.
Proof.
  destruct (@calculate_lca_idempotent float binary64 true example_model
              example_computed example_results) as (H & _).
  - vm_compute. reflexivity.
  - exact H.
Defined.

(** X4 at the documented example, from coal to tidal power. *)
Lemma electricity_changes_only_electrolysis_ghg_example :
  let run source :=
    (set_electrolysis_data (float_dec 650 1) (float_dec 750 1) source
       (float_dec 280 1) (float_dec 550 1) (float_dec 200 1) None true ;;;
     calculate_lca true) (example_model (num:=float)) in
  exists r2 s2,
    run "tidal"%string = Returned r2 s2 /\
    energy_consumption r2
    = energy_consumption (results (final_state (run "coal"%string))) /\
    water_usage r2
    = water_usage (results (final_state (run "coal"%string))).
Proof.
  intros run.
  destruct (@electricity_changes_only_electrolysis_ghg float binary64
              (float_dec 650 1) (float_dec 750 1) "coal"%string
              "tidal"%string (float_dec 280 1) (float_dec 550 1)
              (float_dec 200 1) None None true true true true example_model
              (final_state (run "coal"%string))
              (results (final_state (run "coal"%string))))
    as (r2 & s2 & R & E & W & _).
  - vm_compute. reflexivity.
  - exists r2, s2. repeat split; assumption.
Defined.



(** X7 at the documented example: a sweep over truck, an unknown mode and
    rail leaves the truck scenario at 250 km in place of the documented
    500 km. *)
Lemma transport_sweep_unknown_mode_example :
  exists s',
    analyze_transport_modes (Some ["truck"; "plane"; "rail"]%string)
      (float_dec 250 0) (example_model (num:=float))
    = Raised (ValueError (unsupported_mode "plane")) s' /\
    distribution_data s'
    = stored_distribution (float_dec 250 0) "truck" (float_dec 8 1) /\
    distribution_data s' <> distribution_data (example_model (num:=float)).
Proof.
  destruct (@transport_sweep_unknown_mode float binary64 ["truck"]%string
              ["rail"]%string "plane"%string (float_dec 250 0) example_model)
    as (s' & R & _ & D).
  - vm_compute. reflexivity.
  - vm_compute. reflexivity.
  - repeat constructor; simpl; tauto.
  - simpl. intros [H|[H|[H|[H|[H|[]]]]]]; discriminate H.
  - exists s'. split; [exact R|]. split.
    + rewrite D. vm_compute. reflexivity.
    + rewrite D. intros H.
      apply (f_equal (fun o => match o with
                               | Some ds =>
                                   PrimFloat.eqb (ds_transport_distance ds)
                                     (float_dec 250 0)
                               | None => false
                               end)) in H.
      vm_compute in H. discriminate H.
Defined.


(** X9 on a new object whose electrolysis group alone is set, with wind
    power: the failed default sweep leaves the first source of its list. *)
Lemma electricity_sweep_missing_group_example :
  let s0 :=
    final_state
      (set_electrolysis_data (float_dec 650 1) (float_dec 750 1) "wind"
         (float_dec 280 1) (float_dec 550 1) (float_dec 200 1) None true
         (init (num:=float))) in
  exists s',
    analyze_electricity_sources None s0
    = Raised (ValueError missing_data) s' /\
    option_map (fun el => el_electricity_source el) (electrolysis_data s0)
    = Some "wind"%string /\
    option_map (fun el => el_electricity_source el) (electrolysis_data s')
    = Some "renewable_mix"%string.
Proof.
  intros s0.
  destruct (electrolysis_data s0) as [el0|] eqn:E;
    [|vm_compute in E; discriminate E].
  destruct (@electricity_sweep_missing_group float binary64 None s0 el0)
    as (s' & R & D & _).
  - exact E.
  - vm_compute. reflexivity.
  - exists s'. split; [exact R|]. split.
    + vm_compute in E. injection E as <-. reflexivity.
    + rewrite D. reflexivity.
Defined.

(** X10 on a new object. *)
Lemma electricity_sweep_without_electrolysis_example :
  exists s',
    analyze_electricity_sources (Some ["wind"]%string) (init (num:=float))
    = Raised (KeyError "co2_electrolysis_efficiency") s' /\
    results s' = empty_results.
Proof.
  destruct (@electricity_sweep_without_electrolysis float binary64
              (Some ["wind"]%string) init) as (s' & R & _ & Q).
  - reflexivity.
  - exists s'. split; [exact R | exact Q].
Defined.

(** X11 on the object left by a sweep that failed on a new object. *)
Lemma reachable_results_whole_example :
  results_whole
    (after (Call_analyze_transport_modes None (float_dec 500 0))
       (after (Call_set_use_phase_data (float_dec 0 1) (float_dec 430 1))
          (init (num:=float)))).
Proof.
  apply (@reachable_results_whole float binary64).
  apply reachable_after, reachable_after, reachable_init.
Defined.

(** X12 at the documented example: after the computed object is switched to
    coal power, the reduction reported is still that of wind power. *)
Lemma emission_reduction_reports_stored_results_example :
  let coal :=
    Call_set_electrolysis_data (float_dec 650 1) (float_dec 750 1) "coal"
      (float_dec 280 1) (float_dec 550 1) (float_dec 200 1) None true in
  result_of
    (calculate_emission_reduction (float_dec 890 1) true
       (after coal (example_computed (num:=float))))
  = result_of
      (calculate_emission_reduction (float_dec 890 1) true
         (example_computed (num:=float))).
Proof.
  intros coal.
  destruct (@emission_reduction_reports_stored_results float binary64 coal
              true true (float_dec 890 1) example_model example_computed
              example_results) as (total & s2 & T & E & _).
  - vm_compute. reflexivity.
  - reflexivity.
  - vm_compute. reflexivity.
  - rewrite E. vm_compute in T. injection T as <-.
    vm_compute. reflexivity.
Defined.

(** X13 on a new object: the error is the missing data of
    [calculate_lca]. *)
Lemma emission_reduction_exceptions_example :
  match result_of
          (calculate_emission_reduction (float_dec 890 1) true
             (init (num:=float))) with
  | inr _ => is_zero (float_dec 890 1) = false
  | inl e =>
      e = ZeroDivisionError \/
      (e = ValueError missing_data /\
       results (init (num:=float)) = empty_results /\
       all_populated (init (num:=float)) = false)
  end.
Proof.
  apply (@emission_reduction_exceptions float binary64 (float_dec 890 1) true
           init).
  left. reflexivity.
Defined.

(** X14 on the emission-free example: the detailed report raises, the
    report without the breakdown returns. *)
Lemma print_results_outcome_example :
  result_of (print_results true true true (emission_free_model (num:=float)))
  = inl ZeroDivisionError /\
  result_of (print_results false true true (emission_free_model (num:=float)))
  = inr tt.
Proof.
  assert (W : results_whole (emission_free_model (num:=float))).
  { apply (@whole_calculate_lca float binary64 true emission_free_setup).
    left. vm_compute. reflexivity. }
  destruct (@print_results_outcome float binary64 binary64_compare true true
              true emission_free_model W) as (_ & _ & R1 & _).
  destruct (@print_results_outcome float binary64 binary64_compare false true
              true emission_free_model W) as (_ & _ & R2 & _).
  split.
  - rewrite R1. vm_compute. reflexivity.
  - rewrite R2. reflexivity.
Defined.

(** X15 at a reduction of 70 per cent. *)
Lemma compliance_label_matches_benchmarks_example :
  check_compliance (float_dec 70 0) = "✅ EU RED II"%string.
Proof.
  destruct (compliance_label_matches_benchmarks (float_dec 70 0))
    as (_ & _ & (_ & H) & _).
  apply H. vm_compute. reflexivity.
Defined.

(** X17 at coal, a source of the default sweep. *)
Lemma categorize_source_other_example :
  categorize_source "coal" <> "❓ 其他"%string.
Proof.
  destruct (categorize_source_other "coal") as (_ & H & _).
  apply H. simpl. tauto.
Defined.

End FurtherInstances.

Section RankingInstances.

(** X18 at the documented example, from rail to truck. *)
Lemma transport_modes_rank_by_factor_example :
  exists r2 s2,
    (set_distribution_data (float_dec 500 0) "truck" (float_dec 8 1) true ;;;
     calculate_lca true) (example_model (num:=float)) = Returned r2 s2.
Proof.
  pose (o := (set_distribution_data (float_dec 500 0) "rail" (float_dec 8 1)
                true ;;;
              calculate_lca true) (example_model (num:=float))).
  destruct (transport_modes_rank_by_factor example_model
              (final_state o) (results (final_state o))
              {| up_combustion_emissions := float_dec 0 1;
                 up_energy_density := float_dec 430 1 |}
              "rail"%string "truck"%string (float_dec 22 3) (float_dec 62 3)
              (float_dec 8 1) (float_dec 500 0) true)
    as (r2 & s2 & x1 & x2 & t1 & t2 & R & _).
  - reflexivity.
  - reflexivity.
  - vm_compute. reflexivity.
  - vm_compute. reflexivity.
  - vm_compute. reflexivity.
  - vm_compute. reflexivity.
  - vm_compute. reflexivity.
  - exists r2, s2. exact R.
Defined.

(** X19 at the documented example, from wind to coal power. *)
Lemma sources_rank_by_intensity_example :
  exists r2 s2,
    (set_electrolysis_data (float_dec 650 1) (float_dec 750 1) "coal"
       (float_dec 280 1) (float_dec 550 1) (float_dec 200 1) None true ;;;
     calculate_lca true) (example_model (num:=float)) = Returned r2 s2.
Proof.
  pose (o := (set_electrolysis_data (float_dec 650 1) (float_dec 750 1)
                "wind" (float_dec 280 1) (float_dec 550 1) (float_dec 200 1)
                None true ;;;
              calculate_lca true) (example_model (num:=float))).
  destruct (conversion_data (example_model (num:=float))) as [cv|] eqn:Ec;
    [|vm_compute in Ec; discriminate Ec].
  destruct (sources_rank_by_intensity (float_dec 650 1) (float_dec 750 1)
              "wind"%string "coal"%string (float_dec 280 1) (float_dec 550 1)
              (float_dec 200 1) true true true true example_model
              (final_state o) (results (final_state o)) cv
              {| up_combustion_emissions := float_dec 0 1;
                 up_energy_density := float_dec 430 1 |})
    as (r2 & s2 & x1 & x2 & t1 & t2 & R & _).
  - exact Ec.
  - vm_compute. reflexivity.
  - vm_compute. reflexivity.
  - vm_compute in Ec. injection Ec as <-. vm_compute. reflexivity.
  - vm_compute in Ec. injection Ec as <-. vm_compute. reflexivity.
  - vm_compute. reflexivity.
  - vm_compute. reflexivity.
  - vm_compute. reflexivity.
  - vm_compute. reflexivity.
  - vm_compute. reflexivity.
  - vm_compute. reflexivity.
  - exists r2, s2. exact R.
Defined.

End RankingInstances.
